(** * MultipathLatencyAnalyzer: the stream client and its datagram header

    A shallow embedding of [datagram.h] and [stream_client.cpp]
    (namespace [multipath]) and the properties of the measurement engine
    that are stated about them.

    Conventions of the embedding.
    - A [long long] is a [Z] in [LLONG_MIN, LLONG_MAX]; signed arithmetic
      that leaves the range is undefined behaviour and is reported as such.
      An [unsigned long long] / [size_t] is a [Z] in [0, 2^64) and wraps.
    - A member function of [StreamClient] is a function from the object
      state to an [outcome]: it returns, leaves by an exception, terminates
      the process (fail fast) or has undefined behaviour.
    - Calls into collaborators whose code is elsewhere (the measured socket,
      the thread-pool timer, the network information service, the event
      handle) are recorded in a trace of [Effect]s; what they answer is an
      input of the operation. *)

From Stdlib Require Import ZArith Lia Bool List.
From stdpp Require Import base list.
Import ListNotations.

Local Open Scope Z_scope.

(** ** Machine integers *)

Definition two64 : Z := 2 ^ 64.
Definition LLONG_MAX : Z := 2 ^ 63 - 1.
Definition LLONG_MIN : Z := - 2 ^ 63.
Definition INT_MAX : Z := 2 ^ 31 - 1.
Definition ULONG_MAX : Z := 2 ^ 32 - 1.
(** [MAXSIZE_T] of the Windows SDK: [~(SIZE_T)0] on a 64-bit target. *)
Definition MAXSIZE_T : Z := two64 - 1.

(** Conversion to [unsigned long long] / [size_t]: reduction modulo 2^64. *)
Definition to_u64 (x : Z) : Z := x mod two64.

(** Conversion of an unsigned 64-bit value to [long long]. *)
Definition to_i64 (x : Z) : Z := (x + 2 ^ 63) mod two64 - 2 ^ 63.

Definition in_i64 (x : Z) : bool := (LLONG_MIN <=? x) && (x <=? LLONG_MAX).

(** Signed [long long] addition and multiplication; [None] on overflow. *)
Definition add_i64 (a b : Z) : option Z :=
  if in_i64 (a + b) then Some (a + b) else None.

Definition mul_i64 (a b : Z) : option Z :=
  if in_i64 (a * b) then Some (a * b) else None.

(** [++i] on an [int]; [None] on overflow. *)
Definition incr_int (i : Z) : option Z :=
  if i <? INT_MAX then Some (i + 1) else None.

(** ** datagram.h *)

Definition c_datagramSequenceNumberLength : Z := 8.
Definition c_datagramTimestampLength : Z := 8.
Definition c_datagramHeaderLength : Z :=
  c_datagramSequenceNumberLength + 2 * c_datagramTimestampLength.

(** The header that [ParseDatagramHeader] reads in place at the start of a
    receive buffer; the model takes it decoded. *)
Module DatagramHeader.
Record t := mk {
  m_sequenceNumber : Z;
  m_sendTimestamp : Z;
  m_echoTimestamp : Z
}.
End DatagramHeader.

(** [ValidateBufferLength]: the diagnostic written to [stderr] is not
    part of the model. *)
Definition ValidateBufferLength (completedBytes : Z) : bool :=
  if completedBytes <? c_datagramHeaderLength then false else true.

(** ** stream_client.cpp: the two rate computations *)

(** [(datagramSize * frameRate * hundredNanoSecInSecond) / byteRate]: the
    left operand is [unsigned long long], so every operand is converted to
    it, the products wrap and the division is unsigned.  [None] is the
    division by zero. *)
Definition CalculateTickInterval (bitRate frameRate datagramSize : Z) : option Z :=
  let hundredNanoSecInSecond := 10000000 in
  let byteRate := Z.quot bitRate 8 in
  let product :=
    to_u64 (to_u64 (datagramSize * to_u64 frameRate) * to_u64 hundredNanoSecInSecond) in
  if to_u64 byteRate =? 0 then None
  else Some (to_i64 (product / to_u64 byteRate)).

(** [(duration * byteRate) / datagramSize]: the product is a signed
    [long long] product, then converted for the unsigned division. *)
Definition CalculateNumberOfDatagramToSend (duration bitRate datagramSize : Z) : option Z :=
  let byteRate := Z.quot bitRate 8 in
  match mul_i64 duration byteRate with
  | None => None
  | Some product =>
      if datagramSize =? 0 then None
      else Some (to_i64 (to_u64 product / datagramSize))
  end.

(** ** Data of the stream client *)

Inductive Interface := Primary | Secondary.

Inductive AdapterStatus := Disabled | Connecting | Ready.

Definition AdapterStatus_eqb (a b : AdapterStatus) : bool :=
  match a, b with
  | Disabled, Disabled | Connecting, Connecting | Ready, Ready => true
  | _, _ => false
  end.

(** The Windows [FILETIME] structure, two 32-bit halves. *)
Record FILETIME := mkFILETIME {
  dwLowDateTime : Z;
  dwHighDateTime : Z
}.

(** An interface identifier ([winrt::guid]); [winrt::guid{}] is zero. *)
Definition guid := Z.
Definition guid_zero : guid := 0.

(** Modelled from the spec: [latencyStatistics.h] is not among the sources.
    One record per sequence number with the six timestamps that
    [stream_client.cpp] assigns. *)
Record LatencyData := mkLatencyData {
  m_primarySendTimestamp : Z;
  m_primaryEchoTimestamp : Z;
  m_primaryReceiveTimestamp : Z;
  m_secondarySendTimestamp : Z;
  m_secondaryEchoTimestamp : Z;
  m_secondaryReceiveTimestamp : Z
}.

(** Modelled from the spec: [measured_socket.h] is not among the sources.
    The two public members of a transport path that [stream_client.cpp]
    reads or assigns; the socket, its I/O pool and its receive buffers stay
    behind the [Effect]s below. *)
Record MeasuredSocket := mkMeasuredSocket {
  m_adapterStatus : AdapterStatus;
  m_corruptFrames : Z
}.

(** [MeasuredSocket::SendResult] as [SendCompletion] reads it. *)
Module SendResult.
Record t := mk {
  m_sequenceNumber : Z;
  m_sendTimestamp : Z
}.
End SendResult.

(** [MeasuredSocket::ReceiveResult] as [ReceiveCompletion] reads it. *)
Module ReceiveResult.
Record t := mk {
  m_sequenceNumber : Z;
  m_sendTimestamp : Z;
  m_echoTimestamp : Z;
  m_receiveTimestamp : Z
}.
End ReceiveResult.

(** What is thrown: a [wil::ResultException] with its [HRESULT], or
    anything else. *)
Inductive exn :=
| ResultException (hr : Z)
| OtherException.

(** The answer of a collaborator's member function that can throw. *)
Inductive call_result :=
| Returns
| Raises (e : exn).

(** Calls into the collaborators, in the order they are made. *)
Inductive Effect :=
| TimerSchedule (dueTime : FILETIME)
| TimerStop
| SubscribeNetworkStatusChanged
| RevokeNetworkStatusChanged
| Sleep (milliseconds : Z)
| SocketSetup (i : Interface) (interfaceIndex : Z)
| SocketCheckConnectivity (i : Interface)
| SocketPrepareToReceive (i : Interface)
| SocketSendDatagram (i : Interface) (sequenceNumber : Z)
| SocketCancel (i : Interface)
| SetEvent.

Definition is_SetEvent (e : Effect) : bool :=
  match e with SetEvent => true | _ => false end.

(** What a member function does to the object it is called on. *)
Inductive outcome (S : Type) :=
| Returned (s : S)
| Thrown (e : exn) (s : S)
| FailFast
| Undefined.
Arguments Returned {S} s.
Arguments Thrown {S} e s.
Arguments FailFast {S}.
Arguments Undefined {S}.

Definition bind {S : Type} (o : outcome S) (k : S -> outcome S) : outcome S :=
  match o with
  | Returned s => k s
  | Thrown e s => Thrown e s
  | FailFast => FailFast
  | Undefined => Undefined
  end.

Notation "'do' x <- o ; k" := (bind o (fun x => k))
  (at level 10, x name, o at level 100, k at level 200).

(** The state an object is left in, when the process goes on. *)
Definition state_of {S : Type} (o : outcome S) : option S :=
  match o with
  | Returned s | Thrown _ s => Some s
  | FailFast | Undefined => None
  end.

(** [HRESULT_FROM_WIN32] and [ERROR_NOT_CONNECTED] of the Windows SDK; an
    [HRESULT] is a signed 32-bit value. *)
Definition FACILITY_WIN32 : Z := 7.
Definition ERROR_NOT_CONNECTED : Z := 2250.
Definition HRESULT_FROM_WIN32 (x : Z) : Z :=
  if x <=? 0 then x
  else
    let bits := Z.lor (Z.lor (Z.land x 65535) (Z.shiftl FACILITY_WIN32 16)) 2147483648 in
    (bits + 2 ^ 31) mod 2 ^ 32 - 2 ^ 31.

(** The answers of the network services during one run of
    [updateSecondaryInterfaceStatus], and of the three calls it makes on
    the secondary path. *)
Record Network := mkNetwork {
  GetPrimaryInterfaceGuid : guid;
  GetSecondaryInterfaceGuid : guid -> option guid;
  IsAdapterConnected : guid -> bool;
  ConvertInterfaceGuidToIndex : guid -> Z;
  secondary_Setup : call_result;
  secondary_CheckConnectivity : call_result;
  secondary_PrepareToReceive : call_result
}.

(** The answers of the collaborators during one call of [Start]. *)
Record World := mkWorld {
  primary_Setup : call_result;
  primary_CheckConnectivity : call_result;
  primary_PrepareToReceive : call_result;
  network : Network
}.

(** Declarations that live outside the two source files. *)
Class Collaborators := {
  (** [MeasuredSocket::c_bufferSize], the size of a datagram in bytes. *)
  c_bufferSize : Z;
  (** [ConvertHundredNanosToRelativeFiletime] of [time_utils.h]. *)
  ConvertHundredNanosToRelativeFiletime : Z -> FILETIME;
  (** What [MeasuredSocket::Cancel] does to the public members of a path. *)
  Cancel : MeasuredSocket -> MeasuredSocket;
  (** A value-initialised [LatencyData], as [resize] appends it. *)
  LatencyData_init : LatencyData;
  (** [max_size()] of [std::vector<LatencyData>]. *)
  latencyData_max_size : Z
}.

Record StreamClient := mkStreamClient {
  (** whether the handle to the wlan api is open *)
  m_wlanHandle : bool;
  (** whether the network status subscription is live *)
  m_networkInformationEventRevoker : bool;
  (** the two identifiers captured by [updateSecondaryInterfaceStatus] *)
  primaryInterfaceGuid : guid;
  secondaryInterfaceGuid : guid;
  m_primaryState : MeasuredSocket;
  m_secondaryState : MeasuredSocket;
  m_frameRate : Z;
  m_tickInterval : FILETIME;
  m_finalSequenceNumber : Z;
  (** the due time the timer is armed with, if it is armed *)
  m_threadpoolTimer : option FILETIME;
  m_running : bool;
  m_sequenceNumber : Z;
  m_latencyData : list LatencyData;
  m_primaryCorruptFrames : Z;
  m_secondaryCorruptFrames : Z;
  effects : list Effect
}.

(** ** Assignments to one member *)

Definition set_adapterStatus (v : AdapterStatus) (s : MeasuredSocket) : MeasuredSocket :=
  mkMeasuredSocket v (m_corruptFrames s).

Definition set_corruptFrames (v : Z) (s : MeasuredSocket) : MeasuredSocket :=
  mkMeasuredSocket (m_adapterStatus s) v.

Definition set_primarySendTimestamp (v : Z) (d : LatencyData) : LatencyData :=
  mkLatencyData v (m_primaryEchoTimestamp d) (m_primaryReceiveTimestamp d) (m_secondarySendTimestamp d) (m_secondaryEchoTimestamp d) (m_secondaryReceiveTimestamp d).

Definition set_primaryEchoTimestamp (v : Z) (d : LatencyData) : LatencyData :=
  mkLatencyData (m_primarySendTimestamp d) v (m_primaryReceiveTimestamp d) (m_secondarySendTimestamp d) (m_secondaryEchoTimestamp d) (m_secondaryReceiveTimestamp d).

Definition set_primaryReceiveTimestamp (v : Z) (d : LatencyData) : LatencyData :=
  mkLatencyData (m_primarySendTimestamp d) (m_primaryEchoTimestamp d) v (m_secondarySendTimestamp d) (m_secondaryEchoTimestamp d) (m_secondaryReceiveTimestamp d).

Definition set_secondarySendTimestamp (v : Z) (d : LatencyData) : LatencyData :=
  mkLatencyData (m_primarySendTimestamp d) (m_primaryEchoTimestamp d) (m_primaryReceiveTimestamp d) v (m_secondaryEchoTimestamp d) (m_secondaryReceiveTimestamp d).

Definition set_secondaryEchoTimestamp (v : Z) (d : LatencyData) : LatencyData :=
  mkLatencyData (m_primarySendTimestamp d) (m_primaryEchoTimestamp d) (m_primaryReceiveTimestamp d) (m_secondarySendTimestamp d) v (m_secondaryReceiveTimestamp d).

Definition set_secondaryReceiveTimestamp (v : Z) (d : LatencyData) : LatencyData :=
  mkLatencyData (m_primarySendTimestamp d) (m_primaryEchoTimestamp d) (m_primaryReceiveTimestamp d) (m_secondarySendTimestamp d) (m_secondaryEchoTimestamp d) v.

Definition set_wlanHandle (v : bool) (st : StreamClient) : StreamClient :=
  mkStreamClient v (m_networkInformationEventRevoker st)
    (primaryInterfaceGuid st) (secondaryInterfaceGuid st) (m_primaryState st)
    (m_secondaryState st) (m_frameRate st) (m_tickInterval st)
    (m_finalSequenceNumber st) (m_threadpoolTimer st) (m_running st)
    (m_sequenceNumber st) (m_latencyData st) (m_primaryCorruptFrames st)
    (m_secondaryCorruptFrames st) (effects st).

Definition set_networkInformationEventRevoker (v : bool) (st : StreamClient) : StreamClient :=
  mkStreamClient (m_wlanHandle st) v (primaryInterfaceGuid st)
    (secondaryInterfaceGuid st) (m_primaryState st) (m_secondaryState st)
    (m_frameRate st) (m_tickInterval st) (m_finalSequenceNumber st)
    (m_threadpoolTimer st) (m_running st) (m_sequenceNumber st)
    (m_latencyData st) (m_primaryCorruptFrames st)
    (m_secondaryCorruptFrames st) (effects st).

Definition set_primaryInterfaceGuid (v : guid) (st : StreamClient) : StreamClient :=
  mkStreamClient (m_wlanHandle st) (m_networkInformationEventRevoker st) v
    (secondaryInterfaceGuid st) (m_primaryState st) (m_secondaryState st)
    (m_frameRate st) (m_tickInterval st) (m_finalSequenceNumber st)
    (m_threadpoolTimer st) (m_running st) (m_sequenceNumber st)
    (m_latencyData st) (m_primaryCorruptFrames st)
    (m_secondaryCorruptFrames st) (effects st).

Definition set_secondaryInterfaceGuid (v : guid) (st : StreamClient) : StreamClient :=
  mkStreamClient (m_wlanHandle st) (m_networkInformationEventRevoker st)
    (primaryInterfaceGuid st) v (m_primaryState st) (m_secondaryState st)
    (m_frameRate st) (m_tickInterval st) (m_finalSequenceNumber st)
    (m_threadpoolTimer st) (m_running st) (m_sequenceNumber st)
    (m_latencyData st) (m_primaryCorruptFrames st)
    (m_secondaryCorruptFrames st) (effects st).

Definition set_primaryState (v : MeasuredSocket) (st : StreamClient) : StreamClient :=
  mkStreamClient (m_wlanHandle st) (m_networkInformationEventRevoker st)
    (primaryInterfaceGuid st) (secondaryInterfaceGuid st) v
    (m_secondaryState st) (m_frameRate st) (m_tickInterval st)
    (m_finalSequenceNumber st) (m_threadpoolTimer st) (m_running st)
    (m_sequenceNumber st) (m_latencyData st) (m_primaryCorruptFrames st)
    (m_secondaryCorruptFrames st) (effects st).

Definition set_secondaryState (v : MeasuredSocket) (st : StreamClient) : StreamClient :=
  mkStreamClient (m_wlanHandle st) (m_networkInformationEventRevoker st)
    (primaryInterfaceGuid st) (secondaryInterfaceGuid st) (m_primaryState st)
    v (m_frameRate st) (m_tickInterval st) (m_finalSequenceNumber st)
    (m_threadpoolTimer st) (m_running st) (m_sequenceNumber st)
    (m_latencyData st) (m_primaryCorruptFrames st)
    (m_secondaryCorruptFrames st) (effects st).

Definition set_frameRate (v : Z) (st : StreamClient) : StreamClient :=
  mkStreamClient (m_wlanHandle st) (m_networkInformationEventRevoker st)
    (primaryInterfaceGuid st) (secondaryInterfaceGuid st) (m_primaryState st)
    (m_secondaryState st) v (m_tickInterval st) (m_finalSequenceNumber st)
    (m_threadpoolTimer st) (m_running st) (m_sequenceNumber st)
    (m_latencyData st) (m_primaryCorruptFrames st)
    (m_secondaryCorruptFrames st) (effects st).

Definition set_tickInterval (v : FILETIME) (st : StreamClient) : StreamClient :=
  mkStreamClient (m_wlanHandle st) (m_networkInformationEventRevoker st)
    (primaryInterfaceGuid st) (secondaryInterfaceGuid st) (m_primaryState st)
    (m_secondaryState st) (m_frameRate st) v (m_finalSequenceNumber st)
    (m_threadpoolTimer st) (m_running st) (m_sequenceNumber st)
    (m_latencyData st) (m_primaryCorruptFrames st)
    (m_secondaryCorruptFrames st) (effects st).

Definition set_finalSequenceNumber (v : Z) (st : StreamClient) : StreamClient :=
  mkStreamClient (m_wlanHandle st) (m_networkInformationEventRevoker st)
    (primaryInterfaceGuid st) (secondaryInterfaceGuid st) (m_primaryState st)
    (m_secondaryState st) (m_frameRate st) (m_tickInterval st) v
    (m_threadpoolTimer st) (m_running st) (m_sequenceNumber st)
    (m_latencyData st) (m_primaryCorruptFrames st)
    (m_secondaryCorruptFrames st) (effects st).

Definition set_threadpoolTimer (v : option FILETIME) (st : StreamClient) : StreamClient :=
  mkStreamClient (m_wlanHandle st) (m_networkInformationEventRevoker st)
    (primaryInterfaceGuid st) (secondaryInterfaceGuid st) (m_primaryState st)
    (m_secondaryState st) (m_frameRate st) (m_tickInterval st)
    (m_finalSequenceNumber st) v (m_running st) (m_sequenceNumber st)
    (m_latencyData st) (m_primaryCorruptFrames st)
    (m_secondaryCorruptFrames st) (effects st).

Definition set_running (v : bool) (st : StreamClient) : StreamClient :=
  mkStreamClient (m_wlanHandle st) (m_networkInformationEventRevoker st)
    (primaryInterfaceGuid st) (secondaryInterfaceGuid st) (m_primaryState st)
    (m_secondaryState st) (m_frameRate st) (m_tickInterval st)
    (m_finalSequenceNumber st) (m_threadpoolTimer st) v (m_sequenceNumber st)
    (m_latencyData st) (m_primaryCorruptFrames st)
    (m_secondaryCorruptFrames st) (effects st).

Definition set_sequenceNumber (v : Z) (st : StreamClient) : StreamClient :=
  mkStreamClient (m_wlanHandle st) (m_networkInformationEventRevoker st)
    (primaryInterfaceGuid st) (secondaryInterfaceGuid st) (m_primaryState st)
    (m_secondaryState st) (m_frameRate st) (m_tickInterval st)
    (m_finalSequenceNumber st) (m_threadpoolTimer st) (m_running st) v
    (m_latencyData st) (m_primaryCorruptFrames st)
    (m_secondaryCorruptFrames st) (effects st).

Definition set_latencyData (v : list LatencyData) (st : StreamClient) : StreamClient :=
  mkStreamClient (m_wlanHandle st) (m_networkInformationEventRevoker st)
    (primaryInterfaceGuid st) (secondaryInterfaceGuid st) (m_primaryState st)
    (m_secondaryState st) (m_frameRate st) (m_tickInterval st)
    (m_finalSequenceNumber st) (m_threadpoolTimer st) (m_running st)
    (m_sequenceNumber st) v (m_primaryCorruptFrames st)
    (m_secondaryCorruptFrames st) (effects st).

Definition set_primaryCorruptFrames (v : Z) (st : StreamClient) : StreamClient :=
  mkStreamClient (m_wlanHandle st) (m_networkInformationEventRevoker st)
    (primaryInterfaceGuid st) (secondaryInterfaceGuid st) (m_primaryState st)
    (m_secondaryState st) (m_frameRate st) (m_tickInterval st)
    (m_finalSequenceNumber st) (m_threadpoolTimer st) (m_running st)
    (m_sequenceNumber st) (m_latencyData st) v (m_secondaryCorruptFrames st)
    (effects st).

Definition set_secondaryCorruptFrames (v : Z) (st : StreamClient) : StreamClient :=
  mkStreamClient (m_wlanHandle st) (m_networkInformationEventRevoker st)
    (primaryInterfaceGuid st) (secondaryInterfaceGuid st) (m_primaryState st)
    (m_secondaryState st) (m_frameRate st) (m_tickInterval st)
    (m_finalSequenceNumber st) (m_threadpoolTimer st) (m_running st)
    (m_sequenceNumber st) (m_latencyData st) (m_primaryCorruptFrames st) v
    (effects st).

Definition set_effects (v : list Effect) (st : StreamClient) : StreamClient :=
  mkStreamClient (m_wlanHandle st) (m_networkInformationEventRevoker st)
    (primaryInterfaceGuid st) (secondaryInterfaceGuid st) (m_primaryState st)
    (m_secondaryState st) (m_frameRate st) (m_tickInterval st)
    (m_finalSequenceNumber st) (m_threadpoolTimer st) (m_running st)
    (m_sequenceNumber st) (m_latencyData st) (m_primaryCorruptFrames st)
    (m_secondaryCorruptFrames st) v.

(** ** Small steps shared by the member functions *)

Definition emit (e : Effect) (st : StreamClient) : StreamClient :=
  set_effects (effects st ++ [e]) st.

(** A call of a collaborator's member function that may throw. *)
Definition call (r : call_result) (st : StreamClient) : outcome StreamClient :=
  match r with
  | Returns => Returned st
  | Raises e => Thrown e st
  end.

(** A computation whose undefined behaviour is [None]. *)
Definition defined {A S : Type} (o : option A) (k : A -> outcome S) : outcome S :=
  match o with
  | Some a => k a
  | None => Undefined
  end.

Notation "'def' x <- o ; k" := (defined o (fun x => k))
  (at level 10, x name, o at level 100, k at level 200).

Definition socket (i : Interface) (st : StreamClient) : MeasuredSocket :=
  match i with
  | Primary => m_primaryState st
  | Secondary => m_secondaryState st
  end.

Definition set_socket (i : Interface) (s : MeasuredSocket) (st : StreamClient) : StreamClient :=
  match i with
  | Primary => set_primaryState s st
  | Secondary => set_secondaryState s st
  end.

(** Modelled from the spec: [threadpool_timer.h] is not among the sources.
    [Schedule] arms the timer for one callback, [Stop] disarms it. *)
Definition ThreadpoolTimer_Schedule (dueTime : FILETIME) (st : StreamClient) : StreamClient :=
  emit (TimerSchedule dueTime) (set_threadpoolTimer (Some dueTime) st).

Definition ThreadpoolTimer_Stop (st : StreamClient) : StreamClient :=
  emit TimerStop (set_threadpoolTimer None st).

(** The object as the constructor and the default member initialisers of
    [stream_client.h] leave it; the two corrupt-frame counters of
    [ReceiveCompletion], which that header does not declare, start at 0. *)
Definition StreamClient_new : StreamClient :=
  {| m_wlanHandle := false;
     m_networkInformationEventRevoker := false;
     primaryInterfaceGuid := guid_zero;
     secondaryInterfaceGuid := guid_zero;
     m_primaryState := mkMeasuredSocket Disabled 0;
     m_secondaryState := mkMeasuredSocket Disabled 0;
     m_frameRate := 0;
     m_tickInterval := mkFILETIME 0 0;
     m_finalSequenceNumber := -1;
     m_threadpoolTimer := None;
     m_running := false;
     m_sequenceNumber := 0;
     m_latencyData := [];
     m_primaryCorruptFrames := 0;
     m_secondaryCorruptFrames := 0;
     effects := [] |}.

Section StreamClient.

Context `{Collaborators}.

Definition Socket_Cancel (i : Interface) (st : StreamClient) : StreamClient :=
  emit (SocketCancel i) (set_socket i (Cancel (socket i st)) st).

(** ** stream_client.cpp: the member functions *)

Definition RequestSecondaryWlanConnection (st : StreamClient) : StreamClient :=
  if negb (m_wlanHandle st) then set_wlanHandle true st else st.

(** The [try] block of [updateSecondaryInterfaceStatus]. *)
Definition connectSecondary (n : Network) (st : StreamClient) : outcome StreamClient :=
  do st <- call (secondary_Setup n)
             (emit (SocketSetup Secondary
                      (ConvertInterfaceGuidToIndex n (secondaryInterfaceGuid st))) st);
  do st <- call (secondary_CheckConnectivity n) (emit (SocketCheckConnectivity Secondary) st);
  do st <- call (secondary_PrepareToReceive n) (emit (SocketPrepareToReceive Secondary) st);
  Returned (set_secondaryState (set_adapterStatus Ready (m_secondaryState st)) st).

(** The first half of [updateSecondaryInterfaceStatus]: what a change of
    the primary interface does to the secondary one. *)
Definition refreshInterfaces (n : Network) (st : StreamClient) : StreamClient :=
  let connectedInterfaceGuid := GetPrimaryInterfaceGuid n in
  if negb (connectedInterfaceGuid =? primaryInterfaceGuid st) then
    let st := set_primaryInterfaceGuid connectedInterfaceGuid st in
    let st :=
      if AdapterStatus_eqb (m_adapterStatus (m_secondaryState st)) Ready
      then Socket_Cancel Secondary st else st in
    match GetSecondaryInterfaceGuid n (primaryInterfaceGuid st) with
    | Some secondaryGuid =>
        let st := set_secondaryInterfaceGuid secondaryGuid st in
        set_secondaryState (set_adapterStatus Connecting (m_secondaryState st)) st
    | None => st
    end
  else st.

(** The lambda of [SetupSecondaryInterface]; its two captures are members
    of the state. *)
Definition updateSecondaryInterfaceStatus (n : Network) (st : StreamClient)
  : outcome StreamClient :=
  let st := refreshInterfaces n st in
  if AdapterStatus_eqb (m_adapterStatus (m_secondaryState st)) Connecting
     && IsAdapterConnected n (secondaryInterfaceGuid st)
  then
    match connectSecondary n st with
    | Returned st => Returned st
    | Thrown (ResultException hr) st =>
        if hr =? HRESULT_FROM_WIN32 ERROR_NOT_CONNECTED then
          let st := Socket_Cancel Secondary st in
          Returned (set_secondaryState (set_adapterStatus Connecting (m_secondaryState st)) st)
        else FailFast
    | Thrown OtherException _ => FailFast
    | FailFast => FailFast
    | Undefined => Undefined
    end
  else Returned st.

Definition SetupSecondaryInterface (n : Network) (st : StreamClient) : outcome StreamClient :=
  if negb (m_wlanHandle st) then Returned st
  else
    let st := set_secondaryInterfaceGuid guid_zero (set_primaryInterfaceGuid guid_zero st) in
    do st <- updateSecondaryInterfaceStatus n st;
    Returned (emit SubscribeNetworkStatusChanged (set_networkInformationEventRevoker true st)).

(** A network status notification runs the subscribed lambda. *)
Definition NetworkStatusChanged (n : Network) (st : StreamClient) : outcome StreamClient :=
  if m_networkInformationEventRevoker st then updateSecondaryInterfaceStatus n st
  else Returned st.

Definition Stop (st : StreamClient) : StreamClient :=
  let st := set_running false st in
  let st := ThreadpoolTimer_Stop st in
  let st := emit RevokeNetworkStatusChanged (set_networkInformationEventRevoker false st) in
  let st := emit (Sleep 1000) st in
  let st := Socket_Cancel Primary st in
  let st := Socket_Cancel Secondary st in
  emit SetEvent st.

(** [m_latencyData.resize(n)]: [std::length_error] beyond [max_size()]. *)
Definition latencyData_resize (n : Z) (st : StreamClient) : outcome StreamClient :=
  if n >? latencyData_max_size then Thrown OtherException st
  else Returned (set_latencyData (resize (Z.to_nat n) LatencyData_init (m_latencyData st)) st).

Definition Start (w : World) (sendBitRate sendFrameRate duration : Z) (st : StreamClient)
  : outcome StreamClient :=
  let st := if m_running st then Stop st else st in
  let st := set_frameRate sendFrameRate st in
  def tickInterval <- CalculateTickInterval sendBitRate sendFrameRate (to_u64 c_bufferSize);
  let st := set_tickInterval (ConvertHundredNanosToRelativeFiletime tickInterval) st in
  def nbDatagramToSend <-
    CalculateNumberOfDatagramToSend duration sendBitRate (to_u64 c_bufferSize);
  def final <- add_i64 (m_finalSequenceNumber st) nbDatagramToSend;
  let st := set_finalSequenceNumber final st in
  if to_u64 (m_finalSequenceNumber st) >? MAXSIZE_T then FailFast
  else
    do st <- latencyData_resize (to_u64 (m_finalSequenceNumber st)) st;
    do st <- call (primary_Setup w) (emit (SocketSetup Primary 0) st);
    do st <- call (primary_CheckConnectivity w) (emit (SocketCheckConnectivity Primary) st);
    do st <- SetupSecondaryInterface (network w) st;
    do st <- call (primary_PrepareToReceive w) (emit (SocketPrepareToReceive Primary) st);
    let st := set_primaryState (set_adapterStatus Ready (m_primaryState st)) st in
    let st := set_running true st in
    Returned (ThreadpoolTimer_Schedule (m_tickInterval st) st).

Definition SendDatagrams (st : StreamClient) : outcome StreamClient :=
  let st := emit (SocketSendDatagram Primary (m_sequenceNumber st)) st in
  let st :=
    if AdapterStatus_eqb (m_adapterStatus (m_secondaryState st)) Ready
    then emit (SocketSendDatagram Secondary (m_sequenceNumber st)) st else st in
  def next <- add_i64 (m_sequenceNumber st) 1;
  Returned (set_sequenceNumber next st).

(** The [for] loop of [TimerCallback], entered with [i] and with
    [remaining] values of [i] left below [m_frameRate]. *)
Fixpoint TimerCallback_for (remaining : nat) (i : Z) (st : StreamClient)
  : outcome StreamClient :=
  match remaining with
  | O => Returned st
  | S remaining' =>
      if (i <? m_frameRate st) && (m_sequenceNumber st <? m_finalSequenceNumber st) then
        do st <- SendDatagrams st;
        def i' <- incr_int i;
        TimerCallback_for remaining' i' st
      else Returned st
  end.

Definition TimerCallback (st : StreamClient) : outcome StreamClient :=
  if negb (m_running st) then Returned st
  else
    do st <- TimerCallback_for (Z.to_nat (m_frameRate st)) 0 st;
    if m_sequenceNumber st <? m_finalSequenceNumber st then
      Returned (ThreadpoolTimer_Schedule (m_tickInterval st) st)
    else if m_sequenceNumber st >? m_finalSequenceNumber st then FailFast
    else Returned (Stop st).

(** [m_latencyData[static_cast<size_t>(n)]]: a reference to the record, or
    undefined behaviour outside the vector. *)
Definition latencyData_at (n : Z) (st : StreamClient) : option LatencyData :=
  let index := to_u64 n in
  if index <? Z.of_nat (length (m_latencyData st))
  then m_latencyData st !! Z.to_nat index
  else None.

Definition latencyData_store (n : Z) (stat : LatencyData) (st : StreamClient) : StreamClient :=
  set_latencyData (<[Z.to_nat (to_u64 n) := stat]> (m_latencyData st)) st.

Definition SendCompletion (interface : Interface) (sendState : SendResult.t)
  (st : StreamClient) : outcome StreamClient :=
  if to_u64 (SendResult.m_sequenceNumber sendState) >? MAXSIZE_T then FailFast
  else
    def stat <- latencyData_at (SendResult.m_sequenceNumber sendState) st;
    let stat :=
      match interface with
      | Primary => set_primarySendTimestamp (SendResult.m_sendTimestamp sendState) stat
      | Secondary => set_secondarySendTimestamp (SendResult.m_sendTimestamp sendState) stat
      end in
    Returned (latencyData_store (SendResult.m_sequenceNumber sendState) stat st).

Definition ReceiveCompletion (interface : Interface) (result : ReceiveResult.t)
  (st : StreamClient) : outcome StreamClient :=
  if (ReceiveResult.m_sequenceNumber result <? 0)
     || (ReceiveResult.m_sequenceNumber result >=? m_finalSequenceNumber st)
  then
    match interface with
    | Primary =>
        def n <- add_i64 (m_primaryCorruptFrames st) 1;
        Returned (set_primaryCorruptFrames n st)
    | Secondary =>
        def n <- add_i64 (m_secondaryCorruptFrames st) 1;
        Returned (set_secondaryCorruptFrames n st)
    end
  else
    def stat <- latencyData_at (ReceiveResult.m_sequenceNumber result) st;
    let stat :=
      match interface with
      | Primary =>
          let stat := set_primarySendTimestamp (ReceiveResult.m_sendTimestamp result) stat in
          let stat := set_primaryEchoTimestamp (ReceiveResult.m_echoTimestamp result) stat in
          set_primaryReceiveTimestamp (ReceiveResult.m_receiveTimestamp result) stat
      | Secondary =>
          let stat := set_secondarySendTimestamp (ReceiveResult.m_sendTimestamp result) stat in
          let stat := set_secondaryEchoTimestamp (ReceiveResult.m_echoTimestamp result) stat in
          set_secondaryReceiveTimestamp (ReceiveResult.m_receiveTimestamp result) stat
      end in
    Returned (latencyData_store (ReceiveResult.m_sequenceNumber result) stat st).

(** ** The collaborators that drive the client *)

(** Modelled from the spec: the thread-pool timer is not among the sources.
    An armed timer runs its callback once; the callback re-arms it. *)
Definition timer_fires (st : StreamClient) : outcome StreamClient :=
  match m_threadpoolTimer st with
  | Some _ => TimerCallback (set_threadpoolTimer None st)
  | None => Returned st
  end.

Fixpoint timer_fires_n (n : nat) (st : StreamClient) : outcome StreamClient :=
  match n with
  | O => Returned st
  | S n' => do st <- timer_fires st; timer_fires_n n' st
  end.

(** Modelled from the spec: the receive path of the transport
    ([measured_socket.cpp]) is not among the sources.  A frame shorter than
    the fixed header is not parsed: it is counted as corrupt for its path
    and discarded; any other frame is decoded and handed to
    [ReceiveCompletion] with the time of its arrival. *)
Definition MeasuredSocket_ReceiveCompletion (i : Interface) (completedBytes : Z)
  (header : DatagramHeader.t) (receiveTimestamp : Z) (st : StreamClient)
  : outcome StreamClient :=
  if ValidateBufferLength completedBytes then
    ReceiveCompletion i
      (ReceiveResult.mk (DatagramHeader.m_sequenceNumber header)
         (DatagramHeader.m_sendTimestamp header)
         (DatagramHeader.m_echoTimestamp header) receiveTimestamp) st
  else
    def n <- add_i64 (m_corruptFrames (socket i st)) 1;
    Returned (set_socket i (set_corruptFrames n (socket i st)) st).

(** What can happen to a client, one call at a time. *)
Inductive Event :=
| CallRequestSecondaryWlanConnection
| CallStart (w : World) (sendBitRate sendFrameRate duration : Z)
| CallStop
| TimerFires
| NetworkChanges (n : Network)
| SendCompletes (i : Interface) (sendState : SendResult.t)
| ReceiveCompletes (i : Interface) (result : ReceiveResult.t).

Definition step (e : Event) (st : StreamClient) : outcome StreamClient :=
  match e with
  | CallRequestSecondaryWlanConnection => Returned (RequestSecondaryWlanConnection st)
  | CallStart w sendBitRate sendFrameRate duration =>
      Start w sendBitRate sendFrameRate duration st
  | CallStop => Returned (Stop st)
  | TimerFires => timer_fires st
  | NetworkChanges n => NetworkStatusChanged n st
  | SendCompletes i sendState => SendCompletion i sendState st
  | ReceiveCompletes i result => ReceiveCompletion i result st
  end.

Fixpoint run (es : list Event) (st : StreamClient) : outcome StreamClient :=
  match es with
  | [] => Returned st
  | e :: es' => do st <- step e st; run es' st
  end.

(** The number of datagrams a call of [Start] plans to send. *)
Definition planned (sendBitRate duration : Z) : Z :=
  match CalculateNumberOfDatagramToSend duration sendBitRate (to_u64 c_bufferSize) with
  | Some nbDatagramToSend => nbDatagramToSend
  | None => 0
  end.

(** The sum of the planned counts of the calls of [Start] in a history. *)
Fixpoint planned_total (es : list Event) : Z :=
  match es with
  | [] => 0
  | CallStart _ sendBitRate _ duration :: es' =>
      planned sendBitRate duration + planned_total es'
  | _ :: es' => planned_total es'
  end.

End StreamClient.

(** ** Vocabulary of the statements *)

(** The first exception of [Setup], [CheckConnectivity], [PrepareToReceive]
    on the secondary path, in the order they are called. *)
Definition first_failure (n : Network) : option exn :=
  match secondary_Setup n with
  | Raises e => Some e
  | Returns =>
      match secondary_CheckConnectivity n with
      | Raises e => Some e
      | Returns =>
          match secondary_PrepareToReceive n with
          | Raises e => Some e
          | Returns => None
          end
      end
  end.

(** The exception of a target that cannot be reached. *)
Definition unreachable : exn := ResultException (HRESULT_FROM_WIN32 ERROR_NOT_CONNECTED).

(** A secondary path whose setup never takes the fatal branch. *)
Definition secondary_benign (n : Network) : Prop :=
  first_failure n = None \/ first_failure n = Some unreachable.

Definition primary_returns (w : World) : Prop :=
  primary_Setup w = Returns /\ primary_CheckConnectivity w = Returns
  /\ primary_PrepareToReceive w = Returns.

(** The values an [unsigned long] argument can take. *)
Definition is_ulong (x : Z) : Prop := 0 <= x <= ULONG_MAX.

(** Upward-rounded quotient of two naturals. *)
Definition ceil_div (a b : Z) : Z := (a + b - 1) / b.

(** How often the completion event was signalled. *)
Definition signals (st : StreamClient) : nat :=
  length (filter (fun e => is_SetEvent e = true) (effects st)).

(** The members that hold the plan of a run and what was measured. *)
Definition plan (st : StreamClient) :=
  (m_frameRate st, m_tickInterval st, m_finalSequenceNumber st, m_sequenceNumber st,
   m_latencyData st, m_primaryCorruptFrames st, m_secondaryCorruptFrames st).

(** A step keeps the plan of the run and the measurements. *)
Definition keeps_plan (f : StreamClient -> outcome StreamClient) : Prop :=
  forall st st', state_of (f st) = Some st' -> plan st' = plan st.

(** The aggregator has one record per sequence number below the final one. *)
Definition aggregator_sized (st : StreamClient) : Prop :=
  Z.of_nat (length (m_latencyData st)) = m_finalSequenceNumber st.

(** The corrupt-frame counter that [ReceiveCompletion] keeps for a path. *)
Definition corrupt_counter (i : Interface) (st : StreamClient) : Z :=
  match i with
  | Primary => m_primaryCorruptFrames st
  | Secondary => m_secondaryCorruptFrames st
  end.

Definition set_corrupt_counter (i : Interface) (v : Z) (st : StreamClient) : StreamClient :=
  match i with
  | Primary => set_primaryCorruptFrames v st
  | Secondary => set_secondaryCorruptFrames v st
  end.

Definition other (i : Interface) : Interface :=
  match i with
  | Primary => Secondary
  | Secondary => Primary
  end.

(** A record after a receive completion on path [i]: the three timestamps
    of that path come from the result, those of the other path stay. *)
Definition received (i : Interface) (r : ReceiveResult.t) (stat : LatencyData) : LatencyData :=
  match i with
  | Primary =>
      mkLatencyData (ReceiveResult.m_sendTimestamp r) (ReceiveResult.m_echoTimestamp r)
        (ReceiveResult.m_receiveTimestamp r) (m_secondarySendTimestamp stat)
        (m_secondaryEchoTimestamp stat) (m_secondaryReceiveTimestamp stat)
  | Secondary =>
      mkLatencyData (m_primarySendTimestamp stat) (m_primaryEchoTimestamp stat)
        (m_primaryReceiveTimestamp stat) (ReceiveResult.m_sendTimestamp r)
        (ReceiveResult.m_echoTimestamp r) (ReceiveResult.m_receiveTimestamp r)
  end.

(** A record after a send completion on path [i]. *)
Definition sent (i : Interface) (s : SendResult.t) (stat : LatencyData) : LatencyData :=
  match i with
  | Primary => set_primarySendTimestamp (SendResult.m_sendTimestamp s) stat
  | Secondary => set_secondarySendTimestamp (SendResult.m_sendTimestamp s) stat
  end.

(** A client without its sequence counter and its trace: what a burst of
    datagrams leaves alone. *)
Definition rest (st : StreamClient) : StreamClient :=
  set_sequenceNumber 0 (set_effects [] st).

(** The calls that [SendDatagrams] makes for one sequence number. *)
Definition sends (st : StreamClient) : list Effect :=
  SocketSendDatagram Primary (m_sequenceNumber st)
  :: (if AdapterStatus_eqb (m_adapterStatus (m_secondaryState st)) Ready
      then [SocketSendDatagram Secondary (m_sequenceNumber st)] else []).

(** A run that goes on: the flag is set and the timer is armed. *)
Definition scheduled (st : StreamClient) : Prop :=
  m_running st = true /\ m_threadpoolTimer st = Some (m_tickInterval st).

(** A run that is over: the flag is cleared, the timer is idle, and the
    last call made was the signal of the completion event. *)
Definition terminal (st : StreamClient) : Prop :=
  m_running st = false /\ m_threadpoolTimer st = None
  /\ exists before, effects st = before ++ [SetEvent].

(** ** datagram.h: the send request and the header in a buffer *)

Definition ULONG_modulus : Z := 2 ^ 32.

(** A byte is a [Z] in [0, 256).  An object of [n] bytes holds its value
    least significant byte first, as on every target of the Windows SDK. *)
Fixpoint le_bytes (n : nat) (x : Z) : list Z :=
  match n with
  | O => []
  | S n' => x mod 256 :: le_bytes n' (x / 256)
  end.

Fixpoint le_value (bs : list Z) : Z :=
  match bs with
  | [] => 0
  | b :: bs' => b + 256 * le_value bs'
  end.

(** The eight bytes of a [long long] and the [long long] in eight bytes. *)
Definition bytes_of_i64 (x : Z) : list Z := le_bytes 8 (to_u64 x).
Definition i64_of_bytes (bs : list Z) : Z := to_i64 (le_value bs).

(** What the [buf] of a [WSABUF] of a send request points to. *)
Inductive BufferSource :=
| SequenceNumberField
| SendTimestampField
| EchoTimestampField
| SendBufferData.

Record WSABUF := mkWSABUF {
  len : Z;
  buf : BufferSource
}.

Module DatagramSendRequest.
Record t := mk {
  m_wsabufs : list WSABUF;
  m_sequenceNumber : Z;
  m_sendTimestamp : Z;
  m_echoTimestamp : Z
}.
End DatagramSendRequest.

(** The constructor of [DatagramSendRequest]; of the send buffer it uses
    the address and the size.  The length of the payload is computed in
    [size_t] and stored in a [ULONG]. *)
Definition DatagramSendRequest_new (sequenceNumber : Z) (sendBuffer : list Z)
  : DatagramSendRequest.t :=
  DatagramSendRequest.mk
    [mkWSABUF c_datagramSequenceNumberLength SequenceNumberField;
     mkWSABUF c_datagramTimestampLength SendTimestampField;
     mkWSABUF c_datagramTimestampLength EchoTimestampField;
     mkWSABUF
       (to_u64 (Z.of_nat (length sendBuffer) - c_datagramHeaderLength) mod ULONG_modulus)
       SendBufferData]
    sequenceNumber 0 0.

(** [GetBuffers], with the value that [SnapQpcInMicroSec] returns. *)
Definition GetBuffers (qpc : Z) (request : DatagramSendRequest.t)
  : DatagramSendRequest.t * list WSABUF :=
  (DatagramSendRequest.mk (DatagramSendRequest.m_wsabufs request)
     (DatagramSendRequest.m_sequenceNumber request) qpc
     (DatagramSendRequest.m_echoTimestamp request),
   DatagramSendRequest.m_wsabufs request).

Definition GetQpc (request : DatagramSendRequest.t) : Z :=
  DatagramSendRequest.m_sendTimestamp request.

(** The bytes behind a [WSABUF]: [len] bytes from where [buf] points, or
    nothing when they are not all inside the object pointed to. *)
Definition WSABUF_bytes (request : DatagramSendRequest.t) (sendBuffer : list Z)
  (b : WSABUF) : option (list Z) :=
  let object :=
    match buf b with
    | SequenceNumberField => bytes_of_i64 (DatagramSendRequest.m_sequenceNumber request)
    | SendTimestampField => bytes_of_i64 (DatagramSendRequest.m_sendTimestamp request)
    | EchoTimestampField => bytes_of_i64 (DatagramSendRequest.m_echoTimestamp request)
    | SendBufferData => sendBuffer
    end in
  if len b <=? Z.of_nat (length object) then Some (take (Z.to_nat (len b)) object)
  else None.

(** The datagram that a gathering send makes of the buffers: their bytes,
    in the order of the array. *)
Fixpoint gather (request : DatagramSendRequest.t) (sendBuffer : list Z)
  (bs : list WSABUF) : option (list Z) :=
  match bs with
  | [] => Some []
  | b :: bs' =>
      match WSABUF_bytes request sendBuffer b, gather request sendBuffer bs' with
      | Some x, Some xs => Some (x ++ xs)
      | _, _ => None
      end
  end.

(** The datagram of sequence number [sequenceNumber] sent at [qpc]. *)
Definition datagram (sequenceNumber qpc : Z) (sendBuffer : list Z) : option (list Z) :=
  let (request, buffers) := GetBuffers qpc (DatagramSendRequest_new sequenceNumber sendBuffer) in
  gather request sendBuffer buffers.

(** [ParseDatagramHeader]: the header that lies at the start of the
    buffer; nothing when the buffer is shorter than a header. *)
Definition ParseDatagramHeader (buffer : list Z) : option DatagramHeader.t :=
  if c_datagramHeaderLength <=? Z.of_nat (length buffer) then
    Some (DatagramHeader.mk
            (i64_of_bytes (take 8 buffer))
            (i64_of_bytes (take 8 (drop 8 buffer)))
            (i64_of_bytes (take 8 (drop 16 buffer))))
  else None.

(** ** Vocabulary of the further statements *)

Definition Interface_eqb (a b : Interface) : bool :=
  match a, b with
  | Primary, Primary | Secondary, Secondary => true
  | _, _ => false
  end.

(** The sequence numbers handed to [SendDatagram] on a path, in the order
    of the calls. *)
Definition sent_on (i : Interface) (es : list Effect) : list Z :=
  omap (fun e =>
          match e with
          | SocketSendDatagram j s => if Interface_eqb i j then Some s else None
          | _ => None
          end) es.

(** Whether [SendDatagrams] uses a path. *)
Definition sends_on (i : Interface) (st : StreamClient) : bool :=
  match i with
  | Primary => true
  | Secondary => AdapterStatus_eqb (m_adapterStatus (m_secondaryState st)) Ready
  end.

(** The path and the sequence number of a completion. *)
Definition completion_of (e : Event) : option (Interface * Z) :=
  match e with
  | SendCompletes i s => Some (i, SendResult.m_sequenceNumber s)
  | ReceiveCompletes i r => Some (i, ReceiveResult.m_sequenceNumber r)
  | _ => None
  end.

(** What a completion makes of the record of its sequence number. *)
Definition completion_update (e : Event) (stat : LatencyData) : LatencyData :=
  match e with
  | SendCompletes i s => sent i s stat
  | ReceiveCompletes i r => received i r stat
  | _ => stat
  end.

(** The arguments of [Start] are [unsigned long]. *)
Definition well_typed (e : Event) : Prop :=
  match e with
  | CallStart _ sendBitRate sendFrameRate duration =>
      is_ulong sendBitRate /\ is_ulong sendFrameRate /\ is_ulong duration
  | _ => True
  end.

(** What holds of a client between two calls: before the first [Start]
    that returns it is idle with an empty aggregator; after it the counter
    is within the plan and the aggregator has one record per planned
    sequence number. *)
Definition consistent (st : StreamClient) : Prop :=
  (m_finalSequenceNumber st = -1 /\ m_sequenceNumber st = 0 /\ m_latencyData st = []
   /\ m_threadpoolTimer st = None)
  \/ (0 <= m_sequenceNumber st <= m_finalSequenceNumber st
      /\ m_finalSequenceNumber st <= LLONG_MAX
      /\ aggregator_sized st).

(** ** One setting of the outside declarations, to run the model *)

(** A datagram of 1024 bytes; a relative [FILETIME] is the negated count
    of hundred-nanosecond units, split in two halves; [Cancel] leaves a
    path [Disabled]; a fresh record holds zeros. *)
Definition reference_collaborators : Collaborators :=
  {| c_bufferSize := 1024;
     ConvertHundredNanosToRelativeFiletime := fun t =>
       mkFILETIME (to_u64 (- t) mod 2 ^ 32) (to_u64 (- t) / 2 ^ 32);
     Cancel := set_adapterStatus Disabled;
     LatencyData_init := mkLatencyData 0 0 0 0 0 0;
     latencyData_max_size := (two64 - 1) / 48 |}.

(** A network without a secondary interface. *)
Definition quiet_network : Network :=
  {| GetPrimaryInterfaceGuid := 1;
     GetSecondaryInterfaceGuid := fun _ => None;
     IsAdapterConnected := fun _ => false;
     ConvertInterfaceGuidToIndex := fun g => g;
     secondary_Setup := Returns;
     secondary_CheckConnectivity := Returns;
     secondary_PrepareToReceive := Returns |}.

(** A world in which the primary path comes up. *)
Definition quiet_world : World :=
  {| primary_Setup := Returns;
     primary_CheckConnectivity := Returns;
     primary_PrepareToReceive := Returns;
     network := quiet_network |}.

(** The client of the end-to-end scenario, once [Start] has returned. *)
Definition scenario_client : StreamClient :=
  match @Start reference_collaborators quiet_world 2000000 50 10 StreamClient_new with
  | Returned st => st
  | _ => StreamClient_new
  end.


(** A client with a plan of three datagrams, once [Start] has returned:
    24,576 bits/s for one second. *)
Definition small_client : StreamClient :=
  match @Start reference_collaborators quiet_world 24576 1 1 StreamClient_new with
  | Returned st => st
  | _ => StreamClient_new
  end.

(** A client with a plan of one datagram, once [Start] has returned; its
    final sequence number is 0. *)
Definition empty_plan_client : StreamClient :=
  match @Start reference_collaborators quiet_world 8192 50 1 StreamClient_new with
  | Returned st => st
  | _ => StreamClient_new
  end.

(** A network whose secondary interface is connected while the target
    cannot be reached through it. *)
Definition unreachable_network : Network :=
  {| GetPrimaryInterfaceGuid := 1;
     GetSecondaryInterfaceGuid := fun _ => Some 2;
     IsAdapterConnected := fun _ => true;
     ConvertInterfaceGuidToIndex := fun g => g;
     secondary_Setup := Returns;
     secondary_CheckConnectivity := Raises unreachable;
     secondary_PrepareToReceive := Returns |}.

(** A client started with a frame rate of 0: its tick interval is 0 and
    no callback sends anything. *)
Definition stalled_client : StreamClient :=
  match @Start reference_collaborators quiet_world 24576 0 1 StreamClient_new with
  | Returned st => st
  | _ => StreamClient_new
  end.

(** A network whose secondary interface is connected and comes up. *)
Definition ready_network : Network :=
  {| GetPrimaryInterfaceGuid := 1;
     GetSecondaryInterfaceGuid := fun _ => Some 2;
     IsAdapterConnected := fun _ => true;
     ConvertInterfaceGuidToIndex := fun g => g;
     secondary_Setup := Returns;
     secondary_CheckConnectivity := Returns;
     secondary_PrepareToReceive := Returns |}.

(** A fresh client after a notification of that network. *)
Definition ready_client : StreamClient :=
  match @updateSecondaryInterfaceStatus reference_collaborators ready_network
          StreamClient_new with
  | Returned st => st
  | _ => StreamClient_new
  end.

(** A send buffer of 32 bytes, and one that is shorter than a header. *)
Definition example_send_buffer : list Z := replicate 32 7.

Definition short_send_buffer : list Z := replicate 10 7.

(** * Properties *)

(** ** Machine integers *)

Lemma to_u64_small (x : Z) : 0 <= x < two64 -> to_u64 x = x.
Proof. intros Hx. unfold to_u64. apply Z.mod_small. exact Hx. Qed.

Lemma to_u64_range (x : Z) : 0 <= to_u64 x < two64.
Proof. unfold to_u64. apply Z.mod_pos_bound. reflexivity. Qed.

Lemma to_u64_mul_l (a b : Z) : to_u64 (to_u64 a * b) = to_u64 (a * b).
Proof. unfold to_u64. apply Z.mul_mod_idemp_l. discriminate. Qed.

Lemma to_u64_mul_r (a b : Z) : to_u64 (a * to_u64 b) = to_u64 (a * b).
Proof. unfold to_u64. apply Z.mul_mod_idemp_r. discriminate. Qed.

Lemma to_i64_small (x : Z) : 0 <= x <= LLONG_MAX -> to_i64 x = x.
Proof.
  unfold to_i64, LLONG_MAX, two64. intros Hx.
  rewrite Z.mod_small; lia.
Qed.

Lemma to_u64_le_MAXSIZE_T (x : Z) : (to_u64 x >? MAXSIZE_T) = false.
Proof.
  pose proof (to_u64_range x) as Hr. unfold MAXSIZE_T.
  destruct (Z.gtb_spec (to_u64 x) (two64 - 1)); [lia | reflexivity].
Qed.

Lemma add_i64_Some (a b : Z) :
  LLONG_MIN <= a + b <= LLONG_MAX -> add_i64 a b = Some (a + b).
Proof.
  intros Hr. unfold add_i64, in_i64.
  destruct (Z.leb_spec LLONG_MIN (a + b)); [| lia].
  destruct (Z.leb_spec (a + b) LLONG_MAX); [reflexivity | lia].
Qed.

Lemma add_i64_inv (a b c : Z) : add_i64 a b = Some c -> c = a + b.
Proof. unfold add_i64. destruct (in_i64 (a + b)); congruence. Qed.

Lemma quot8 (b : Z) : 0 <= b -> b ÷ 8 = b / 8.
Proof. intros Hb. apply Z.quot_div_nonneg; lia. Qed.

(** ** The rate computations *)

Lemma CalculateTickInterval_exact (bitRate frameRate datagramSize : Z) :
  8 <= bitRate <= LLONG_MAX ->
  0 <= frameRate -> 0 <= datagramSize ->
  datagramSize * frameRate * 10000000 < two64 ->
  datagramSize * frameRate * 10000000 / (bitRate / 8) <= LLONG_MAX ->
  CalculateTickInterval bitRate frameRate datagramSize
  = Some (datagramSize * frameRate * 10000000 / (bitRate / 8)).
Proof.
  intros Hb Hf Hd Hprod Hq. cbv beta zeta delta [CalculateTickInterval].
  rewrite quot8 by lia.
  assert (Hrate : 1 <= bitRate / 8 < two64).
  { split.
    - apply Z.div_le_lower_bound; lia.
    - apply Z.div_lt_upper_bound; unfold LLONG_MAX, two64 in *; lia. }
  rewrite (to_u64_small (bitRate / 8)) by lia.
  destruct (Z.eqb_spec (bitRate / 8) 0) as [E | _]; [lia |].
  rewrite !to_u64_mul_r, to_u64_mul_l.
  rewrite to_u64_small by nia.
  rewrite to_i64_small; [reflexivity |].
  split; [| exact Hq].
  apply Z.div_pos; nia.
Qed.

Lemma CalculateNumberOfDatagramToSend_exact (duration bitRate datagramSize : Z) :
  is_ulong duration -> is_ulong bitRate -> 0 < datagramSize ->
  CalculateNumberOfDatagramToSend duration bitRate datagramSize
  = Some (duration * (bitRate / 8) / datagramSize).
Proof.
  unfold is_ulong, ULONG_MAX. intros Hd Hb Hs.
  cbv beta zeta delta [CalculateNumberOfDatagramToSend].
  rewrite quot8 by lia.
  assert (Hrate : 0 <= bitRate / 8 < 2 ^ 29).
  { split; [apply Z.div_pos; lia | apply Z.div_lt_upper_bound; lia]. }
  assert (Hprod : 0 <= duration * (bitRate / 8) < 2 ^ 61) by nia.
  unfold mul_i64, in_i64, LLONG_MIN, LLONG_MAX.
  destruct (Z.leb_spec (- 2 ^ 63) (duration * (bitRate / 8))); [| lia].
  destruct (Z.leb_spec (duration * (bitRate / 8)) (2 ^ 63 - 1)); [| lia].
  cbn [andb].
  destruct (Z.eqb_spec datagramSize 0); [lia |].
  rewrite to_u64_small by (unfold two64; lia).
  rewrite to_i64_small; [reflexivity |].
  split; [apply Z.div_pos; lia |].
  apply Z.le_trans with (duration * (bitRate / 8)); [| unfold LLONG_MAX; lia].
  apply Z.div_le_upper_bound; nia.
Qed.

(** ** What the setup of the secondary interface leaves alone *)

Section Frames.

Context `{Collaborators}.

Lemma plan_refreshInterfaces (n : Network) (st : StreamClient) :
  plan (refreshInterfaces n st) = plan st.
Proof.
  unfold refreshInterfaces.
  destruct (negb _); [| reflexivity].
  cbn [set_primaryInterfaceGuid m_secondaryState m_adapterStatus primaryInterfaceGuid].
  destruct (AdapterStatus_eqb _ Ready);
    destruct (GetSecondaryInterfaceGuid n _); reflexivity.
Qed.

Lemma keeps_plan_connectSecondary (n : Network) : keeps_plan (connectSecondary n).
Proof.
  intros st st'. unfold connectSecondary, call.
  destruct (secondary_Setup n), (secondary_CheckConnectivity n),
    (secondary_PrepareToReceive n); cbn; intros [= <-]; reflexivity.
Qed.

(** The lambda returns or terminates the process; no exception leaves
    it. *)
Lemma updateSecondaryInterfaceStatus_cases (n : Network) (st : StreamClient) :
  (exists st', updateSecondaryInterfaceStatus n st = Returned st' /\ plan st' = plan st)
  \/ updateSecondaryInterfaceStatus n st = FailFast.
Proof.
  unfold updateSecondaryInterfaceStatus.
  pose proof (plan_refreshInterfaces n st) as Hr.
  set (st1 := refreshInterfaces n st) in *.
  destruct (_ && _).
  - pose proof (keeps_plan_connectSecondary n st1) as Hc.
    destruct (connectSecondary n st1) as [s | [hr |] s | |] eqn:E.
    + left. exists s. split; [reflexivity |]. rewrite <- Hr. apply Hc. reflexivity.
    + destruct (hr =? _).
      * left. eexists. split; [reflexivity |].
        rewrite <- Hr, <- (Hc s eq_refl). reflexivity.
      * right. reflexivity.
    + right. reflexivity.
    + right. reflexivity.
    + exfalso. revert E. unfold connectSecondary, call.
      destruct (secondary_Setup n), (secondary_CheckConnectivity n),
        (secondary_PrepareToReceive n); discriminate.
  - left. exists st1. split; [reflexivity | exact Hr].
Qed.

Lemma keeps_plan_updateSecondaryInterfaceStatus (n : Network) :
  keeps_plan (updateSecondaryInterfaceStatus n).
Proof.
  intros st st' Hs.
  destruct (updateSecondaryInterfaceStatus_cases n st) as [(s & E & Hp) | E];
    rewrite E in Hs; cbn in Hs; [congruence | discriminate].
Qed.

Lemma SetupSecondaryInterface_cases (n : Network) (st : StreamClient) :
  (exists st', SetupSecondaryInterface n st = Returned st' /\ plan st' = plan st)
  \/ SetupSecondaryInterface n st = FailFast.
Proof.
  unfold SetupSecondaryInterface.
  destruct (negb (m_wlanHandle st)).
  - left. exists st. split; reflexivity.
  - match goal with |- context [updateSecondaryInterfaceStatus n ?s] =>
      destruct (updateSecondaryInterfaceStatus_cases n s) as [(s' & E & Hp) | E];
      rewrite E
    end.
    + left. eexists. split; [reflexivity |].
      transitivity (plan s'); [reflexivity | rewrite Hp; reflexivity].
    + right. reflexivity.
Qed.

Lemma keeps_plan_NetworkStatusChanged (n : Network) :
  keeps_plan (NetworkStatusChanged n).
Proof.
  intros st st'. unfold NetworkStatusChanged.
  destruct (m_networkInformationEventRevoker st).
  - apply keeps_plan_updateSecondaryInterfaceStatus.
  - intros [= <-]. reflexivity.
Qed.

End Frames.

(** ** [Start] *)

Section StartFacts.

Context `{Collaborators}.

(** What the part of [Start] after the allocation leaves untouched. *)
Lemma Start_tail_plan (w : World) (s st' : StreamClient) :
  state_of
    (do st <- call (primary_Setup w) (emit (SocketSetup Primary 0) s);
     do st <- call (primary_CheckConnectivity w) (emit (SocketCheckConnectivity Primary) st);
     do st <- SetupSecondaryInterface (network w) st;
     do st <- call (primary_PrepareToReceive w) (emit (SocketPrepareToReceive Primary) st);
     let st := set_primaryState (set_adapterStatus Ready (m_primaryState st)) st in
     let st := set_running true st in
     Returned (ThreadpoolTimer_Schedule (m_tickInterval st) st)) = Some st' ->
  plan st' = plan s.
Proof.
  destruct (primary_Setup w); cbn [call bind state_of]; [| intros [= <-]; reflexivity].
  destruct (primary_CheckConnectivity w); cbn [call bind state_of];
    [| intros [= <-]; reflexivity].
  match goal with |- context [SetupSecondaryInterface ?n ?s1] =>
    destruct (SetupSecondaryInterface_cases n s1) as [(s2 & E & Hp) | E]; rewrite E
  end; cbn [bind state_of]; [| discriminate].
  destruct (primary_PrepareToReceive w); cbn [call bind state_of];
    intros [= <-]; (transitivity (plan s2); [reflexivity | rewrite Hp; reflexivity]).
Qed.

Lemma Start_state (w : World) (sendBitRate sendFrameRate duration : Z)
  (st st' : StreamClient) :
  state_of (Start w sendBitRate sendFrameRate duration st) = Some st' ->
  exists tickInterval nbDatagramToSend,
    CalculateTickInterval sendBitRate sendFrameRate (to_u64 c_bufferSize)
    = Some tickInterval
    /\ CalculateNumberOfDatagramToSend duration sendBitRate (to_u64 c_bufferSize)
       = Some nbDatagramToSend
    /\ m_finalSequenceNumber st' = m_finalSequenceNumber st + nbDatagramToSend
    /\ LLONG_MIN <= m_finalSequenceNumber st' <= LLONG_MAX
    /\ m_frameRate st' = sendFrameRate
    /\ m_tickInterval st' = ConvertHundredNanosToRelativeFiletime tickInterval
    /\ m_sequenceNumber st' = m_sequenceNumber st
    /\ ((to_u64 (m_finalSequenceNumber st') <= latencyData_max_size
         /\ m_latencyData st'
            = resize (Z.to_nat (to_u64 (m_finalSequenceNumber st'))) LatencyData_init
                (m_latencyData st))
        \/ (latencyData_max_size < to_u64 (m_finalSequenceNumber st')
            /\ m_latencyData st' = m_latencyData st
            /\ Start w sendBitRate sendFrameRate duration st = Thrown OtherException st')).
Proof.
  unfold Start.
  assert (Hp0 : plan (if m_running st then Stop st else st) = plan st)
    by (destruct (m_running st); reflexivity).
  set (st0 := if m_running st then Stop st else st) in *.
  destruct (CalculateTickInterval _ _ _) as [t |]; cbn [defined]; [| discriminate].
  destruct (CalculateNumberOfDatagramToSend _ _ _) as [D |]; cbn [defined];
    [| discriminate].
  cbn [set_tickInterval set_frameRate m_finalSequenceNumber].
  destruct (add_i64 (m_finalSequenceNumber st0) D) as [F |] eqn:EF; cbn [defined];
    [| discriminate].
  assert (HF : F = m_finalSequenceNumber st + D).
  { apply add_i64_inv in EF. rewrite EF. unfold plan in Hp0. congruence. }
  assert (HFr : LLONG_MIN <= F <= LLONG_MAX).
  { revert EF. unfold add_i64, in_i64.
    destruct (Z.leb_spec LLONG_MIN (m_finalSequenceNumber st0 + D));
      destruct (Z.leb_spec (m_finalSequenceNumber st0 + D) LLONG_MAX);
      cbn [andb]; intros [= <-]; lia. }
  cbn [set_finalSequenceNumber m_finalSequenceNumber].
  rewrite to_u64_le_MAXSIZE_T.
  unfold latencyData_resize.
  destruct (Z.gtb_spec (to_u64 F) latencyData_max_size) as [Hbig | Hfit].
  - cbn [bind state_of]. intros [= <-]. exists t, D.
    cbn. unfold plan in Hp0. injection Hp0 as _ _ _ Hseq Hdata _ _.
    repeat split; try assumption; try lia.
    right. repeat split; [lia | assumption].
  - cbn [bind]. intros Hs. apply Start_tail_plan in Hs.
    unfold plan in Hs, Hp0. cbn in Hs.
    injection Hp0 as _ _ _ Hseq Hdata _ _.
    injection Hs as Hrate Htick Hfinal Hseq' Hdata' _ _.
    exists t, D. rewrite Hfinal, Hrate, Htick, Hseq', Hdata', Hseq, Hdata.
    repeat split; try assumption; try lia.
    left. split; [lia | reflexivity].
Qed.

(** Unless the secondary path takes the fatal branch, [Start] leaves the
    client in a state; when the primary path comes up it returns with the
    timer armed. *)
Lemma Start_survives (w : World) (sendBitRate sendFrameRate duration : Z)
  (st : StreamClient) (tickInterval nbDatagramToSend : Z) :
  CalculateTickInterval sendBitRate sendFrameRate (to_u64 c_bufferSize)
  = Some tickInterval ->
  CalculateNumberOfDatagramToSend duration sendBitRate (to_u64 c_bufferSize)
  = Some nbDatagramToSend ->
  0 <= m_finalSequenceNumber st + nbDatagramToSend <= LLONG_MAX ->
  m_finalSequenceNumber st + nbDatagramToSend <= latencyData_max_size ->
  m_wlanHandle st = false \/ secondary_benign (network w) ->
  exists st',
    state_of (Start w sendBitRate sendFrameRate duration st) = Some st'
    /\ (primary_returns w ->
        Start w sendBitRate sendFrameRate duration st = Returned st'
        /\ m_running st' = true
        /\ m_threadpoolTimer st'
           = Some (ConvertHundredNanosToRelativeFiletime tickInterval)
        /\ m_adapterStatus (m_primaryState st') = Ready).
Proof.
  intros Ht HD HF Hfit Hsec.
  unfold Start, primary_returns.
  assert (Hp0 : plan (if m_running st then Stop st else st) = plan st)
    by (destruct (m_running st); reflexivity).
  assert (Hw0 : m_wlanHandle (if m_running st then Stop st else st) = m_wlanHandle st)
    by (destruct (m_running st); reflexivity).
  set (st0 := if m_running st then Stop st else st) in *.
  rewrite Ht, HD. cbn [defined set_tickInterval set_frameRate m_finalSequenceNumber].
  assert (E0 : m_finalSequenceNumber st0 = m_finalSequenceNumber st)
    by (unfold plan in Hp0; congruence).
  rewrite E0, add_i64_Some by (unfold LLONG_MIN; lia).
  cbn [defined set_finalSequenceNumber m_finalSequenceNumber].
  rewrite to_u64_le_MAXSIZE_T.
  rewrite to_u64_small by (unfold two64, LLONG_MAX in *; lia).
  unfold latencyData_resize.
  destruct (Z.gtb_spec (m_finalSequenceNumber st + nbDatagramToSend) latencyData_max_size);
    [lia |].
  cbn [bind].
  destruct (primary_Setup w); cbn [bind call];
    [| eexists; split; [reflexivity | intros (? & _); discriminate]].
  destruct (primary_CheckConnectivity w); cbn [bind call];
    [| eexists; split; [reflexivity | intros (_ & ? & _); discriminate]].
  match goal with |- context [SetupSecondaryInterface ?n ?s1] =>
    assert (Hsetup : exists s2, SetupSecondaryInterface n s1 = Returned s2
                                /\ m_tickInterval s2 = m_tickInterval s1)
  end.
  { unfold SetupSecondaryInterface.
    match goal with |- context [negb (m_wlanHandle ?s)] =>
      change (m_wlanHandle s) with (m_wlanHandle st0)
    end.
    rewrite Hw0.
    destruct Hsec as [-> | Hben].
    - cbn [negb]. eexists. split; reflexivity.
    - destruct (negb (m_wlanHandle st)); [eexists; split; reflexivity |].
      unfold updateSecondaryInterfaceStatus.
      match goal with |- context [refreshInterfaces ?n ?s] =>
        pose proof (plan_refreshInterfaces n s) as Hr;
        set (st1 := refreshInterfaces n s) in *
      end.
      assert (Htick : m_tickInterval st1
                      = ConvertHundredNanosToRelativeFiletime tickInterval)
        by (unfold plan in Hr; injection Hr as _ Hr _; exact Hr).
      destruct (_ && _); [| eexists; split; [reflexivity | exact Htick]].
      unfold connectSecondary, call.
      revert Hben. unfold secondary_benign, first_failure, unreachable.
      destruct (secondary_Setup (network w)) as [| e1];
        [destruct (secondary_CheckConnectivity (network w)) as [| e2];
         [destruct (secondary_PrepareToReceive (network w)) as [| e3] |] |];
        intros [Hn | Hn]; try discriminate; try injection Hn as ->;
        cbn [bind]; try rewrite Z.eqb_refl;
        eexists; (split; [reflexivity | exact Htick]). }
  destruct Hsetup as (s2 & -> & Htick).
  cbn [bind].
  destruct (primary_PrepareToReceive w); cbn [bind call];
    [| eexists; split; [reflexivity | intros (_ & _ & ?); discriminate]].
  eexists. split; [reflexivity |]. intros _.
  split; [reflexivity |]. cbn. rewrite Htick. repeat split; reflexivity.
Qed.

End StartFacts.

(** ** The claims on the rate computations and on [Start] *)

(** C1, as the code has it: [CalculateNumberOfDatagramToSend] yields
    (10 * 250000) / 1024 = 2441 for 2,000,000 bits/s, 10 s and datagrams of
    1024 bytes, and [Start] on a freshly constructed client adds this
    count to the initial -1: the final sequence number, to which the
    aggregator is sized, is 2440, whatever the collaborators answer. *)
Theorem Start_scenario_final_sequence_number `{Collaborators} (w : World) :
  c_bufferSize = 1024 ->
  2440 <= latencyData_max_size ->
  CalculateNumberOfDatagramToSend 10 2000000 (to_u64 c_bufferSize) = Some 2441
  /\ exists st',
       state_of (Start w 2000000 50 10 StreamClient_new) = Some st'
       /\ m_finalSequenceNumber st' = 2440
       /\ length (m_latencyData st') = 2440%nat
       /\ (primary_returns w -> Start w 2000000 50 10 StreamClient_new = Returned st').
Proof.
  intros Hsize Hmax.
  assert (HD : CalculateNumberOfDatagramToSend 10 2000000 (to_u64 c_bufferSize)
               = Some 2441) by (rewrite Hsize; reflexivity).
  assert (Ht : CalculateTickInterval 2000000 50 (to_u64 c_bufferSize) = Some 2048000)
    by (rewrite Hsize; reflexivity).
  split; [exact HD |].
  destruct (Start_survives w 2000000 50 10 StreamClient_new 2048000 2441 Ht HD)
    as (st' & Hs & Hret).
  - cbn. unfold LLONG_MAX. lia.
  - cbn. lia.
  - left. reflexivity.
  - destruct (Start_state _ _ _ _ _ _ Hs)
      as (t & D & _ & HD' & Hfin & _ & _ & _ & _ & Hdata).
    rewrite HD in HD'. injection HD' as <-.
    assert (Hfinal : m_finalSequenceNumber st' = 2440) by (rewrite Hfin; reflexivity).
    rewrite Hfinal in Hdata. change (to_u64 2440) with 2440 in Hdata.
    exists st'. split; [exact Hs |]. split; [exact Hfinal |]. split.
    + destruct Hdata as [(_ & ->) | (Hbig & _)]; [| lia].
      rewrite length_resize. reflexivity.
    + intros Hp. apply Hret. exact Hp.
Qed.

Lemma CalculateTickInterval_defined (bitRate frameRate datagramSize : Z) :
  8 <= bitRate <= LLONG_MAX ->
  exists tickInterval,
    CalculateTickInterval bitRate frameRate datagramSize = Some tickInterval.
Proof.
  intros Hb. cbv beta zeta delta [CalculateTickInterval].
  rewrite quot8 by lia.
  assert (Hrate : 1 <= bitRate / 8 < two64).
  { split.
    - apply Z.div_le_lower_bound; lia.
    - apply Z.div_lt_upper_bound; unfold LLONG_MAX, two64 in *; lia. }
  rewrite (to_u64_small (bitRate / 8)) by lia.
  destruct (Z.eqb_spec (bitRate / 8) 0); [lia |].
  eexists. reflexivity.
Qed.

(** C8, as the code has it: for a bit rate of at least 8 bits/s, when
    datagramSize * frameRate * 10,000,000 fits the unsigned 64-bit product
    and the quotient fits a [long long], the tick interval is
    datagramSize * frameRate * 10,000,000 / (bitRate / 8) with integer
    division, and [Start] stores its conversion in [m_tickInterval]; for
    2,000,000 bits/s, 50 frames and 1024 bytes it is 2,048,000. *)
Theorem tick_interval_formula `{Collaborators} (bitRate frameRate datagramSize : Z) :
  8 <= bitRate <= LLONG_MAX ->
  0 <= frameRate -> 0 <= datagramSize ->
  datagramSize * frameRate * 10000000 < two64 ->
  datagramSize * frameRate * 10000000 / (bitRate / 8) <= LLONG_MAX ->
  CalculateTickInterval bitRate frameRate datagramSize
  = Some (datagramSize * frameRate * 10000000 / (bitRate / 8))
  /\ CalculateTickInterval 2000000 50 1024 = Some 2048000
  /\ (datagramSize = to_u64 c_bufferSize ->
      forall (w : World) (duration : Z) (st st' : StreamClient),
        state_of (Start w bitRate frameRate duration st) = Some st' ->
        m_tickInterval st'
        = ConvertHundredNanosToRelativeFiletime
            (datagramSize * frameRate * 10000000 / (bitRate / 8))).
Proof.
  intros Hb Hf Hd Hprod Hq.
  pose proof (CalculateTickInterval_exact _ _ _ Hb Hf Hd Hprod Hq) as Ht.
  split; [exact Ht |]. split; [reflexivity |].
  intros -> w duration st st' Hs.
  destruct (Start_state _ _ _ _ _ _ Hs) as (t & D & Ht' & _ & _ & _ & _ & Htick & _).
  rewrite Ht in Ht'. injection Ht' as <-. exact Htick.
Qed.

(** C5: [ValidateBufferLength] answers false exactly below the 24 bytes of
    the header (8 for the sequence number, twice 8 for the timestamps); a
    receive completion of fewer bytes, 23 for one, returns without looking
    at the header, counts one corrupt frame on its path and leaves every
    aggregator record as it was. *)
Theorem short_frame_is_counted_corrupt (i : Interface) (completedBytes : Z)
  (header : DatagramHeader.t) (receiveTimestamp : Z) (st : StreamClient) :
  completedBytes < 24 ->
  LLONG_MIN <= m_corruptFrames (socket i st) < LLONG_MAX ->
  c_datagramHeaderLength = 8 + 2 * 8
  /\ (forall n : Z, ValidateBufferLength n = false <-> n < 24)
  /\ MeasuredSocket_ReceiveCompletion i completedBytes header receiveTimestamp st
     = Returned
         (set_socket i
            (set_corruptFrames (m_corruptFrames (socket i st) + 1) (socket i st)) st)
  /\ forall st',
       MeasuredSocket_ReceiveCompletion i completedBytes header receiveTimestamp st
       = Returned st' ->
       m_corruptFrames (socket i st') = m_corruptFrames (socket i st) + 1
       /\ m_latencyData st' = m_latencyData st.
Proof.
  intros Hshort Hcount.
  assert (Hv : forall n : Z, ValidateBufferLength n = false <-> n < 24).
  { intros n. unfold ValidateBufferLength.
    change c_datagramHeaderLength with 24.
    destruct (Z.ltb_spec n 24); split; intros; try lia; try reflexivity; discriminate. }
  assert (Hr : MeasuredSocket_ReceiveCompletion i completedBytes header receiveTimestamp st
               = Returned
                   (set_socket i
                      (set_corruptFrames (m_corruptFrames (socket i st) + 1)
                         (socket i st)) st)).
  { unfold MeasuredSocket_ReceiveCompletion.
    rewrite (proj2 (Hv completedBytes) Hshort).
    rewrite add_i64_Some by lia. reflexivity. }
  split; [reflexivity |]. split; [exact Hv |]. split; [exact Hr |].
  intros st' Hs. rewrite Hr in Hs. injection Hs as <-.
  destruct i; split; reflexivity.
Qed.

(** ** The completions *)

Lemma latencyData_at_in_range (n : Z) (st : StreamClient) :
  0 <= n < m_finalSequenceNumber st ->
  m_finalSequenceNumber st <= LLONG_MAX ->
  aggregator_sized st ->
  exists stat, latencyData_at n st = Some stat
               /\ m_latencyData st !! Z.to_nat n = Some stat.
Proof.
  unfold aggregator_sized, latencyData_at. intros Hn Hmax Hsz.
  assert (Hlt : (Z.to_nat n < length (m_latencyData st))%nat) by lia.
  destruct (lookup_lt_is_Some_2 _ _ Hlt) as [stat Hstat].
  exists stat. cbv zeta.
  rewrite to_u64_small by (unfold two64, LLONG_MAX in *; lia).
  destruct (Z.ltb_spec n (Z.of_nat (length (m_latencyData st)))); [| lia].
  split; exact Hstat.
Qed.

Lemma ReceiveCompletion_in_range (i : Interface) (r : ReceiveResult.t)
  (st : StreamClient) :
  0 <= ReceiveResult.m_sequenceNumber r < m_finalSequenceNumber st ->
  m_finalSequenceNumber st <= LLONG_MAX ->
  aggregator_sized st ->
  exists stat,
    m_latencyData st !! Z.to_nat (ReceiveResult.m_sequenceNumber r) = Some stat
    /\ ReceiveCompletion i r st
       = Returned
           (set_latencyData
              (<[Z.to_nat (ReceiveResult.m_sequenceNumber r) := received i r stat]>
                 (m_latencyData st)) st).
Proof.
  intros Hn Hmax Hsz.
  destruct (latencyData_at_in_range _ _ Hn Hmax Hsz) as (stat & Hat & Hlk).
  exists stat. split; [exact Hlk |].
  unfold ReceiveCompletion.
  destruct (Z.ltb_spec (ReceiveResult.m_sequenceNumber r) 0); [lia |].
  destruct (Z.geb_spec (ReceiveResult.m_sequenceNumber r) (m_finalSequenceNumber st));
    [lia |].
  cbn [orb]. rewrite Hat. cbn [defined]. unfold latencyData_store.
  rewrite to_u64_small by (unfold two64, LLONG_MAX in *; lia).
  destruct i; reflexivity.
Qed.

Lemma SendCompletion_in_range (i : Interface) (s : SendResult.t) (st : StreamClient) :
  0 <= SendResult.m_sequenceNumber s < m_finalSequenceNumber st ->
  m_finalSequenceNumber st <= LLONG_MAX ->
  aggregator_sized st ->
  exists stat,
    m_latencyData st !! Z.to_nat (SendResult.m_sequenceNumber s) = Some stat
    /\ SendCompletion i s st
       = Returned
           (set_latencyData
              (<[Z.to_nat (SendResult.m_sequenceNumber s) := sent i s stat]>
                 (m_latencyData st)) st).
Proof.
  intros Hn Hmax Hsz.
  destruct (latencyData_at_in_range _ _ Hn Hmax Hsz) as (stat & Hat & Hlk).
  exists stat. split; [exact Hlk |].
  unfold SendCompletion. rewrite to_u64_le_MAXSIZE_T, Hat. cbn [defined].
  unfold latencyData_store.
  rewrite to_u64_small by (unfold two64, LLONG_MAX in *; lia).
  destruct i; reflexivity.
Qed.

(** Outside the aggregator [SendCompletion] passes its own check and
    indexes the vector all the same. *)
Lemma SendCompletion_out_of_range (i : Interface) (s : SendResult.t) (st : StreamClient) :
  LLONG_MIN <= SendResult.m_sequenceNumber s <= LLONG_MAX ->
  0 <= m_finalSequenceNumber st <= LLONG_MAX ->
  aggregator_sized st ->
  SendResult.m_sequenceNumber s < 0
  \/ m_finalSequenceNumber st <= SendResult.m_sequenceNumber s ->
  SendCompletion i s st = Undefined.
Proof.
  unfold aggregator_sized. intros Hr Hf Hsz Hout.
  unfold SendCompletion. rewrite to_u64_le_MAXSIZE_T.
  assert (Hnone : latencyData_at (SendResult.m_sequenceNumber s) st = None).
  { unfold latencyData_at. cbv zeta.
    match goal with |- (if ?c then _ else _) = _ => destruct c eqn:Ec end;
      [| reflexivity].
    exfalso. apply Z.ltb_lt in Ec. revert Ec.
    destruct Hout as [Hneg | Hbig].
    - assert (E : to_u64 (SendResult.m_sequenceNumber s)
                  = SendResult.m_sequenceNumber s + two64).
      { unfold to_u64. symmetry. apply Z.mod_unique with (q := -1);
          unfold two64, LLONG_MIN in *; lia. }
      rewrite E. unfold two64, LLONG_MIN, LLONG_MAX in *. lia.
    - rewrite to_u64_small by (unfold two64, LLONG_MAX in *; lia). lia. }
  rewrite Hnone. reflexivity.
Qed.

(** C2, where the code departs from it: on a client whose aggregator
    holds the records 0 and 1, a send completion carrying the sequence
    number -1, or 2, passes the check against [MAXSIZE_T] and then indexes
    the vector outside its bounds. *)
Theorem SendCompletion_indexes_out_of_bounds :
  m_finalSequenceNumber small_client = 2
  /\ length (m_latencyData small_client) = 2%nat
  /\ SendCompletion Primary (SendResult.mk (-1) 5) small_client = Undefined
  /\ SendCompletion Secondary (SendResult.mk 2 5) small_client = Undefined.
Proof. vm_compute. repeat split; reflexivity. Qed.

(** C4: a receive completion whose sequence number is negative or not
    below the final sequence number adds one to the corrupt-frame counter
    of the path it arrived on and changes nothing else; no aggregator
    record is touched. *)
Theorem out_of_range_frame_is_counted_corrupt (i : Interface) (r : ReceiveResult.t)
  (st : StreamClient) :
  ReceiveResult.m_sequenceNumber r < 0
  \/ m_finalSequenceNumber st <= ReceiveResult.m_sequenceNumber r ->
  LLONG_MIN <= corrupt_counter i st < LLONG_MAX ->
  ReceiveCompletion i r st
  = Returned (set_corrupt_counter i (corrupt_counter i st + 1) st)
  /\ forall st',
       ReceiveCompletion i r st = Returned st' ->
       corrupt_counter i st' = corrupt_counter i st + 1
       /\ corrupt_counter (other i) st' = corrupt_counter (other i) st
       /\ m_latencyData st' = m_latencyData st.
Proof.
  intros Hout Hc.
  assert (Hr : ReceiveCompletion i r st
               = Returned (set_corrupt_counter i (corrupt_counter i st + 1) st)).
  { unfold ReceiveCompletion.
    assert (Hcond : (ReceiveResult.m_sequenceNumber r <? 0)
                    || (ReceiveResult.m_sequenceNumber r >=? m_finalSequenceNumber st)
                    = true).
    { apply orb_true_iff. destruct Hout as [Hneg | Hbig].
      - left. apply Z.ltb_lt. exact Hneg.
      - right. apply Z.geb_le. exact Hbig. }
    rewrite Hcond.
    destruct i; cbn [corrupt_counter] in Hc |- *;
      rewrite add_i64_Some by lia; reflexivity. }
  split; [exact Hr |].
  intros st' Hs. rewrite Hr in Hs. injection Hs as <-.
  destruct i; repeat split; reflexivity.
Qed.

(** C3, as the code has it: a receive completion on path P with an
    in-range sequence number i overwrites the send, the echo and the
    receive timestamp of record i for path P with the values of the frame,
    the echo timestamp also when it is zero; the three timestamps of the
    other path, every other record and every other member stay as they
    were.  The send timestamp of a path is thus written by its send
    completions and by its receive completions. *)
Theorem receive_completion_overwrites_path_timestamps (i : Interface)
  (r : ReceiveResult.t) (st : StreamClient) :
  0 <= ReceiveResult.m_sequenceNumber r < m_finalSequenceNumber st ->
  m_finalSequenceNumber st <= LLONG_MAX ->
  aggregator_sized st ->
  exists stat,
    m_latencyData st !! Z.to_nat (ReceiveResult.m_sequenceNumber r) = Some stat
    /\ ReceiveCompletion i r st
       = Returned
           (set_latencyData
              (<[Z.to_nat (ReceiveResult.m_sequenceNumber r) := received i r stat]>
                 (m_latencyData st)) st)
    /\ forall st',
         ReceiveCompletion i r st = Returned st' ->
         m_latencyData st' !! Z.to_nat (ReceiveResult.m_sequenceNumber r)
         = Some (received i r stat)
         /\ (forall j : nat,
               j <> Z.to_nat (ReceiveResult.m_sequenceNumber r) ->
               m_latencyData st' !! j = m_latencyData st !! j)
         /\ length (m_latencyData st') = length (m_latencyData st)
         /\ corrupt_counter Primary st' = corrupt_counter Primary st
         /\ corrupt_counter Secondary st' = corrupt_counter Secondary st.
Proof.
  intros Hn Hmax Hsz.
  destruct (ReceiveCompletion_in_range i r st Hn Hmax Hsz) as (stat & Hlk & Hr).
  exists stat. split; [exact Hlk |]. split; [exact Hr |].
  intros st' Hs. rewrite Hr in Hs. injection Hs as <-.
  cbn [m_latencyData set_latencyData corrupt_counter m_primaryCorruptFrames
         m_secondaryCorruptFrames].
  split; [| split; [| split; [| split; reflexivity]]].
  - apply list_lookup_insert_eq. apply lookup_lt_is_Some_1. eexists. exact Hlk.
  - intros j Hj. apply list_lookup_insert_ne. congruence.
  - apply length_insert.
Qed.

(** ** [Stop] *)

Lemma signals_effects (a b : StreamClient) (es : list Effect) :
  effects a = effects b ++ es ->
  signals a = (signals b + length (filter (fun e => is_SetEvent e = true) es))%nat.
Proof. unfold signals. intros ->. rewrite filter_app, length_app. reflexivity. Qed.

Lemma signals_app (st : StreamClient) (es : list Effect) :
  signals (set_effects (effects st ++ es) st)
  = (signals st + length (filter (fun e => is_SetEvent e = true) es))%nat.
Proof. unfold signals. cbn. rewrite filter_app, length_app. reflexivity. Qed.

Lemma Stop_members `{Collaborators} (st : StreamClient) :
  Stop st
  = {| m_wlanHandle := m_wlanHandle st;
       m_networkInformationEventRevoker := false;
       primaryInterfaceGuid := primaryInterfaceGuid st;
       secondaryInterfaceGuid := secondaryInterfaceGuid st;
       m_primaryState := Cancel (m_primaryState st);
       m_secondaryState := Cancel (m_secondaryState st);
       m_frameRate := m_frameRate st;
       m_tickInterval := m_tickInterval st;
       m_finalSequenceNumber := m_finalSequenceNumber st;
       m_threadpoolTimer := None;
       m_running := false;
       m_sequenceNumber := m_sequenceNumber st;
       m_latencyData := m_latencyData st;
       m_primaryCorruptFrames := m_primaryCorruptFrames st;
       m_secondaryCorruptFrames := m_secondaryCorruptFrames st;
       effects :=
         effects st
         ++ [TimerStop; RevokeNetworkStatusChanged; Sleep 1000; SocketCancel Primary;
             SocketCancel Secondary; SetEvent] |}.
Proof.
  destruct st. unfold Stop, Socket_Cancel, ThreadpoolTimer_Stop, emit.
  cbv beta iota zeta delta
    [set_effects set_running set_threadpoolTimer set_networkInformationEventRevoker
     set_socket set_primaryState set_secondaryState socket
     m_wlanHandle m_networkInformationEventRevoker primaryInterfaceGuid
     secondaryInterfaceGuid m_primaryState m_secondaryState m_frameRate m_tickInterval
     m_finalSequenceNumber m_threadpoolTimer m_running m_sequenceNumber m_latencyData
     m_primaryCorruptFrames m_secondaryCorruptFrames effects].
  repeat rewrite <- app_assoc. reflexivity.
Qed.

Lemma signals_Stop `{Collaborators} (st : StreamClient) :
  signals (Stop st) = S (signals st).
Proof.
  rewrite <- Nat.add_1_r.
  apply (signals_effects (Stop st) st
           [TimerStop; RevokeNetworkStatusChanged; Sleep 1000; SocketCancel Primary;
            SocketCancel Secondary; SetEvent]).
  rewrite (Stop_members st). reflexivity.
Qed.

(** C6, as the code has it: [Stop] has no guard, so a second call makes
    the six calls of the first again, the wait of one second and the
    signal of the completion event among them; with a [Cancel] that is
    idempotent, nothing else differs: the running flag, the timer, the
    subscription and both paths are as the first call left them. *)
Theorem second_Stop_repeats_its_calls `{Collaborators} (st : StreamClient) :
  (forall s : MeasuredSocket, Cancel (Cancel s) = Cancel s) ->
  Stop (Stop st)
  = set_effects
      (effects (Stop st)
       ++ [TimerStop; RevokeNetworkStatusChanged; Sleep 1000; SocketCancel Primary;
           SocketCancel Secondary; SetEvent])
      (Stop st)
  /\ signals (Stop (Stop st)) = S (signals (Stop st))
  /\ m_running (Stop (Stop st)) = m_running (Stop st)
  /\ m_threadpoolTimer (Stop (Stop st)) = m_threadpoolTimer (Stop st)
  /\ m_primaryState (Stop (Stop st)) = m_primaryState (Stop st)
  /\ m_secondaryState (Stop (Stop st)) = m_secondaryState (Stop st).
Proof.
  intros Hidem.
  assert (E : Stop (Stop st)
              = set_effects
                  (effects (Stop st)
                   ++ [TimerStop; RevokeNetworkStatusChanged; Sleep 1000;
                       SocketCancel Primary; SocketCancel Secondary; SetEvent])
                  (Stop st)).
  { rewrite (Stop_members (Stop st)), (Stop_members st).
    cbv beta iota delta
      [set_effects m_wlanHandle m_networkInformationEventRevoker primaryInterfaceGuid
       secondaryInterfaceGuid m_primaryState m_secondaryState m_frameRate
       m_tickInterval m_finalSequenceNumber m_threadpoolTimer m_running
       m_sequenceNumber m_latencyData m_primaryCorruptFrames m_secondaryCorruptFrames
       effects].
    rewrite !Hidem. reflexivity. }
  split; [exact E |]. split.
  - apply signals_Stop.
  - clear E. rewrite (Stop_members (Stop st)), (Stop_members st).
    cbv beta iota delta
      [m_primaryState m_secondaryState m_threadpoolTimer m_running].
    rewrite !Hidem. repeat split; reflexivity.
Qed.

(** ** The secondary interface *)

Section Secondary.

Context `{Collaborators}.

Lemma connectSecondary_result (n : Network) (st : StreamClient) :
  match first_failure n with
  | None =>
      exists st', connectSecondary n st = Returned st'
                  /\ m_adapterStatus (m_secondaryState st') = Ready
  | Some e =>
      exists st', connectSecondary n st = Thrown e st'
                  /\ m_secondaryState st' = m_secondaryState st
                  /\ primaryInterfaceGuid st' = primaryInterfaceGuid st
                  /\ secondaryInterfaceGuid st' = secondaryInterfaceGuid st
  end.
Proof.
  unfold first_failure, connectSecondary, call.
  destruct (secondary_Setup n); [| eexists; repeat split; reflexivity].
  destruct (secondary_CheckConnectivity n); [| eexists; repeat split; reflexivity].
  destruct (secondary_PrepareToReceive n); eexists; repeat split; reflexivity.
Qed.

Lemma refreshInterfaces_same_primary (n : Network) (st : StreamClient) :
  GetPrimaryInterfaceGuid n = primaryInterfaceGuid st -> refreshInterfaces n st = st.
Proof.
  intros E. unfold refreshInterfaces. rewrite E, Z.eqb_refl. reflexivity.
Qed.

Lemma unreachable_other (e : exn) :
  e <> unreachable ->
  match e with
  | ResultException hr => (hr =? HRESULT_FROM_WIN32 ERROR_NOT_CONNECTED) = false
  | OtherException => True
  end.
Proof.
  destruct e as [hr |]; [| trivial]. intros Hne.
  apply Z.eqb_neq. intros ->. apply Hne. reflexivity.
Qed.

(** The three ways out of the setup of a [Connecting] secondary interface
    that is connected. *)
Lemma updateSecondaryInterfaceStatus_connecting (n : Network) (st : StreamClient) :
  m_adapterStatus (m_secondaryState (refreshInterfaces n st)) = Connecting ->
  IsAdapterConnected n (secondaryInterfaceGuid (refreshInterfaces n st)) = true ->
  match first_failure n with
  | None =>
      exists st', updateSecondaryInterfaceStatus n st = Returned st'
                  /\ m_adapterStatus (m_secondaryState st') = Ready
  | Some e =>
      (e = unreachable ->
       exists st' before,
         updateSecondaryInterfaceStatus n st = Returned st'
         /\ m_secondaryState st'
            = set_adapterStatus Connecting
                (Cancel (m_secondaryState (refreshInterfaces n st)))
         /\ effects st' = before ++ [SocketCancel Secondary]
         /\ primaryInterfaceGuid st' = primaryInterfaceGuid (refreshInterfaces n st)
         /\ secondaryInterfaceGuid st' = secondaryInterfaceGuid (refreshInterfaces n st))
      /\ (e <> unreachable -> updateSecondaryInterfaceStatus n st = FailFast)
  end.
Proof.
  intros Hst Hconn. unfold updateSecondaryInterfaceStatus.
  set (st1 := refreshInterfaces n st) in *.
  rewrite Hst, Hconn. cbn [AdapterStatus_eqb andb].
  pose proof (connectSecondary_result n st1) as Hc.
  destruct (first_failure n) as [e |].
  - destruct Hc as (s & -> & Hsock & Hpg & Hsg). split.
    + intros ->. unfold unreachable. rewrite Z.eqb_refl.
      exists (set_secondaryState
                (set_adapterStatus Connecting
                   (m_secondaryState (Socket_Cancel Secondary s)))
                (Socket_Cancel Secondary s)), (effects s).
      split; [reflexivity |]. cbn. rewrite Hsock, Hpg, Hsg.
      repeat split; reflexivity.
    + intros Hne. apply unreachable_other in Hne.
      destruct e as [hr |]; [rewrite Hne |]; reflexivity.
  - destruct Hc as (s & -> & Hready). exists s. split; [reflexivity | exact Hready].
Qed.

(** C9: when a [Connecting] secondary interface is connected, the setup
    makes it [Ready] if [Setup], [CheckConnectivity] and [PrepareToReceive]
    return; if the sequence fails with the error of an unreachable target,
    as when [CheckConnectivity] throws it, the path is cancelled and set
    back to [Connecting], and a later notification that finds it connected
    sets it up again; on any other failure the process is terminated. *)
Theorem secondary_setup_outcomes (n : Network) (st : StreamClient) :
  m_adapterStatus (m_secondaryState (refreshInterfaces n st)) = Connecting ->
  IsAdapterConnected n (secondaryInterfaceGuid (refreshInterfaces n st)) = true ->
  (first_failure n = None ->
   exists st', updateSecondaryInterfaceStatus n st = Returned st'
               /\ m_adapterStatus (m_secondaryState st') = Ready)
  /\ ((first_failure n = Some unreachable
       \/ (secondary_Setup n = Returns
           /\ secondary_CheckConnectivity n = Raises unreachable)) ->
      exists st' before,
        updateSecondaryInterfaceStatus n st = Returned st'
        /\ effects st' = before ++ [SocketCancel Secondary]
        /\ m_secondaryState st'
           = set_adapterStatus Connecting
               (Cancel (m_secondaryState (refreshInterfaces n st)))
        /\ m_adapterStatus (m_secondaryState st') = Connecting
        /\ forall later : Network,
             GetPrimaryInterfaceGuid later = primaryInterfaceGuid st' ->
             IsAdapterConnected later (secondaryInterfaceGuid st') = true ->
             first_failure later = None ->
             exists st'', updateSecondaryInterfaceStatus later st' = Returned st''
                          /\ m_adapterStatus (m_secondaryState st'') = Ready)
  /\ (forall e : exn,
        first_failure n = Some e -> e <> unreachable ->
        updateSecondaryInterfaceStatus n st = FailFast).
Proof.
  intros Hst Hconn.
  pose proof (updateSecondaryInterfaceStatus_connecting n st Hst Hconn) as Hu.
  split; [| split].
  - intros Hnone. rewrite Hnone in Hu. exact Hu.
  - intros Hfail.
    assert (Hff : first_failure n = Some unreachable).
    { destruct Hfail as [Hff | (Hs & Hc)]; [exact Hff |].
      unfold first_failure. rewrite Hs, Hc. reflexivity. }
    rewrite Hff in Hu. destruct Hu as (Hu & _).
    destruct (Hu eq_refl) as (st' & before & Hr & Hsock & Heff & Hpg & Hsg).
    exists st', before. split; [exact Hr |]. split; [exact Heff |].
    split; [exact Hsock |].
    assert (Hconnecting : m_adapterStatus (m_secondaryState st') = Connecting)
      by (rewrite Hsock; reflexivity).
    split; [exact Hconnecting |].
    intros later Hsame Hlater Hok.
    pose proof (updateSecondaryInterfaceStatus_connecting later st') as Hl.
    rewrite (refreshInterfaces_same_primary later st' Hsame) in Hl.
    specialize (Hl Hconnecting Hlater). rewrite Hok in Hl. exact Hl.
  - intros e He Hne. rewrite He in Hu. destruct Hu as (_ & Hu). apply Hu. exact Hne.
Qed.

End Secondary.

(** ** The send scheduler *)

Section Scheduler.

Context `{Collaborators}.

Lemma SendDatagrams_result (st : StreamClient) :
  LLONG_MIN <= m_sequenceNumber st < LLONG_MAX ->
  SendDatagrams st
  = Returned (set_sequenceNumber (m_sequenceNumber st + 1)
                (set_effects (effects st ++ sends st) st)).
Proof.
  intros Hs. unfold SendDatagrams, sends.
  destruct (AdapterStatus_eqb _ Ready); cbn;
    rewrite add_i64_Some by lia; cbn; unfold emit, set_effects; cbn;
    repeat rewrite <- app_assoc; reflexivity.
Qed.

Lemma signals_sends (st : StreamClient) :
  signals (set_sequenceNumber (m_sequenceNumber st + 1)
             (set_effects (effects st ++ sends st) st)) = signals st.
Proof.
  unfold sends.
  destruct (AdapterStatus_eqb _ Ready);
    (transitivity (signals st + 0)%nat; [apply (signals_app st) | apply Nat.add_0_r]).
Qed.

(** The loop of one tick sends min (m_frameRate - i, final - counter)
    datagrams, when that is positive, and touches nothing but the counter
    and the trace. *)
Lemma TimerCallback_for_result (remaining : nat) :
  forall (i : Z) (st : StreamClient),
    remaining = Z.to_nat (m_frameRate st - i) ->
    0 <= i ->
    LLONG_MIN <= m_sequenceNumber st ->
    m_finalSequenceNumber st <= LLONG_MAX ->
    i + Z.min (m_frameRate st - i) (m_finalSequenceNumber st - m_sequenceNumber st)
    <= INT_MAX ->
    exists st',
      TimerCallback_for remaining i st = Returned st'
      /\ m_sequenceNumber st'
         = m_sequenceNumber st
           + Z.max 0 (Z.min (m_frameRate st - i)
                        (m_finalSequenceNumber st - m_sequenceNumber st))
      /\ rest st' = rest st
      /\ signals st' = signals st.
Proof.
  induction remaining as [| remaining IH]; intros i st Hrem Hi Hlo Hhi Hint.
  - exists st. cbn. repeat split; try reflexivity. lia.
  - cbn [TimerCallback_for].
    destruct (Z.ltb_spec i (m_frameRate st)); [| lia].
    destruct (Z.ltb_spec (m_sequenceNumber st) (m_finalSequenceNumber st)) as [Hlt | Hge];
      cbn [andb].
    + rewrite SendDatagrams_result by lia. cbn [bind].
      unfold incr_int. destruct (Z.ltb_spec i INT_MAX); [| lia]. cbn [defined].
      match goal with |- context [TimerCallback_for remaining (i + 1) ?s] =>
        destruct (IH (i + 1) s) as (st' & Hr & Hseq & Hrest & Hsig)
      end; cbn; try lia.
      exists st'. split; [exact Hr |]. cbn in Hseq. split; [lia |].
      split; [rewrite Hrest; reflexivity |].
      rewrite Hsig. apply signals_sends.
    + exists st. repeat split; try reflexivity. lia.
Qed.

Lemma rest_fields (a b : StreamClient) :
  rest a = rest b ->
  m_frameRate a = m_frameRate b
  /\ m_tickInterval a = m_tickInterval b
  /\ m_finalSequenceNumber a = m_finalSequenceNumber b
  /\ m_running a = m_running b
  /\ m_threadpoolTimer a = m_threadpoolTimer b.
Proof. unfold rest. intros [= ]. repeat split; assumption. Qed.

(** One callback of an armed timer: it sends a burst and either re-arms
    the timer, when datagrams are left, or stops the run. *)
Lemma timer_fires_step (st : StreamClient) :
  scheduled st ->
  1 <= m_frameRate st ->
  0 <= m_sequenceNumber st <= m_finalSequenceNumber st ->
  m_finalSequenceNumber st <= LLONG_MAX ->
  Z.min (m_frameRate st) (m_finalSequenceNumber st - m_sequenceNumber st) <= INT_MAX ->
  exists st',
    timer_fires st = Returned st'
    /\ m_frameRate st' = m_frameRate st
    /\ m_finalSequenceNumber st' = m_finalSequenceNumber st
    /\ ((m_sequenceNumber st + m_frameRate st < m_finalSequenceNumber st
         /\ m_sequenceNumber st' = m_sequenceNumber st + m_frameRate st
         /\ scheduled st'
         /\ signals st' = signals st)
        \/ (m_finalSequenceNumber st <= m_sequenceNumber st + m_frameRate st
            /\ m_sequenceNumber st' = m_finalSequenceNumber st
            /\ terminal st'
            /\ signals st' = S (signals st))).
Proof.
  intros (Hrun & Harmed) Hf Hseq Hmax Hint.
  unfold timer_fires. rewrite Harmed. unfold TimerCallback.
  set (s0 := set_threadpoolTimer None st).
  change (m_running s0) with (m_running st). rewrite Hrun.
  cbv beta iota delta [negb].
  destruct (TimerCallback_for_result (Z.to_nat (m_frameRate s0)) 0 s0)
    as (s1 & Hr & Hs1 & Hrest & Hsig).
  { reflexivity || (rewrite Z.sub_0_r; reflexivity). }
  { lia. }
  { change (m_sequenceNumber s0) with (m_sequenceNumber st). unfold LLONG_MIN. lia. }
  { exact Hmax. }
  { change (m_frameRate s0) with (m_frameRate st).
    change (m_finalSequenceNumber s0) with (m_finalSequenceNumber st).
    change (m_sequenceNumber s0) with (m_sequenceNumber st).
    rewrite Z.sub_0_r, Z.add_0_l. exact Hint. }
  rewrite Hr. cbv beta iota delta [bind].
  change (m_frameRate s0) with (m_frameRate st) in Hs1.
  change (m_finalSequenceNumber s0) with (m_finalSequenceNumber st) in Hs1.
  change (m_sequenceNumber s0) with (m_sequenceNumber st) in Hs1.
  rewrite Z.sub_0_r in Hs1.
  destruct (rest_fields _ _ Hrest) as (Hfr & Htick & Hfin & Hrun1 & Htim).
  change (m_frameRate s0) with (m_frameRate st) in Hfr.
  change (m_finalSequenceNumber s0) with (m_finalSequenceNumber st) in Hfin.
  change (m_running s0) with (m_running st) in Hrun1.
  change (m_threadpoolTimer s0) with (@None FILETIME) in Htim.
  change (signals s0) with (signals st) in Hsig.
  destruct (Z.ltb_spec (m_sequenceNumber s1) (m_finalSequenceNumber s1)) as [Hlt | Hge].
  - exists (ThreadpoolTimer_Schedule (m_tickInterval s1) s1).
    split; [reflexivity |].
    split; [exact Hfr |]. split; [exact Hfin |]. left.
    split; [lia |].
    split; [change (m_sequenceNumber s1 = m_sequenceNumber st + m_frameRate st); lia |].
    split.
    + split; [change (m_running s1 = true); congruence | reflexivity].
    + rewrite <- Hsig. unfold ThreadpoolTimer_Schedule, emit.
      transitivity (signals (set_threadpoolTimer (Some (m_tickInterval s1)) s1) + 0)%nat;
        [apply (signals_app (set_threadpoolTimer (Some (m_tickInterval s1)) s1))
        | apply Nat.add_0_r].
  - destruct (Z.gtb_spec (m_sequenceNumber s1) (m_finalSequenceNumber s1)); [lia |].
    exists (Stop s1). split; [reflexivity |].
    split; [exact Hfr |]. split; [exact Hfin |]. right.
    split; [lia |].
    split; [change (m_sequenceNumber s1 = m_finalSequenceNumber st); lia |].
    split.
    + split; [reflexivity |]. split; [reflexivity |].
      exists (effects s1
              ++ [TimerStop; RevokeNetworkStatusChanged; Sleep 1000; SocketCancel Primary;
                  SocketCancel Secondary]).
      rewrite (Stop_members s1), <- app_assoc. reflexivity.
    + rewrite <- Hsig. apply signals_Stop.
Qed.

(** While datagrams are left after [j] bursts, [j] callbacks leave the
    run scheduled. *)
Lemma timer_fires_n_scheduled (j : nat) :
  forall st : StreamClient,
    scheduled st ->
    1 <= m_frameRate st ->
    0 <= m_sequenceNumber st <= m_finalSequenceNumber st ->
    m_finalSequenceNumber st <= LLONG_MAX ->
    Z.min (m_frameRate st) (m_finalSequenceNumber st - m_sequenceNumber st) <= INT_MAX ->
    j = O \/ m_sequenceNumber st + Z.of_nat j * m_frameRate st < m_finalSequenceNumber st ->
    exists st',
      timer_fires_n j st = Returned st'
      /\ scheduled st'
      /\ m_frameRate st' = m_frameRate st
      /\ m_finalSequenceNumber st' = m_finalSequenceNumber st
      /\ m_sequenceNumber st' = m_sequenceNumber st + Z.of_nat j * m_frameRate st
      /\ signals st' = signals st.
Proof.
  induction j as [| j IH]; intros st Hsch Hf Hseq Hmax Hint Hleft.
  - exists st. split; [reflexivity |]. split; [exact Hsch |].
    split; [reflexivity |]. split; [reflexivity |]. split; [| reflexivity].
    change (Z.of_nat 0) with 0. lia.
  - destruct Hleft as [Hz | Hleft]; [discriminate |].
    cbn [timer_fires_n].
    rewrite Nat2Z.inj_succ in Hleft.
    destruct (timer_fires_step st Hsch Hf Hseq Hmax Hint)
      as (s1 & -> & Hfr & Hfin & [(Hlt & Hs1 & Hsch1 & Hsig1) | (Hge & _)]); [| lia].
    cbn [bind].
    destruct (IH s1) as (st' & Hr & Hsch' & Hfr' & Hfin' & Hs' & Hsig').
    { exact Hsch1. }
    { lia. }
    { lia. }
    { lia. }
    { rewrite Hfr, Hfin, Hs1. lia. }
    { right. rewrite Hfr, Hfin, Hs1. lia. }
    exists st'. split; [exact Hr |]. split; [exact Hsch' |].
    split; [congruence |]. split; [congruence |].
    split; [rewrite Hs', Hs1, Hfr, Nat2Z.inj_succ; lia | congruence].
Qed.

(** The callback after them, the first that finds no datagram left, stops
    the run. *)
Lemma timer_fires_n_terminal (j : nat) :
  forall st : StreamClient,
    scheduled st ->
    1 <= m_frameRate st ->
    0 <= m_sequenceNumber st <= m_finalSequenceNumber st ->
    m_finalSequenceNumber st <= LLONG_MAX ->
    Z.min (m_frameRate st) (m_finalSequenceNumber st - m_sequenceNumber st) <= INT_MAX ->
    j = O \/ m_sequenceNumber st + Z.of_nat j * m_frameRate st < m_finalSequenceNumber st ->
    m_finalSequenceNumber st <= m_sequenceNumber st + Z.of_nat (S j) * m_frameRate st ->
    exists st',
      timer_fires_n (S j) st = Returned st'
      /\ terminal st'
      /\ m_sequenceNumber st' = m_finalSequenceNumber st
      /\ signals st' = S (signals st).
Proof.
  induction j as [| j IH]; intros st Hsch Hf Hseq Hmax Hint Hleft Hlast.
  - cbn [timer_fires_n].
    change (Z.of_nat 1) with 1 in Hlast.
    destruct (timer_fires_step st Hsch Hf Hseq Hmax Hint)
      as (s1 & -> & Hfr & Hfin & [(Hlt & _) | (Hge & Hs1 & Hterm & Hsig1)]); [lia |].
    cbn [bind]. exists s1.
    split; [reflexivity |]. split; [exact Hterm |]. split; [exact Hs1 | exact Hsig1].
  - destruct Hleft as [Hz | Hleft]; [discriminate |].
    cbn [timer_fires_n].
    rewrite Nat2Z.inj_succ in Hleft. rewrite !Nat2Z.inj_succ in Hlast.
    destruct (timer_fires_step st Hsch Hf Hseq Hmax Hint)
      as (s1 & -> & Hfr & Hfin & [(Hlt & Hs1 & Hsch1 & Hsig1) | (Hge & _)]); [| lia].
    cbn [bind].
    destruct (IH s1) as (st' & Hr & Hterm & Hs' & Hsig').
    { exact Hsch1. }
    { lia. }
    { lia. }
    { lia. }
    { rewrite Hfr, Hfin, Hs1. lia. }
    { destruct j; [left; reflexivity | right].
      rewrite Hfr, Hfin, Hs1. lia. }
    { rewrite Hfr, Hfin, Hs1, Nat2Z.inj_succ. lia. }
    exists st'. split; [exact Hr |]. split; [exact Hterm |].
    split; congruence.
Qed.

End Scheduler.

Lemma ceil_div_bounds (N f : Z) :
  1 <= N -> 1 <= f ->
  (ceil_div N f - 1) * f < N <= ceil_div N f * f /\ 1 <= ceil_div N f.
Proof.
  intros HN Hf. unfold ceil_div.
  pose proof (Z.div_mod (N + f - 1) f ltac:(lia)) as Hdm.
  pose proof (Z.mod_pos_bound (N + f - 1) f ltac:(lia)) as Hmod.
  assert (1 <= (N + f - 1) / f) by (apply Z.div_le_lower_bound; lia).
  nia.
Qed.

(** C7, as the code has it: from a counter at 0, with a final sequence
    number N >= 0 and m_frameRate = f >= 1 (and min (f, N) within an
    [int]), a run whose flag stays set is still scheduled after any
    j < max (1, ceil (N / f)) callbacks, with the counter at j * f, and the
    callback number max (1, ceil (N / f)) stops it: the timer is not
    re-armed, [Stop] signals the completion event once, and the counter is
    N.  A call of [SendDatagrams] adds exactly one to the counter, whether
    it sends on one path or on both. *)
Theorem scheduler_stops_after_the_last_burst `{Collaborators}
  (st : StreamClient) (N f : Z) :
  m_finalSequenceNumber st = N ->
  m_frameRate st = f ->
  m_sequenceNumber st = 0 ->
  scheduled st ->
  0 <= N <= LLONG_MAX ->
  1 <= f ->
  Z.min f N <= INT_MAX ->
  (forall j : nat,
     Z.of_nat j < Z.max 1 (ceil_div N f) ->
     exists st_j,
       timer_fires_n j st = Returned st_j
       /\ scheduled st_j
       /\ m_sequenceNumber st_j = Z.of_nat j * f
       /\ signals st_j = signals st)
  /\ (exists st',
        timer_fires_n (Z.to_nat (Z.max 1 (ceil_div N f))) st = Returned st'
        /\ terminal st'
        /\ m_sequenceNumber st' = N
        /\ signals st' = S (signals st))
  /\ (forall s : StreamClient,
        LLONG_MIN <= m_sequenceNumber s < LLONG_MAX ->
        exists s',
          SendDatagrams s = Returned s'
          /\ m_sequenceNumber s' = m_sequenceNumber s + 1
          /\ effects s' = effects s ++ sends s).
Proof.
  intros HN Hf Hseq Hsch HNr Hf1 Hint.
  assert (Hceil : N = 0 /\ ceil_div N f = 0
                  \/ (1 <= N /\ (ceil_div N f - 1) * f < N <= ceil_div N f * f
                      /\ 1 <= ceil_div N f)).
  { destruct (Z.eq_dec N 0) as [-> | Hpos].
    - left. split; [reflexivity |]. unfold ceil_div. apply Z.div_small. lia.
    - right. split; [lia |]. apply ceil_div_bounds; lia. }
  assert (Hseq' : 0 <= m_sequenceNumber st <= m_finalSequenceNumber st)
    by (rewrite Hseq, HN; lia).
  assert (Hf1' : 1 <= m_frameRate st) by (rewrite Hf; exact Hf1).
  assert (Hmax' : m_finalSequenceNumber st <= LLONG_MAX) by (rewrite HN; lia).
  assert (Hint' : Z.min (m_frameRate st) (m_finalSequenceNumber st - m_sequenceNumber st)
                  <= INT_MAX)
    by (rewrite Hf, HN, Hseq, Z.sub_0_r; exact Hint).
  split; [| split].
  - intros j Hj.
    destruct (timer_fires_n_scheduled j st Hsch Hf1' Hseq' Hmax' Hint')
      as (st' & Hr & Hsch' & _ & _ & Hs' & Hsig').
    { rewrite HN, Hf, Hseq.
      destruct Hceil as [(-> & Hc) | (HN1 & Hb & Hc)].
      - left. rewrite Hc in Hj. lia.
      - right. nia. }
    exists st'. split; [exact Hr |]. split; [exact Hsch' |].
    split; [rewrite Hs', Hseq, Hf; lia | exact Hsig'].
  - assert (HK : exists k : nat,
               Z.to_nat (Z.max 1 (ceil_div N f)) = S k
               /\ (k = O \/ Z.of_nat k * f < N)
               /\ N <= Z.of_nat (S k) * f).
    { destruct Hceil as [(-> & Hc) | (HN1 & Hb & Hc)].
      - exists O. rewrite Hc. split; [reflexivity |]. split; [left; reflexivity | lia].
      - exists (Z.to_nat (ceil_div N f - 1)).
        split; [lia |]. split; [right |]; nia. }
    destruct HK as (k & -> & Hleft & Hlast).
    destruct (timer_fires_n_terminal k st Hsch Hf1' Hseq' Hmax' Hint')
      as (st' & Hr & Hterm & Hs' & Hsig').
    { rewrite HN, Hf, Hseq.
      destruct Hleft as [-> | Hleft]; [left; reflexivity | right; lia]. }
    { rewrite HN, Hf, Hseq. lia. }
    exists st'. split; [exact Hr |]. split; [exact Hterm |].
    split; [congruence | exact Hsig'].
  - intros s Hs. eexists. split; [apply SendDatagrams_result; exact Hs |].
    split; reflexivity.
Qed.

(** ** The final sequence number over the life of a client *)

Section FinalSequenceNumber.

Context `{Collaborators}.

Lemma SendDatagrams_final (st st' : StreamClient) :
  SendDatagrams st = Returned st' ->
  m_finalSequenceNumber st' = m_finalSequenceNumber st.
Proof.
  unfold SendDatagrams.
  destruct (AdapterStatus_eqb _ Ready); cbn;
    match goal with |- context [add_i64 ?a ?b] => destruct (add_i64 a b) end;
    cbn; intros [= <-]; reflexivity.
Qed.

Lemma TimerCallback_for_final (remaining : nat) :
  forall (i : Z) (st st' : StreamClient),
    TimerCallback_for remaining i st = Returned st' ->
    m_finalSequenceNumber st' = m_finalSequenceNumber st.
Proof.
  induction remaining as [| remaining IH]; intros i st st'; cbn [TimerCallback_for].
  - intros [= <-]. reflexivity.
  - destruct (_ && _); [| intros [= <-]; reflexivity].
    destruct (SendDatagrams st) as [s | e s | |] eqn:Es; cbn [bind]; try discriminate.
    destruct (incr_int i) as [i' |]; cbn [defined]; [| discriminate].
    intros Hr. rewrite (IH _ _ _ Hr). apply SendDatagrams_final. exact Es.
Qed.

Lemma TimerCallback_final (st st' : StreamClient) :
  TimerCallback st = Returned st' ->
  m_finalSequenceNumber st' = m_finalSequenceNumber st.
Proof.
  unfold TimerCallback.
  destruct (negb (m_running st)); [intros [= <-]; reflexivity |].
  destruct (TimerCallback_for _ 0 st) as [s | e s | |] eqn:El; cbn [bind];
    try discriminate.
  pose proof (TimerCallback_for_final _ _ _ _ El) as Hf.
  destruct (_ <? _); [intros [= <-]; exact Hf |].
  destruct (_ >? _); [discriminate |].
  intros [= <-]. exact Hf.
Qed.

Lemma timer_fires_final (st st' : StreamClient) :
  timer_fires st = Returned st' ->
  m_finalSequenceNumber st' = m_finalSequenceNumber st.
Proof.
  unfold timer_fires. destruct (m_threadpoolTimer st).
  - intros Hr. apply TimerCallback_final in Hr. exact Hr.
  - intros [= <-]. reflexivity.
Qed.

Lemma SendCompletion_final (i : Interface) (s : SendResult.t) (st st' : StreamClient) :
  SendCompletion i s st = Returned st' ->
  m_finalSequenceNumber st' = m_finalSequenceNumber st.
Proof.
  unfold SendCompletion. destruct (_ >? _); [discriminate |].
  destruct (latencyData_at _ st); cbn [defined]; [| discriminate].
  intros [= <-]. reflexivity.
Qed.

Lemma ReceiveCompletion_final (i : Interface) (r : ReceiveResult.t)
  (st st' : StreamClient) :
  ReceiveCompletion i r st = Returned st' ->
  m_finalSequenceNumber st' = m_finalSequenceNumber st.
Proof.
  unfold ReceiveCompletion. destruct (_ || _).
  - destruct i;
      match goal with |- context [add_i64 ?a ?b] => destruct (add_i64 a b) end;
      cbn [defined]; try discriminate; intros [= <-]; reflexivity.
  - destruct (latencyData_at _ st); cbn [defined]; [| discriminate].
    intros [= <-]. reflexivity.
Qed.

(** Only [Start] moves the final sequence number, by the count it plans. *)
Lemma step_final (e : Event) (st st' : StreamClient) :
  step e st = Returned st' ->
  m_finalSequenceNumber st'
  = m_finalSequenceNumber st + planned_total [e].
Proof.
  destruct e as [| w b f d | | | n | i s | i r]; cbn [step planned_total];
    rewrite ?Z.add_0_r.
  - intros [= <-]. unfold RequestSecondaryWlanConnection.
    destruct (negb _); reflexivity.
  - intros Hr.
    assert (Hs : state_of (Start w b f d st) = Some st') by (rewrite Hr; reflexivity).
    destruct (Start_state _ _ _ _ _ _ Hs) as (t & D & _ & HD & Hfin & _).
    unfold planned. rewrite HD. exact Hfin.
  - intros [= <-]. reflexivity.
  - apply timer_fires_final.
  - intros Hr.
    assert (Hp : plan st' = plan st)
      by (apply (keeps_plan_NetworkStatusChanged n); rewrite Hr; reflexivity).
    unfold plan in Hp. congruence.
  - apply SendCompletion_final.
  - apply ReceiveCompletion_final.
Qed.

Lemma run_final (es : list Event) :
  forall st st' : StreamClient,
    run es st = Returned st' ->
    m_finalSequenceNumber st' = m_finalSequenceNumber st + planned_total es.
Proof.
  induction es as [| e es IH]; intros st st'; cbn [run].
  - intros [= <-]. cbn. lia.
  - destruct (step e st) as [s | x s | |] eqn:Es; cbn [bind]; try discriminate.
    intros Hr. rewrite (IH _ _ Hr), (step_final _ _ _ Es).
    destruct e; cbn [planned_total]; lia.
Qed.

(** C10: the constructor leaves the final sequence number at -1 and a
    call of [Start] adds the count it plans, duration * (bitRate / 8) /
    datagramSize, to the value it finds; the aggregator is resized to the
    sum.  After the first [Start] with count D the final sequence number is
    D - 1 and the aggregator holds D - 1 records; after any history of
    calls it is the sum of the counts of all calls of [Start], less 1. *)
Theorem final_sequence_number_accumulates (w : World)
  (sendBitRate sendFrameRate duration : Z) (st : StreamClient) :
  is_ulong sendBitRate -> 8 <= sendBitRate -> is_ulong duration ->
  0 < c_bufferSize < two64 ->
  0 <= m_finalSequenceNumber st + planned sendBitRate duration <= LLONG_MAX ->
  m_finalSequenceNumber st + planned sendBitRate duration <= latencyData_max_size ->
  m_wlanHandle st = false \/ secondary_benign (network w) ->
  m_finalSequenceNumber StreamClient_new = -1
  /\ planned sendBitRate duration = duration * (sendBitRate / 8) / c_bufferSize
  /\ (exists st',
        state_of (Start w sendBitRate sendFrameRate duration st) = Some st'
        /\ m_finalSequenceNumber st'
           = m_finalSequenceNumber st + planned sendBitRate duration
        /\ Z.of_nat (length (m_latencyData st'))
           = m_finalSequenceNumber st + planned sendBitRate duration
        /\ (st = StreamClient_new ->
            m_finalSequenceNumber st' = planned sendBitRate duration - 1
            /\ Z.of_nat (length (m_latencyData st')) = planned sendBitRate duration - 1)
        /\ (primary_returns w ->
            Start w sendBitRate sendFrameRate duration st = Returned st'))
  /\ (forall (es : list Event) (st_k : StreamClient),
        run es StreamClient_new = Returned st_k ->
        m_finalSequenceNumber st_k = planned_total es - 1).
Proof.
  intros Hb Hb8 Hd Hsize Hfin Hfit Hsec.
  assert (HD : CalculateNumberOfDatagramToSend duration sendBitRate (to_u64 c_bufferSize)
               = Some (duration * (sendBitRate / 8) / c_bufferSize)).
  { rewrite to_u64_small by lia.
    apply CalculateNumberOfDatagramToSend_exact; [exact Hd | exact Hb | lia]. }
  assert (Hplanned : planned sendBitRate duration
                     = duration * (sendBitRate / 8) / c_bufferSize)
    by (unfold planned; rewrite HD; reflexivity).
  destruct (CalculateTickInterval_defined sendBitRate sendFrameRate (to_u64 c_bufferSize))
    as (t & Ht).
  { unfold is_ulong, ULONG_MAX, LLONG_MAX in *. lia. }
  split; [reflexivity |]. split; [exact Hplanned |]. split.
  - rewrite Hplanned in Hfin, Hfit.
    destruct (Start_survives w sendBitRate sendFrameRate duration st t _ Ht HD Hfin Hfit Hsec)
      as (st' & Hs & Hret).
    destruct (Start_state _ _ _ _ _ _ Hs)
      as (t' & D & _ & HD' & Hfinal & _ & _ & _ & _ & Hdata).
    rewrite HD in HD'. injection HD' as <-.
    assert (Hlen : Z.of_nat (length (m_latencyData st'))
                   = m_finalSequenceNumber st + duration * (sendBitRate / 8) / c_bufferSize).
    { rewrite <- Hfinal.
      assert (Hu : to_u64 (m_finalSequenceNumber st') = m_finalSequenceNumber st')
        by (apply to_u64_small; unfold two64, LLONG_MAX in *; lia).
      destruct Hdata as [(_ & Hdata) | (Hbig & _)].
      - rewrite Hdata, length_resize, Hu. lia.
      - rewrite Hu in Hbig. lia. }
    exists st'. rewrite Hplanned.
    split; [exact Hs |]. split; [exact Hfinal |]. split; [exact Hlen |]. split.
    + intros ->. cbn in Hfinal, Hlen. split; lia.
    + intros Hp. apply Hret. exact Hp.
  - intros es st_k Hr. rewrite (run_final _ _ _ Hr). cbn. lia.
Qed.

End FinalSequenceNumber.

(** * The statements at concrete inputs *)

(** C1: in the end-to-end scenario [Start] returns with a final sequence
    number of 2440 and an aggregator of 2440 records, not 2441. *)
Lemma Start_scenario_final_is_2440 :
  @Start reference_collaborators quiet_world 2000000 50 10 StreamClient_new
  = Returned scenario_client
  /\ m_finalSequenceNumber scenario_client = 2440
  /\ length (m_latencyData scenario_client) = 2440%nat
  /\ m_finalSequenceNumber scenario_client <> 10 * 250000 / 1024.
Proof.
  split; [vm_compute; reflexivity |].
  split; [vm_compute; reflexivity |].
  split; [vm_compute; reflexivity |].
  vm_compute. discriminate.
Qed.

Lemma Start_scenario_final_sequence_number_witness :
  @c_bufferSize reference_collaborators = 1024
  /\ 2440 <= @latencyData_max_size reference_collaborators
  /\ exists st',
       state_of (@Start reference_collaborators quiet_world 2000000 50 10 StreamClient_new)
       = Some st'
       /\ m_finalSequenceNumber st' = 2440.
Proof.
  assert (H1 : @c_bufferSize reference_collaborators = 1024) by reflexivity.
  assert (H2 : 2440 <= @latencyData_max_size reference_collaborators)
    by (vm_compute; discriminate).
  split; [exact H1 |]. split; [exact H2 |].
  destruct (@Start_scenario_final_sequence_number reference_collaborators quiet_world H1 H2)
    as (_ & st' & Hs & Hfin & _).
  exists st'. split; [exact Hs | exact Hfin].
Defined.

(** C3: after a send completion stored 7 as the primary send timestamp of
    record 0 and a frame brought the echo timestamp 5, a second frame for
    sequence number 0 with send timestamp 1 and echo timestamp 0 replaces
    both. *)
Lemma receive_completion_replaces_send_and_echo :
  option_map m_latencyData
    (state_of (@run reference_collaborators
                 [SendCompletes Primary (SendResult.mk 0 7);
                  ReceiveCompletes Primary (ReceiveResult.mk 0 7 5 9)] small_client))
  = Some [mkLatencyData 7 5 9 0 0 0; mkLatencyData 0 0 0 0 0 0]
  /\ option_map m_latencyData
       (state_of (@run reference_collaborators
                    [SendCompletes Primary (SendResult.mk 0 7);
                     ReceiveCompletes Primary (ReceiveResult.mk 0 7 5 9);
                     ReceiveCompletes Primary (ReceiveResult.mk 0 1 0 12)] small_client))
     = Some [mkLatencyData 1 0 12 0 0 0; mkLatencyData 0 0 0 0 0 0].
Proof. split; vm_compute; reflexivity. Qed.

Lemma receive_completion_overwrites_path_timestamps_witness :
  0 <= 0 < m_finalSequenceNumber small_client
  /\ m_finalSequenceNumber small_client <= LLONG_MAX
  /\ aggregator_sized small_client
  /\ exists stat,
       m_latencyData small_client !! Z.to_nat 0 = Some stat
       /\ ReceiveCompletion Primary (ReceiveResult.mk 0 1 0 12) small_client
          = Returned
              (set_latencyData
                 (<[Z.to_nat 0 := received Primary (ReceiveResult.mk 0 1 0 12) stat]>
                    (m_latencyData small_client)) small_client).
Proof.
  assert (H1 : 0 <= 0 < m_finalSequenceNumber small_client) by (vm_compute; split; congruence).
  assert (H2 : m_finalSequenceNumber small_client <= LLONG_MAX)
    by (vm_compute; discriminate).
  assert (H3 : aggregator_sized small_client) by (vm_compute; reflexivity).
  split; [exact H1 |]. split; [exact H2 |]. split; [exact H3 |].
  destruct (receive_completion_overwrites_path_timestamps Primary
              (ReceiveResult.mk 0 1 0 12) small_client H1 H2 H3) as (stat & Hlk & Hr & _).
  exists stat. split; [exact Hlk | exact Hr].
Defined.

Lemma out_of_range_frame_is_counted_corrupt_witness :
  (ReceiveResult.m_sequenceNumber (ReceiveResult.mk (-1) 1 2 3) < 0
   \/ m_finalSequenceNumber small_client
      <= ReceiveResult.m_sequenceNumber (ReceiveResult.mk (-1) 1 2 3))
  /\ LLONG_MIN <= corrupt_counter Secondary small_client < LLONG_MAX
  /\ ReceiveCompletion Secondary (ReceiveResult.mk (-1) 1 2 3) small_client
     = Returned (set_corrupt_counter Secondary
                   (corrupt_counter Secondary small_client + 1) small_client).
Proof.
  assert (H1 : ReceiveResult.m_sequenceNumber (ReceiveResult.mk (-1) 1 2 3) < 0
               \/ m_finalSequenceNumber small_client
                  <= ReceiveResult.m_sequenceNumber (ReceiveResult.mk (-1) 1 2 3))
    by (left; reflexivity).
  assert (H2 : LLONG_MIN <= corrupt_counter Secondary small_client < LLONG_MAX)
    by (vm_compute; split; congruence).
  split; [exact H1 |]. split; [exact H2 |].
  exact (proj1 (out_of_range_frame_is_counted_corrupt Secondary
                  (ReceiveResult.mk (-1) 1 2 3) small_client H1 H2)).
Defined.

Lemma short_frame_is_counted_corrupt_witness :
  23 < 24
  /\ LLONG_MIN <= m_corruptFrames (socket Primary small_client) < LLONG_MAX
  /\ MeasuredSocket_ReceiveCompletion Primary 23 (DatagramHeader.mk 0 1 2) 3 small_client
     = Returned
         (set_socket Primary
            (set_corruptFrames (m_corruptFrames (socket Primary small_client) + 1)
               (socket Primary small_client)) small_client).
Proof.
  assert (H1 : 23 < 24) by reflexivity.
  assert (H2 : LLONG_MIN <= m_corruptFrames (socket Primary small_client) < LLONG_MAX)
    by (vm_compute; split; congruence).
  split; [exact H1 |]. split; [exact H2 |].
  exact (proj1 (proj2 (proj2 (short_frame_is_counted_corrupt Primary 23
                                (DatagramHeader.mk 0 1 2) 3 small_client H1 H2)))).
Defined.

(** C6: two calls of [Stop] in a row signal the completion event twice. *)
Lemma second_Stop_signals_again :
  signals (@Stop reference_collaborators small_client) = 1%nat
  /\ signals (@Stop reference_collaborators (@Stop reference_collaborators small_client))
     = 2%nat
  /\ effects (@Stop reference_collaborators (@Stop reference_collaborators small_client))
     <> effects (@Stop reference_collaborators small_client).
Proof.
  split; [vm_compute; reflexivity |]. split; [vm_compute; reflexivity |].
  vm_compute. discriminate.
Qed.

Lemma second_Stop_repeats_its_calls_witness :
  (forall s : MeasuredSocket,
     @Cancel reference_collaborators (@Cancel reference_collaborators s)
     = @Cancel reference_collaborators s)
  /\ signals (@Stop reference_collaborators (@Stop reference_collaborators small_client))
     = S (signals (@Stop reference_collaborators small_client)).
Proof.
  assert (H1 : forall s : MeasuredSocket,
             @Cancel reference_collaborators (@Cancel reference_collaborators s)
             = @Cancel reference_collaborators s) by (intros s; reflexivity).
  split; [exact H1 |].
  exact (proj1 (proj2 (@second_Stop_repeats_its_calls reference_collaborators
                         small_client H1))).
Defined.

(** C7: with a plan of one datagram the final sequence number is 0 and
    ceil (0 / 50) = 0, yet the run is still scheduled before the first
    callback; it is that callback that stops it. *)
Lemma empty_plan_needs_one_callback :
  m_finalSequenceNumber empty_plan_client = 0
  /\ m_frameRate empty_plan_client = 50
  /\ m_sequenceNumber empty_plan_client = 0
  /\ ceil_div 0 50 = 0
  /\ @timer_fires_n reference_collaborators (Z.to_nat (ceil_div 0 50)) empty_plan_client
     = Returned empty_plan_client
  /\ m_running empty_plan_client = true
  /\ m_threadpoolTimer empty_plan_client <> None
  /\ signals empty_plan_client = 0%nat
  /\ option_map (fun st => (m_running st, m_threadpoolTimer st, signals st))
       (state_of (@timer_fires_n reference_collaborators 1 empty_plan_client))
     = Some (false, None, 1%nat).
Proof.
  repeat split; try (vm_compute; reflexivity).
  vm_compute. discriminate.
Qed.

Lemma scheduler_stops_after_the_last_burst_witness :
  m_finalSequenceNumber scenario_client = 2440
  /\ m_frameRate scenario_client = 50
  /\ m_sequenceNumber scenario_client = 0
  /\ scheduled scenario_client
  /\ 0 <= 2440 <= LLONG_MAX
  /\ 1 <= 50
  /\ Z.min 50 2440 <= INT_MAX
  /\ exists st',
       @timer_fires_n reference_collaborators 49 scenario_client = Returned st'
       /\ terminal st'
       /\ m_sequenceNumber st' = 2440
       /\ signals st' = S (signals scenario_client).
Proof.
  assert (H1 : m_finalSequenceNumber scenario_client = 2440) by (vm_compute; reflexivity).
  assert (H2 : m_frameRate scenario_client = 50) by (vm_compute; reflexivity).
  assert (H3 : m_sequenceNumber scenario_client = 0) by (vm_compute; reflexivity).
  assert (H4 : scheduled scenario_client) by (vm_compute; split; reflexivity).
  assert (H5 : 0 <= 2440 <= LLONG_MAX) by (vm_compute; split; congruence).
  assert (H6 : 1 <= 50) by (vm_compute; congruence).
  assert (H7 : Z.min 50 2440 <= INT_MAX) by (vm_compute; congruence).
  repeat (split; [assumption |]).
  exact (proj1 (proj2 (@scheduler_stops_after_the_last_burst reference_collaborators
                         scenario_client 2440 50 H1 H2 H3 H4 H5 H6 H7))).
Defined.

(** C8: for 8 bits/s, 2^31 frames per tick and 1024 bytes the product
    wraps around 2^64 and the tick interval is not the quotient of the
    formula; for 7 bits/s the byte rate is 0 and the division has no
    result. *)
Lemma tick_interval_wraps_around :
  0 < 8 /\ 0 < 2147483648 <= ULONG_MAX /\ 0 < 1024
  /\ CalculateTickInterval 8 2147483648 1024 = Some 3543488481810448384
  /\ 1024 * 2147483648 * 10000000 / (8 / 8) = 21990232555520000000
  /\ CalculateTickInterval 8 2147483648 1024
     <> Some (1024 * 2147483648 * 10000000 / (8 / 8))
  /\ CalculateTickInterval 7 50 1024 = None.
Proof.
  repeat split; try (vm_compute; reflexivity); try (vm_compute; discriminate).
Qed.

Lemma tick_interval_formula_witness :
  8 <= 2000000 <= LLONG_MAX
  /\ 0 <= 50 /\ 0 <= 1024
  /\ 1024 * 50 * 10000000 < two64
  /\ 1024 * 50 * 10000000 / (2000000 / 8) <= LLONG_MAX
  /\ CalculateTickInterval 2000000 50 1024
     = Some (1024 * 50 * 10000000 / (2000000 / 8)).
Proof.
  assert (H1 : 8 <= 2000000 <= LLONG_MAX) by (vm_compute; split; congruence).
  assert (H2 : 0 <= 50) by (vm_compute; congruence).
  assert (H3 : 0 <= 1024) by (vm_compute; congruence).
  assert (H4 : 1024 * 50 * 10000000 < two64) by (vm_compute; reflexivity).
  assert (H5 : 1024 * 50 * 10000000 / (2000000 / 8) <= LLONG_MAX)
    by (vm_compute; congruence).
  repeat (split; [assumption |]).
  exact (proj1 (@tick_interval_formula reference_collaborators 2000000 50 1024
                  H1 H2 H3 H4 H5)).
Defined.

Lemma secondary_setup_outcomes_witness :
  m_adapterStatus
    (m_secondaryState
       (@refreshInterfaces reference_collaborators unreachable_network StreamClient_new))
  = Connecting
  /\ IsAdapterConnected unreachable_network
       (secondaryInterfaceGuid
          (@refreshInterfaces reference_collaborators unreachable_network StreamClient_new))
     = true
  /\ exists st' before,
       @updateSecondaryInterfaceStatus reference_collaborators unreachable_network
         StreamClient_new = Returned st'
       /\ effects st' = before ++ [SocketCancel Secondary]
       /\ m_adapterStatus (m_secondaryState st') = Connecting.
Proof.
  assert (H1 : m_adapterStatus
                 (m_secondaryState
                    (@refreshInterfaces reference_collaborators unreachable_network
                       StreamClient_new)) = Connecting) by reflexivity.
  assert (H2 : IsAdapterConnected unreachable_network
                 (secondaryInterfaceGuid
                    (@refreshInterfaces reference_collaborators unreachable_network
                       StreamClient_new)) = true) by reflexivity.
  split; [exact H1 |]. split; [exact H2 |].
  destruct (proj1 (proj2 (@secondary_setup_outcomes reference_collaborators
                            unreachable_network StreamClient_new H1 H2)))
    as (st' & before & Hr & Heff & _ & Hst & _).
  { left. reflexivity. }
  exists st', before. repeat split; assumption.
Defined.

Lemma final_sequence_number_accumulates_witness :
  is_ulong 2000000 /\ 8 <= 2000000 /\ is_ulong 10
  /\ 0 < @c_bufferSize reference_collaborators < two64
  /\ 0 <= m_finalSequenceNumber StreamClient_new
          + @planned reference_collaborators 2000000 10 <= LLONG_MAX
  /\ m_finalSequenceNumber StreamClient_new + @planned reference_collaborators 2000000 10
     <= @latencyData_max_size reference_collaborators
  /\ (m_wlanHandle StreamClient_new = false \/ secondary_benign (network quiet_world))
  /\ exists st',
       state_of (@Start reference_collaborators quiet_world 2000000 50 10 StreamClient_new)
       = Some st'
       /\ m_finalSequenceNumber st'
          = m_finalSequenceNumber StreamClient_new
            + @planned reference_collaborators 2000000 10
       /\ Z.of_nat (length (m_latencyData st'))
          = m_finalSequenceNumber StreamClient_new
            + @planned reference_collaborators 2000000 10.
Proof.
  assert (H1 : is_ulong 2000000) by (vm_compute; split; congruence).
  assert (H2 : 8 <= 2000000) by (vm_compute; congruence).
  assert (H3 : is_ulong 10) by (vm_compute; split; congruence).
  assert (H4 : 0 < @c_bufferSize reference_collaborators < two64)
    by (vm_compute; split; reflexivity).
  assert (H5 : 0 <= m_finalSequenceNumber StreamClient_new
                    + @planned reference_collaborators 2000000 10 <= LLONG_MAX)
    by (vm_compute; split; congruence).
  assert (H6 : m_finalSequenceNumber StreamClient_new
               + @planned reference_collaborators 2000000 10
               <= @latencyData_max_size reference_collaborators)
    by (vm_compute; congruence).
  assert (H7 : m_wlanHandle StreamClient_new = false
               \/ secondary_benign (network quiet_world)) by (left; reflexivity).
  repeat (split; [assumption |]).
  destruct (proj1 (proj2 (proj2 (@final_sequence_number_accumulates reference_collaborators
                                   quiet_world 2000000 50 10 StreamClient_new
                                   H1 H2 H3 H4 H5 H6 H7))))
    as (st' & Hs & Hfin & Hlen & _).
  exists st'. repeat split; assumption.
Defined.

(** * Further properties of the code *)

(** ** The datagram on the wire *)

Lemma length_le_bytes (n : nat) : forall x : Z, length (le_bytes n x) = n.
Proof.
  induction n as [| n IH]; intros x; cbn [le_bytes length]; [reflexivity |].
  rewrite IH. reflexivity.
Qed.

Lemma le_value_le_bytes (n : nat) :
  forall x : Z, 0 <= x < 256 ^ Z.of_nat n -> le_value (le_bytes n x) = x.
Proof.
  induction n as [| n IH]; intros x Hx; cbn [le_bytes le_value].
  - change (256 ^ Z.of_nat 0) with 1 in Hx. lia.
  - rewrite Nat2Z.inj_succ, Z.pow_succ_r in Hx by lia.
    rewrite IH.
    + pose proof (Z.div_mod x 256 ltac:(lia)). lia.
    + split; [apply Z.div_pos; lia | apply Z.div_lt_upper_bound; lia].
Qed.

Lemma length_bytes_of_i64 (x : Z) : length (bytes_of_i64 x) = 8%nat.
Proof. apply length_le_bytes. Qed.

Lemma to_i64_to_u64 (x : Z) : LLONG_MIN <= x <= LLONG_MAX -> to_i64 (to_u64 x) = x.
Proof.
  unfold to_i64, to_u64, LLONG_MIN, LLONG_MAX. intros Hx.
  rewrite Z.add_mod_idemp_l by (unfold two64; lia).
  rewrite Z.mod_small by (unfold two64; lia). lia.
Qed.

Lemma i64_of_bytes_of_i64 (x : Z) :
  LLONG_MIN <= x <= LLONG_MAX -> i64_of_bytes (bytes_of_i64 x) = x.
Proof.
  intros Hx. unfold i64_of_bytes, bytes_of_i64.
  rewrite le_value_le_bytes.
  - apply to_i64_to_u64. exact Hx.
  - pose proof (to_u64_range x) as Hr. change (256 ^ Z.of_nat 8) with two64. exact Hr.
Qed.

(** The datagram of a send buffer that can hold a header. *)
Lemma datagram_bytes (sequenceNumber qpc : Z) (sendBuffer : list Z) :
  24 <= Z.of_nat (length sendBuffer) < ULONG_modulus + 24 ->
  datagram sequenceNumber qpc sendBuffer
  = Some (bytes_of_i64 sequenceNumber
          ++ bytes_of_i64 qpc
          ++ bytes_of_i64 0
          ++ take (length sendBuffer - 24) sendBuffer ++ []).
Proof.
  intros Hsize. unfold datagram, GetBuffers, DatagramSendRequest_new.
  cbn [gather DatagramSendRequest.m_wsabufs DatagramSendRequest.m_sequenceNumber
         DatagramSendRequest.m_echoTimestamp].
  unfold WSABUF_bytes.
  cbn [buf len DatagramSendRequest.m_sequenceNumber DatagramSendRequest.m_sendTimestamp
         DatagramSendRequest.m_echoTimestamp].
  rewrite !length_bytes_of_i64.
  change (c_datagramSequenceNumberLength <=? Z.of_nat 8) with true.
  change (c_datagramTimestampLength <=? Z.of_nat 8) with true.
  change c_datagramHeaderLength with 24.
  assert (Hlen : to_u64 (Z.of_nat (length sendBuffer) - 24) mod ULONG_modulus
                 = Z.of_nat (length sendBuffer) - 24).
  { unfold ULONG_modulus in *.
    rewrite to_u64_small by (unfold two64; lia). apply Z.mod_small. lia. }
  rewrite Hlen.
  destruct (Z.leb_spec (Z.of_nat (length sendBuffer) - 24) (Z.of_nat (length sendBuffer)));
    [| lia].
  replace (Z.to_nat (Z.of_nat (length sendBuffer) - 24))
    with (length sendBuffer - 24)%nat by lia.
  change (Z.to_nat c_datagramSequenceNumberLength) with 8%nat.
  change (Z.to_nat c_datagramTimestampLength) with 8%nat.
  rewrite !take_ge by (rewrite length_bytes_of_i64; lia).
  reflexivity.
Qed.

(** X1: the datagram that [DatagramSendRequest] describes for a send
    buffer of at least 24 bytes (and a size that fits the [ULONG] length)
    has exactly the size of the send buffer and passes
    [ValidateBufferLength]; after the 24 bytes of the header it carries
    the first size - 24 bytes of the send buffer, so the last 24 bytes of
    the buffer are never sent. *)
Theorem datagram_has_the_size_of_the_send_buffer (sequenceNumber qpc : Z)
  (sendBuffer : list Z) :
  24 <= Z.of_nat (length sendBuffer) < ULONG_modulus + 24 ->
  exists wire,
    datagram sequenceNumber qpc sendBuffer = Some wire
    /\ length wire = length sendBuffer
    /\ ValidateBufferLength (Z.of_nat (length wire)) = true
    /\ drop 24 wire = take (length sendBuffer - 24) sendBuffer.
Proof.
  intros Hsize. eexists. split; [apply datagram_bytes; exact Hsize |].
  rewrite app_nil_r.
  assert (Hlen : length (bytes_of_i64 sequenceNumber ++ bytes_of_i64 qpc ++ bytes_of_i64 0
                         ++ take (length sendBuffer - 24) sendBuffer)
                 = length sendBuffer).
  { rewrite !length_app, !length_bytes_of_i64, length_take. lia. }
  split; [exact Hlen |]. split.
  - rewrite Hlen. unfold ValidateBufferLength. change c_datagramHeaderLength with 24.
    destruct (Z.ltb_spec (Z.of_nat (length sendBuffer)) 24); [lia | reflexivity].
  - rewrite !app_assoc. apply drop_app_length'.
    rewrite !length_app, !length_bytes_of_i64. reflexivity.
Qed.

(** X2: [ParseDatagramHeader] reads back from the datagram what the send
    request put there: the sequence number of the constructor, the
    timestamp that [GetBuffers] took, which is also what [GetQpc] answers,
    and an echo timestamp of 0. *)
Theorem ParseDatagramHeader_reads_the_request_back (sequenceNumber qpc : Z)
  (sendBuffer : list Z) :
  24 <= Z.of_nat (length sendBuffer) < ULONG_modulus + 24 ->
  LLONG_MIN <= sequenceNumber <= LLONG_MAX ->
  LLONG_MIN <= qpc <= LLONG_MAX ->
  exists wire,
    datagram sequenceNumber qpc sendBuffer = Some wire
    /\ ParseDatagramHeader wire
       = Some (DatagramHeader.mk sequenceNumber
                 (GetQpc (fst (GetBuffers qpc
                                 (DatagramSendRequest_new sequenceNumber sendBuffer))))
                 0).
Proof.
  intros Hsize Hseq Hqpc. eexists. split; [apply datagram_bytes; exact Hsize |].
  unfold ParseDatagramHeader. change c_datagramHeaderLength with 24.
  rewrite app_nil_r.
  assert (Hlen : length (bytes_of_i64 sequenceNumber ++ bytes_of_i64 qpc ++ bytes_of_i64 0
                         ++ take (length sendBuffer - 24) sendBuffer)
                 = length sendBuffer).
  { rewrite !length_app, !length_bytes_of_i64, length_take. lia. }
  rewrite Hlen.
  destruct (Z.leb_spec 24 (Z.of_nat (length sendBuffer))); [| lia].
  f_equal.
  rewrite (take_app_length' (bytes_of_i64 sequenceNumber))
    by (rewrite length_bytes_of_i64; reflexivity).
  rewrite (drop_app_length' (bytes_of_i64 sequenceNumber))
    by (rewrite length_bytes_of_i64; reflexivity).
  rewrite (take_app_length' (bytes_of_i64 qpc))
    by (rewrite length_bytes_of_i64; reflexivity).
  replace (drop 16 (bytes_of_i64 sequenceNumber ++ bytes_of_i64 qpc ++ bytes_of_i64 0
                    ++ take (length sendBuffer - 24) sendBuffer))
    with (bytes_of_i64 0 ++ take (length sendBuffer - 24) sendBuffer).
  2:{ rewrite (app_assoc (bytes_of_i64 sequenceNumber)). symmetry.
      apply drop_app_length'. rewrite length_app, !length_bytes_of_i64. reflexivity. }
  rewrite (take_app_length' (bytes_of_i64 0))
    by (rewrite length_bytes_of_i64; reflexivity).
  rewrite !i64_of_bytes_of_i64 by (unfold LLONG_MIN, LLONG_MAX in *; lia).
  reflexivity.
Qed.

(** X3: for a send buffer shorter than the 24 bytes of a header the
    payload length wraps around: the fourth [WSABUF] asks for
    2^32 - (24 - size) bytes of a buffer of [size] bytes, and no datagram
    can be gathered from inside the buffer. *)
Theorem short_send_buffer_wraps_the_payload_length (sequenceNumber qpc : Z)
  (sendBuffer : list Z) :
  Z.of_nat (length sendBuffer) < 24 ->
  snd (GetBuffers qpc (DatagramSendRequest_new sequenceNumber sendBuffer)) !! 3%nat
  = Some (mkWSABUF (ULONG_modulus - (24 - Z.of_nat (length sendBuffer))) SendBufferData)
  /\ datagram sequenceNumber qpc sendBuffer = None.
Proof.
  intros Hsize.
  assert (Hlen : to_u64 (Z.of_nat (length sendBuffer) - c_datagramHeaderLength)
                 mod ULONG_modulus
                 = ULONG_modulus - (24 - Z.of_nat (length sendBuffer))).
  { change c_datagramHeaderLength with 24.
    assert (E : to_u64 (Z.of_nat (length sendBuffer) - 24)
                = Z.of_nat (length sendBuffer) - 24 + two64).
    { unfold to_u64. symmetry. apply Z.mod_unique with (q := -1); unfold two64; lia. }
    rewrite E. symmetry.
    apply Z.mod_unique with (q := 2 ^ 32 - 1); unfold ULONG_modulus, two64; lia. }
  split.
  - unfold GetBuffers, DatagramSendRequest_new. cbn [snd DatagramSendRequest.m_wsabufs].
    cbn [lookup list_lookup]. rewrite Hlen. reflexivity.
  - unfold datagram, GetBuffers, DatagramSendRequest_new.
    cbn [gather DatagramSendRequest.m_wsabufs].
    unfold WSABUF_bytes at 4. cbn [buf len]. rewrite Hlen.
    destruct (Z.leb_spec (ULONG_modulus - (24 - Z.of_nat (length sendBuffer)))
                (Z.of_nat (length sendBuffer))) as [Hle | _].
    + unfold ULONG_modulus in Hle. lia.
    + destruct (WSABUF_bytes _ _ _); [| reflexivity].
      destruct (WSABUF_bytes _ _ _); [| reflexivity].
      destruct (WSABUF_bytes _ _ _); reflexivity.
Qed.

(** ** Completions on the aggregator *)

Section Completions.

Context `{Collaborators}.

Lemma sent_restores (i : Interface) (s : SendResult.t) (stat : LatencyData) :
  match i with
  | Primary => set_primarySendTimestamp (m_primarySendTimestamp stat) (sent i s stat)
  | Secondary => set_secondarySendTimestamp (m_secondarySendTimestamp stat) (sent i s stat)
  end = stat.
Proof. destruct i, stat; reflexivity. Qed.

(** X4: a send completion on path P with an in-range sequence number i
    returns and writes the send timestamp of record i for path P, and
    nothing else: putting the old value back into that field gives the old
    record, every other record and the length of the aggregator are as
    before, and so are the corrupt-frame counters. *)
Theorem send_completion_writes_one_timestamp (i : Interface) (s : SendResult.t)
  (st : StreamClient) :
  0 <= SendResult.m_sequenceNumber s < m_finalSequenceNumber st ->
  m_finalSequenceNumber st <= LLONG_MAX ->
  aggregator_sized st ->
  exists stat st',
    m_latencyData st !! Z.to_nat (SendResult.m_sequenceNumber s) = Some stat
    /\ SendCompletion i s st = Returned st'
    /\ st' = set_latencyData (m_latencyData st') st
    /\ m_latencyData st' !! Z.to_nat (SendResult.m_sequenceNumber s)
       = Some (sent i s stat)
    /\ match i with
       | Primary =>
           set_primarySendTimestamp (m_primarySendTimestamp stat) (sent i s stat)
       | Secondary =>
           set_secondarySendTimestamp (m_secondarySendTimestamp stat) (sent i s stat)
       end = stat
    /\ (forall j : nat,
          j <> Z.to_nat (SendResult.m_sequenceNumber s) ->
          m_latencyData st' !! j = m_latencyData st !! j)
    /\ length (m_latencyData st') = length (m_latencyData st).
Proof.
  intros Hn Hmax Hsz.
  destruct (SendCompletion_in_range i s st Hn Hmax Hsz) as (stat & Hlk & Hr).
  exists stat. eexists. split; [exact Hlk |]. split; [exact Hr |].
  split; [reflexivity |].
  cbn [m_latencyData set_latencyData].
  split; [| split; [apply sent_restores | split]].
  - apply list_lookup_insert_eq. apply lookup_lt_is_Some_1. eexists. exact Hlk.
  - intros j Hj. apply list_lookup_insert_ne. congruence.
  - apply length_insert.
Qed.

(** An in-range completion, of a send or of a receive, replaces the
    record of its sequence number. *)
Lemma completion_in_range (e : Event) (i : Interface) (n : Z) (st : StreamClient) :
  completion_of e = Some (i, n) ->
  0 <= n < m_finalSequenceNumber st ->
  m_finalSequenceNumber st <= LLONG_MAX ->
  aggregator_sized st ->
  exists stat,
    m_latencyData st !! Z.to_nat n = Some stat
    /\ step e st
       = Returned
           (set_latencyData (<[Z.to_nat n := completion_update e stat]> (m_latencyData st))
              st).
Proof.
  intros He Hn Hmax Hsz.
  destruct e as [| | | | | j s | j r]; try discriminate; injection He as -> <-.
  - apply SendCompletion_in_range; assumption.
  - apply ReceiveCompletion_in_range; assumption.
Qed.

Lemma completion_update_commutes (a b : Event) (i j : Interface) (n m : Z)
  (stat : LatencyData) :
  completion_of a = Some (i, n) -> completion_of b = Some (j, m) -> i <> j ->
  completion_update b (completion_update a stat)
  = completion_update a (completion_update b stat).
Proof.
  intros Ha Hb Hij.
  destruct a as [| | | | | ia sa | ia ra]; try discriminate; injection Ha as -> <-;
    destruct b as [| | | | | ib sb | ib rb]; try discriminate; injection Hb as -> <-;
    destruct i, j; try congruence; destruct stat; reflexivity.
Qed.

Lemma completion_update_twice (a : Event) (stat : LatencyData) :
  completion_update a (completion_update a stat) = completion_update a stat.
Proof.
  destruct a as [| | | | | i s | i r]; try reflexivity; destruct i, stat; reflexivity.
Qed.

(** The second of two in-range completions. *)
Lemma completion_after_completion (a b : Event) (i j : Interface) (n m : Z)
  (st : StreamClient) (sa sb : LatencyData) :
  completion_of a = Some (i, n) -> completion_of b = Some (j, m) ->
  0 <= n < m_finalSequenceNumber st -> 0 <= m < m_finalSequenceNumber st ->
  m_finalSequenceNumber st <= LLONG_MAX ->
  aggregator_sized st ->
  m_latencyData st !! Z.to_nat n = Some sa ->
  m_latencyData st !! Z.to_nat m = Some sb ->
  run [a; b] st
  = Returned
      (set_latencyData
         (<[Z.to_nat m := completion_update b (if decide (n = m) then completion_update a sa
                                               else sb)]>
            (<[Z.to_nat n := completion_update a sa]> (m_latencyData st))) st).
Proof.
  intros Ha Hb Hn Hm Hmax Hsz Hsa Hsb. cbn [run].
  destruct (completion_in_range a i n st Ha Hn Hmax Hsz) as (sa' & Hsa' & ->).
  rewrite Hsa in Hsa'. injection Hsa' as <-. cbn [bind].
  set (st1 := set_latencyData (<[Z.to_nat n := completion_update a sa]> (m_latencyData st)) st).
  assert (Hsz1 : aggregator_sized st1).
  { unfold aggregator_sized, st1. cbn [m_latencyData set_latencyData m_finalSequenceNumber].
    rewrite length_insert. exact Hsz. }
  destruct (completion_in_range b j m st1 Hb Hm Hmax Hsz1) as (sb' & Hsb' & ->).
  cbn [bind]. f_equal.
  assert (E : sb' = if decide (n = m) then completion_update a sa else sb).
  { unfold st1 in Hsb'. cbn [m_latencyData set_latencyData] in Hsb'.
    destruct (decide (n = m)) as [-> | Hne].
    - rewrite list_lookup_insert_eq in Hsb'; [congruence |].
      apply lookup_lt_is_Some_1. eexists. exact Hsb.
    - rewrite list_lookup_insert_ne in Hsb' by lia. congruence. }
  rewrite E. reflexivity.
Qed.

(** X5: two in-range completions that differ in the path or in the
    sequence number commute: the client is the same whichever of the two
    lands first.  In particular nothing that happens on one path disturbs
    what is recorded for the other. *)
Theorem completions_commute (a b : Event) (i j : Interface) (n m : Z)
  (st : StreamClient) :
  completion_of a = Some (i, n) -> completion_of b = Some (j, m) ->
  i <> j \/ n <> m ->
  0 <= n < m_finalSequenceNumber st -> 0 <= m < m_finalSequenceNumber st ->
  m_finalSequenceNumber st <= LLONG_MAX ->
  aggregator_sized st ->
  run [a; b] st = run [b; a] st
  /\ exists st', run [a; b] st = Returned st'.
Proof.
  intros Ha Hb Hdiff Hn Hm Hmax Hsz.
  destruct (completion_in_range a i n st Ha Hn Hmax Hsz) as (sa & Hsa & _).
  destruct (completion_in_range b j m st Hb Hm Hmax Hsz) as (sb & Hsb & _).
  rewrite (completion_after_completion a b i j n m st sa sb) by assumption.
  rewrite (completion_after_completion b a j i m n st sb sa) by assumption.
  split; [| eexists; reflexivity].
  f_equal. f_equal.
  destruct (decide (n = m)) as [-> | Hne].
  - destruct (decide (m = m)) as [_ | Hc]; [| congruence].
    rewrite Hsa in Hsb. injection Hsb as <-.
    rewrite !list_insert_insert_eq. f_equal.
    apply (completion_update_commutes a b i j m m); [assumption | assumption |].
    destruct Hdiff as [Hd | Hd]; [exact Hd | congruence].
  - destruct (decide (m = n)) as [Hc | _]; [congruence |].
    apply list_insert_insert_ne. lia.
Qed.

(** X6: an in-range completion that lands twice leaves the client as it
    is after the first time: a duplicated frame or completion is
    harmless. *)
Theorem completion_twice_is_once (a : Event) (i : Interface) (n : Z) (st : StreamClient) :
  completion_of a = Some (i, n) ->
  0 <= n < m_finalSequenceNumber st ->
  m_finalSequenceNumber st <= LLONG_MAX ->
  aggregator_sized st ->
  run [a; a] st = run [a] st
  /\ exists st', run [a] st = Returned st'.
Proof.
  intros Ha Hn Hmax Hsz.
  destruct (completion_in_range a i n st Ha Hn Hmax Hsz) as (sa & Hsa & Hstep).
  rewrite (completion_after_completion a a i i n n st sa sa) by assumption.
  cbn [run]. rewrite Hstep. cbn [bind].
  split; [| eexists; reflexivity].
  f_equal. f_equal.
  destruct (decide (n = n)) as [_ | Hc]; [| congruence].
  rewrite list_insert_insert_eq, completion_update_twice. reflexivity.
Qed.

End Completions.

(** ** What the scheduler sends *)

Lemma sent_on_app (p : Interface) (es es' : list Effect) :
  sent_on p (es ++ es') = sent_on p es ++ sent_on p es'.
Proof. unfold sent_on. apply omap_app. Qed.

Lemma rest_sends_on (p : Interface) (a b : StreamClient) :
  rest a = rest b -> sends_on p a = sends_on p b.
Proof. unfold rest. intros [= ]. destruct p; cbn [sends_on]; congruence. Qed.

Lemma rest_final (a b : StreamClient) :
  rest a = rest b -> m_finalSequenceNumber a = m_finalSequenceNumber b.
Proof. unfold rest. intros [= ]. assumption. Qed.

Section Sends.

Context `{Collaborators}.

Lemma SendDatagrams_sends (st st' : StreamClient) :
  SendDatagrams st = Returned st' ->
  m_sequenceNumber st' = m_sequenceNumber st + 1
  /\ rest st' = rest st
  /\ forall p : Interface,
       sent_on p (effects st')
       = sent_on p (effects st) ++ (if sends_on p st then [m_sequenceNumber st] else []).
Proof.
  unfold SendDatagrams.
  destruct (AdapterStatus_eqb (m_adapterStatus (m_secondaryState
              (emit (SocketSendDatagram Primary (m_sequenceNumber st)) st))) Ready) eqn:Er;
    match goal with |- context [add_i64 ?a ?b] =>
      destruct (add_i64 a b) as [next |] eqn:En
    end; cbn [defined]; try discriminate; intros [= <-];
    apply add_i64_inv in En.
  - split; [exact En |]. split; [reflexivity |].
    intros p. destruct p; cbn [sends_on].
    + change (sent_on Primary
                (((effects st ++ [SocketSendDatagram Primary (m_sequenceNumber st)])
                  ++ [SocketSendDatagram Secondary (m_sequenceNumber st)]))
              = sent_on Primary (effects st) ++ [m_sequenceNumber st]).
      rewrite !sent_on_app, <- app_assoc. reflexivity.
    + change (AdapterStatus_eqb (m_adapterStatus (m_secondaryState st)) Ready) with
        (AdapterStatus_eqb (m_adapterStatus (m_secondaryState
           (emit (SocketSendDatagram Primary (m_sequenceNumber st)) st))) Ready).
      rewrite Er.
      change (sent_on Secondary
                (((effects st ++ [SocketSendDatagram Primary (m_sequenceNumber st)])
                  ++ [SocketSendDatagram Secondary (m_sequenceNumber st)]))
              = sent_on Secondary (effects st) ++ [m_sequenceNumber st]).
      rewrite !sent_on_app, <- app_assoc. reflexivity.
  - split; [exact En |]. split; [reflexivity |].
    intros p. destruct p; cbn [sends_on].
    + change (sent_on Primary
                (effects st ++ [SocketSendDatagram Primary (m_sequenceNumber st)])
              = sent_on Primary (effects st) ++ [m_sequenceNumber st]).
      rewrite sent_on_app. reflexivity.
    + change (AdapterStatus_eqb (m_adapterStatus (m_secondaryState st)) Ready) with
        (AdapterStatus_eqb (m_adapterStatus (m_secondaryState
           (emit (SocketSendDatagram Primary (m_sequenceNumber st)) st))) Ready).
      rewrite Er.
      change (sent_on Secondary
                (effects st ++ [SocketSendDatagram Primary (m_sequenceNumber st)])
              = sent_on Secondary (effects st) ++ []).
      rewrite sent_on_app. reflexivity.
Qed.

(** Whenever the loop of a tick returns, it has sent the sequence numbers
    from the old counter up to the new one, on the paths in use, and the
    counter has not passed the final sequence number. *)
Lemma TimerCallback_for_sends (remaining : nat) :
  forall (i : Z) (st st' : StreamClient),
    TimerCallback_for remaining i st = Returned st' ->
    rest st' = rest st
    /\ m_sequenceNumber st <= m_sequenceNumber st'
    /\ (m_sequenceNumber st' = m_sequenceNumber st
        \/ m_sequenceNumber st' <= m_finalSequenceNumber st)
    /\ forall p : Interface,
         sent_on p (effects st')
         = sent_on p (effects st)
           ++ (if sends_on p st
               then seqZ (m_sequenceNumber st) (m_sequenceNumber st' - m_sequenceNumber st)
               else []).
Proof.
  induction remaining as [| remaining IH]; intros i st st'; cbn [TimerCallback_for].
  - intros [= <-]. split; [reflexivity |]. split; [lia |]. split; [left; reflexivity |].
    intros p. rewrite Z.sub_diag. destruct (sends_on p st); rewrite ?seqZ_nil by lia;
      rewrite app_nil_r; reflexivity.
  - destruct (Z.ltb_spec i (m_frameRate st)); cbn [andb];
      [destruct (Z.ltb_spec (m_sequenceNumber st) (m_finalSequenceNumber st)) as [Hlt | Hge] |].
    + destruct (SendDatagrams st) as [s1 | e s1 | |] eqn:Es; cbn [bind]; try discriminate.
      destruct (incr_int i) as [i' |]; cbn [defined]; [| discriminate].
      intros Hr.
      destruct (SendDatagrams_sends _ _ Es) as (Hs1 & Hrest1 & Hsent1).
      destruct (IH _ _ _ Hr) as (Hrest & Hle & Hbound & Hsent).
      pose proof (rest_final _ _ Hrest1) as Hfin1.
      split; [congruence |]. split; [lia |]. split; [right; lia |].
      intros p. rewrite Hsent, Hsent1, (rest_sends_on p _ _ Hrest1).
      destruct (sends_on p st); [| rewrite !app_nil_r; reflexivity].
      rewrite <- app_assoc. f_equal.
      rewrite (seqZ_cons (m_sequenceNumber st)) by lia.
      cbn [app]. f_equal. f_equal; lia.
    + intros [= <-]. split; [reflexivity |]. split; [lia |]. split; [left; reflexivity |].
      intros p. rewrite Z.sub_diag. destruct (sends_on p st); rewrite ?seqZ_nil by lia;
        rewrite app_nil_r; reflexivity.
    + intros [= <-]. split; [reflexivity |]. split; [lia |]. split; [left; reflexivity |].
      intros p. rewrite Z.sub_diag. destruct (sends_on p st); rewrite ?seqZ_nil by lia;
        rewrite app_nil_r; reflexivity.
Qed.

Lemma sent_on_Stop (p : Interface) (st : StreamClient) :
  sent_on p (effects (Stop st)) = sent_on p (effects st).
Proof.
  rewrite (Stop_members st).
  change (sent_on p
            (effects st
             ++ [TimerStop; RevokeNetworkStatusChanged; Sleep 1000; SocketCancel Primary;
                 SocketCancel Secondary; SetEvent]) = sent_on p (effects st)).
  rewrite sent_on_app. apply app_nil_r.
Qed.

(** One callback of the timer, when it returns. *)
Lemma timer_fires_sends (st st' : StreamClient) :
  timer_fires st = Returned st' ->
  m_sequenceNumber st <= m_sequenceNumber st'
  /\ m_finalSequenceNumber st' = m_finalSequenceNumber st
  /\ m_latencyData st' = m_latencyData st
  /\ (m_sequenceNumber st' = m_sequenceNumber st
      \/ m_sequenceNumber st' <= m_finalSequenceNumber st)
  /\ (m_threadpoolTimer st' = None /\ (m_threadpoolTimer st = None -> st' = st)
      \/ forall p : Interface, sends_on p st' = sends_on p st)
  /\ forall p : Interface,
       sent_on p (effects st')
       = sent_on p (effects st)
         ++ (if sends_on p st
             then seqZ (m_sequenceNumber st) (m_sequenceNumber st' - m_sequenceNumber st)
             else []).
Proof.
  assert (Hnone : forall (p : Interface) (s : StreamClient),
             sent_on p (effects s)
             = sent_on p (effects s)
               ++ (if sends_on p s
                   then seqZ (m_sequenceNumber s) (m_sequenceNumber s - m_sequenceNumber s)
                   else [])).
  { intros p s. rewrite Z.sub_diag. destruct (sends_on p s); rewrite ?seqZ_nil by lia;
      rewrite app_nil_r; reflexivity. }
  unfold timer_fires. destruct (m_threadpoolTimer st) as [t |] eqn:Et.
  2:{ intros [= <-]. split; [lia |]. split; [reflexivity |]. split; [reflexivity |].
      split; [left; reflexivity |]. split; [left; split; [exact Et | reflexivity] |].
      intros p. apply Hnone. }
  unfold TimerCallback. set (s0 := set_threadpoolTimer None st).
  change (m_running s0) with (m_running st).
  destruct (m_running st); cbv beta iota delta [negb].
  2:{ intros [= <-]. split; [cbn; lia |]. split; [reflexivity |]. split; [reflexivity |].
      split; [left; reflexivity |].
      split; [left; split; [reflexivity | discriminate] |].
      intros p. apply (Hnone p st). }
  destruct (TimerCallback_for (Z.to_nat (m_frameRate s0)) 0 s0) as [s1 | e s1 | |] eqn:El;
    cbv beta iota delta [bind]; try discriminate.
  destruct (TimerCallback_for_sends _ _ _ _ El) as (Hrest & Hle & Hbound & Hsent).
  change (m_sequenceNumber s0) with (m_sequenceNumber st) in *.
  change (m_finalSequenceNumber s0) with (m_finalSequenceNumber st) in *.
  change (effects s0) with (effects st) in *.
  assert (Hsends : forall p, sends_on p s1 = sends_on p st).
  { intros p. rewrite (rest_sends_on p _ _ Hrest). destruct p; reflexivity. }
  assert (Hsent' : forall p,
             sent_on p (effects s1)
             = sent_on p (effects st)
               ++ (if sends_on p st
                   then seqZ (m_sequenceNumber st) (m_sequenceNumber s1 - m_sequenceNumber st)
                   else [])).
  { intros p. rewrite Hsent. destruct p; reflexivity. }
  assert (Hfin : m_finalSequenceNumber s1 = m_finalSequenceNumber st)
    by (rewrite (rest_final _ _ Hrest); reflexivity).
  assert (Hdata : m_latencyData s1 = m_latencyData st).
  { unfold rest in Hrest. injection Hrest as _ _ _ _ _ _ _ _ _ _ _ Hd _ _. exact Hd. }
  destruct (m_sequenceNumber s1 <? m_finalSequenceNumber s1).
  - intros [= <-].
    split; [exact Hle |]. split; [exact Hfin |]. split; [exact Hdata |].
    split; [exact Hbound |]. split; [right; intros p; rewrite <- Hsends; destruct p; reflexivity |].
    intros p. rewrite <- Hsent'.
    change (sent_on p (effects s1 ++ [TimerSchedule (m_tickInterval s1)])
            = sent_on p (effects s1)).
    rewrite sent_on_app. apply app_nil_r.
  - destruct (m_sequenceNumber s1 >? m_finalSequenceNumber s1); [discriminate |].
    intros [= <-].
    split; [exact Hle |]. split; [exact Hfin |]. split; [exact Hdata |].
    split; [exact Hbound |].
    split; [left; split; [reflexivity | discriminate] |].
    intros p. rewrite sent_on_Stop. apply Hsent'.
Qed.

Lemma timer_fires_n_idle (n : nat) (st : StreamClient) :
  m_threadpoolTimer st = None -> timer_fires_n n st = Returned st.
Proof.
  intros Hidle. induction n as [| n IH]; cbn [timer_fires_n]; [reflexivity |].
  unfold timer_fires. rewrite Hidle. cbn [bind]. exact IH.
Qed.

(** Any number of callbacks, when they return. *)
Lemma timer_fires_n_sends (n : nat) :
  forall st st' : StreamClient,
    timer_fires_n n st = Returned st' ->
    m_sequenceNumber st <= m_sequenceNumber st'
    /\ forall p : Interface,
         sent_on p (effects st')
         = sent_on p (effects st)
           ++ (if sends_on p st
               then seqZ (m_sequenceNumber st) (m_sequenceNumber st' - m_sequenceNumber st)
               else []).
Proof.
  induction n as [| n IH]; intros st st'; cbn [timer_fires_n].
  - intros [= <-]. split; [lia |]. intros p. rewrite Z.sub_diag.
    destruct (sends_on p st); rewrite ?seqZ_nil by lia; rewrite app_nil_r; reflexivity.
  - destruct (timer_fires st) as [s1 | e s1 | |] eqn:E1; cbn [bind]; try discriminate.
    intros Hr.
    destruct (timer_fires_sends _ _ E1) as (Hle1 & _ & _ & _ & Hcase & Hsent1).
    destruct Hcase as [(Hidle & _) | Hsame].
    + rewrite (timer_fires_n_idle n s1 Hidle) in Hr. injection Hr as <-.
      split; [exact Hle1 | exact Hsent1].
    + destruct (IH _ _ Hr) as (Hle & Hsent).
      split; [lia |]. intros p. rewrite Hsent, Hsent1, Hsame.
      destruct (sends_on p st); [| rewrite !app_nil_r; reflexivity].
      rewrite <- app_assoc. f_equal.
      replace (m_sequenceNumber st' - m_sequenceNumber st)
        with ((m_sequenceNumber s1 - m_sequenceNumber st)
              + (m_sequenceNumber st' - m_sequenceNumber s1)) by lia.
      rewrite seqZ_app by lia. f_equal. f_equal. lia.
Qed.

End Sends.

(** X7: in a run from a counter at 0 to a final sequence number N (under
    the conditions of the scheduler: m_frameRate >= 1, min (m_frameRate, N)
    within an [int], no network notification in between) the callbacks up
    to the one that stops the run hand every sequence number 0, 1, ...,
    N - 1 to the primary path exactly once and in this order, and no other
    number; the secondary path gets the same numbers when it is [Ready],
    and none when it is not. *)
Theorem run_sends_each_sequence_number_once `{Collaborators}
  (st : StreamClient) (N f : Z) :
  m_finalSequenceNumber st = N ->
  m_frameRate st = f ->
  m_sequenceNumber st = 0 ->
  scheduled st ->
  0 <= N <= LLONG_MAX ->
  1 <= f ->
  Z.min f N <= INT_MAX ->
  exists st',
    timer_fires_n (Z.to_nat (Z.max 1 (ceil_div N f))) st = Returned st'
    /\ terminal st'
    /\ sent_on Primary (effects st') = sent_on Primary (effects st) ++ seqZ 0 N
    /\ sent_on Secondary (effects st')
       = sent_on Secondary (effects st)
         ++ (if AdapterStatus_eqb (m_adapterStatus (m_secondaryState st)) Ready
             then seqZ 0 N else []).
Proof.
  intros HN Hf Hseq Hsch HNr Hf1 Hint.
  assert (Hseq' : 0 <= m_sequenceNumber st <= m_finalSequenceNumber st)
    by (rewrite Hseq, HN; lia).
  assert (Hf1' : 1 <= m_frameRate st) by (rewrite Hf; exact Hf1).
  assert (Hmax' : m_finalSequenceNumber st <= LLONG_MAX) by (rewrite HN; lia).
  assert (Hint' : Z.min (m_frameRate st) (m_finalSequenceNumber st - m_sequenceNumber st)
                  <= INT_MAX)
    by (rewrite Hf, HN, Hseq, Z.sub_0_r; exact Hint).
  assert (HK : exists k : nat,
             Z.to_nat (Z.max 1 (ceil_div N f)) = S k
             /\ (k = O \/ Z.of_nat k * f < N)
             /\ N <= Z.of_nat (S k) * f).
  { destruct (Z.eq_dec N 0) as [-> | Hpos].
    - exists O. replace (ceil_div 0 f) with 0
        by (unfold ceil_div; symmetry; apply Z.div_small; lia).
      split; [reflexivity |]. split; [left; reflexivity | lia].
    - destruct (ceil_div_bounds N f) as (Hb & Hc); [lia | lia |].
      exists (Z.to_nat (ceil_div N f - 1)). split; [lia |]. split; [right |]; nia. }
  destruct HK as (k & -> & Hleft & Hlast).
  destruct (timer_fires_n_terminal k st Hsch Hf1' Hseq' Hmax' Hint')
    as (st' & Hr & Hterm & Hs' & _).
  { rewrite HN, Hf, Hseq. destruct Hleft as [-> | Hleft]; [left; reflexivity | right; lia]. }
  { rewrite HN, Hf, Hseq. lia. }
  exists st'. split; [exact Hr |]. split; [exact Hterm |].
  destruct (timer_fires_n_sends _ _ _ Hr) as (_ & Hsent).
  rewrite Hs', Hseq, HN, Z.sub_0_r in Hsent.
  split; [exact (Hsent Primary) | exact (Hsent Secondary)].
Qed.

Section Stalls.

Context `{Collaborators}.

Lemma timer_fires_without_frames (st : StreamClient) :
  scheduled st ->
  m_frameRate st <= 0 ->
  m_sequenceNumber st < m_finalSequenceNumber st ->
  timer_fires st
  = Returned (set_effects (effects st ++ [TimerSchedule (m_tickInterval st)]) st).
Proof.
  intros (Hrun & Harmed) Hf Hlt.
  unfold timer_fires. rewrite Harmed. unfold TimerCallback.
  set (s0 := set_threadpoolTimer None st).
  change (m_running s0) with (m_running st). rewrite Hrun.
  cbv beta iota delta [negb].
  change (m_frameRate s0) with (m_frameRate st).
  replace (Z.to_nat (m_frameRate st)) with O by lia.
  cbv beta iota delta [TimerCallback_for bind].
  change (m_sequenceNumber s0) with (m_sequenceNumber st).
  change (m_finalSequenceNumber s0) with (m_finalSequenceNumber st).
  destruct (Z.ltb_spec (m_sequenceNumber st) (m_finalSequenceNumber st)); [| lia].
  f_equal. unfold s0. clear s0 Hrun Hf Hlt H0.
  destruct st. cbv beta iota delta [m_threadpoolTimer m_tickInterval] in Harmed.
  subst. reflexivity.
Qed.

(** X8: with a frame rate of 0 (or less) and a datagram left to send, a
    callback sends nothing and arms the timer again, so the run never
    ends: after any number of callbacks the client is as it was, but for
    that many calls of [Schedule] in its trace. *)
Theorem zero_frame_rate_never_stops (n : nat) :
  forall st : StreamClient,
    scheduled st ->
    m_frameRate st <= 0 ->
    m_sequenceNumber st < m_finalSequenceNumber st ->
    timer_fires_n n st
    = Returned
        (set_effects (effects st ++ replicate n (TimerSchedule (m_tickInterval st))) st)
    /\ forall st', timer_fires_n n st = Returned st' ->
         scheduled st'
         /\ m_sequenceNumber st' = m_sequenceNumber st
         /\ signals st' = signals st
         /\ forall p, sent_on p (effects st') = sent_on p (effects st).
Proof.
  assert (Hmain : forall (n : nat) (st : StreamClient),
             scheduled st -> m_frameRate st <= 0 ->
             m_sequenceNumber st < m_finalSequenceNumber st ->
             timer_fires_n n st
             = Returned
                 (set_effects
                    (effects st ++ replicate n (TimerSchedule (m_tickInterval st))) st)).
  { clear n. induction n as [| n IH]; intros st Hsch Hf Hlt; cbn [timer_fires_n replicate].
    - rewrite app_nil_r. destruct st. reflexivity.
    - rewrite (timer_fires_without_frames st Hsch Hf Hlt). cbn [bind].
      rewrite IH; [| exact Hsch | exact Hf | exact Hlt].
      f_equal.
      change (set_effects
                ((effects st ++ [TimerSchedule (m_tickInterval st)])
                 ++ replicate n (TimerSchedule (m_tickInterval st))) st
              = set_effects
                  (effects st
                   ++ TimerSchedule (m_tickInterval st)
                      :: replicate n (TimerSchedule (m_tickInterval st))) st).
      rewrite <- app_assoc. reflexivity. }
  intros st Hsch Hf Hlt. split; [apply Hmain; assumption |].
  intros st' Hr. rewrite (Hmain n st Hsch Hf Hlt) in Hr. injection Hr as <-.
  split; [exact Hsch |]. split; [reflexivity |]. split.
  - rewrite (signals_effects _ st (replicate n (TimerSchedule (m_tickInterval st))))
      by reflexivity.
    replace (filter (fun e => is_SetEvent e = true)
               (replicate n (TimerSchedule (m_tickInterval st)))) with (@nil Effect);
      [apply Nat.add_0_r |].
    induction n as [| n IH]; [reflexivity | exact IH].
  - intros p.
    change (sent_on p (effects st ++ replicate n (TimerSchedule (m_tickInterval st)))
            = sent_on p (effects st)).
    rewrite sent_on_app.
    replace (sent_on p (replicate n (TimerSchedule (m_tickInterval st)))) with (@nil Z);
      [apply app_nil_r |].
    induction n as [| n IH]; [reflexivity | exact IH].
Qed.

Lemma Stop_leaves (st : StreamClient) :
  m_running (Stop st) = false
  /\ m_threadpoolTimer (Stop st) = None
  /\ plan (Stop st) = plan st.
Proof. rewrite (Stop_members st). repeat split; reflexivity. Qed.

(** [ReceiveCompletion] looks at the plan and the measurements only. *)
Lemma ReceiveCompletion_plan (i : Interface) (r : ReceiveResult.t)
  (a b st' : StreamClient) :
  plan a = plan b ->
  ReceiveCompletion i r a = Returned st' ->
  exists st'', ReceiveCompletion i r b = Returned st'' /\ plan st'' = plan st'.
Proof.
  unfold plan. intros [= Hf Ht Hfin Hseq Hdata Hp Hs].
  unfold ReceiveCompletion, latencyData_at, latencyData_store.
  rewrite Hfin, Hdata, Hp, Hs.
  destruct (_ || _).
  - destruct i;
      match goal with |- context [add_i64 ?x ?y] => destruct (add_i64 x y) end;
      cbn [defined]; try discriminate; intros [= <-]; eexists;
      (split; [reflexivity |]);
      cbn [m_frameRate m_tickInterval m_finalSequenceNumber m_sequenceNumber
             m_latencyData m_primaryCorruptFrames m_secondaryCorruptFrames
             set_primaryCorruptFrames set_secondaryCorruptFrames];
      congruence.
  - cbv zeta. destruct (_ <? _); cbn [defined]; [| discriminate].
    destruct (m_latencyData b !! _); cbn [defined]; [| discriminate].
    intros [= <-]. eexists. split; [reflexivity |].
    cbn [m_frameRate m_tickInterval m_finalSequenceNumber m_sequenceNumber
           m_latencyData m_primaryCorruptFrames m_secondaryCorruptFrames set_latencyData].
    congruence.
Qed.

(** X9: once [Stop] has returned, a timer callback that was already on
    its way returns without sending and without arming the timer, while
    the slots of the completions still in flight stay: [Stop] keeps the
    final sequence number, the counter, the aggregator and the
    corrupt-frame counters, and a receive completion does after [Stop]
    what it would have done before. *)
Theorem callback_after_Stop_does_nothing (st : StreamClient) :
  TimerCallback (Stop st) = Returned (Stop st)
  /\ timer_fires (Stop st) = Returned (Stop st)
  /\ plan (Stop st) = plan st
  /\ forall (i : Interface) (r : ReceiveResult.t) (st' : StreamClient),
       ReceiveCompletion i r st = Returned st' ->
       exists st'', ReceiveCompletion i r (Stop st) = Returned st''
                    /\ plan st'' = plan st'.
Proof.
  destruct (Stop_leaves st) as (Hrun & Htimer & Hplan).
  split; [| split; [| split]].
  - unfold TimerCallback. rewrite Hrun. reflexivity.
  - unfold timer_fires. rewrite Htimer. reflexivity.
  - exact Hplan.
  - intros i r st' Hr. apply (ReceiveCompletion_plan i r st (Stop st) st'); [| exact Hr].
    symmetry. exact Hplan.
Qed.

End Stalls.

(** ** [Start] at its edges *)

Lemma planned_count_nonneg (duration bitRate datagramSize D : Z) :
  is_ulong duration -> is_ulong bitRate -> 0 <= datagramSize ->
  CalculateNumberOfDatagramToSend duration bitRate datagramSize = Some D ->
  0 <= D /\ D * datagramSize <= duration * (bitRate / 8) < (D + 1) * datagramSize.
Proof.
  intros Hd Hb Hs HD.
  assert (Hpos : 0 < datagramSize).
  { destruct (Z.eq_dec datagramSize 0) as [-> | Hne]; [| lia].
    revert HD. cbv beta zeta delta [CalculateNumberOfDatagramToSend].
    destruct (mul_i64 _ _); discriminate. }
  rewrite (CalculateNumberOfDatagramToSend_exact _ _ _ Hd Hb Hpos) in HD.
  injection HD as <-.
  assert (Hrate : 0 <= bitRate / 8) by (apply Z.div_pos; unfold is_ulong in Hb; lia).
  assert (Hprod : 0 <= duration * (bitRate / 8)) by (unfold is_ulong in Hd; nia).
  pose proof (Z.div_mod (duration * (bitRate / 8)) datagramSize ltac:(lia)) as Hdm.
  pose proof (Z.mod_pos_bound (duration * (bitRate / 8)) datagramSize Hpos) as Hmod.
  split; [apply Z.div_pos; lia | nia].
Qed.

(** X10: for every duration and bit rate that [Start] can be given and
    every datagram size above 0, [CalculateNumberOfDatagramToSend] has a
    result D without overflow, D is not negative, and the D datagrams fit
    the byte budget duration * (bitRate / 8) while D + 1 would not. *)
Theorem planned_datagrams_fit_the_budget (duration bitRate datagramSize : Z) :
  is_ulong duration -> is_ulong bitRate -> 0 < datagramSize ->
  exists D,
    CalculateNumberOfDatagramToSend duration bitRate datagramSize = Some D
    /\ 0 <= D
    /\ D * datagramSize <= duration * (bitRate / 8) < (D + 1) * datagramSize.
Proof.
  intros Hd Hb Hs. eexists.
  split; [apply CalculateNumberOfDatagramToSend_exact; assumption |].
  apply (planned_count_nonneg duration bitRate datagramSize); try assumption; [lia |].
  apply CalculateNumberOfDatagramToSend_exact; assumption.
Qed.

Section StartEdges.

Context `{Collaborators}.

(** X11: a first [Start] that plans no datagram (a duration of 0, say)
    does not start a run: the final sequence number stays -1, its
    conversion to [size_t] is the largest one, and [resize] throws; no
    socket is set up, the timer is not armed and the client is not
    running. *)
Theorem Start_without_datagrams_throws (w : World)
  (sendBitRate sendFrameRate duration : Z) (st : StreamClient) :
  m_finalSequenceNumber st = -1 ->
  m_running st = false ->
  is_ulong sendBitRate -> 8 <= sendBitRate -> is_ulong duration ->
  0 < c_bufferSize < two64 ->
  duration * (sendBitRate / 8) < c_bufferSize ->
  latencyData_max_size < two64 - 1 ->
  exists st',
    Start w sendBitRate sendFrameRate duration st = Thrown OtherException st'
    /\ m_finalSequenceNumber st' = -1
    /\ m_running st' = false
    /\ m_threadpoolTimer st' = m_threadpoolTimer st
    /\ m_latencyData st' = m_latencyData st
    /\ effects st' = effects st.
Proof.
  intros Hfin Hrun Hb Hb8 Hd Hsize Hzero Hmax.
  destruct (CalculateTickInterval_defined sendBitRate sendFrameRate (to_u64 c_bufferSize))
    as (t & Ht).
  { unfold is_ulong, ULONG_MAX, LLONG_MAX in *. lia. }
  assert (HD : CalculateNumberOfDatagramToSend duration sendBitRate (to_u64 c_bufferSize)
               = Some 0).
  { rewrite to_u64_small by lia.
    rewrite CalculateNumberOfDatagramToSend_exact by (assumption || lia).
    f_equal. apply Z.div_small. split; [| exact Hzero].
    assert (0 <= sendBitRate / 8) by (apply Z.div_pos; unfold is_ulong in Hb; lia).
    unfold is_ulong in Hd. nia. }
  unfold Start. rewrite Hrun, Ht, HD.
  cbn [defined set_tickInterval set_frameRate m_finalSequenceNumber]. rewrite Hfin.
  change (add_i64 (-1) 0) with (Some (-1)).
  cbn [defined set_finalSequenceNumber m_finalSequenceNumber].
  rewrite to_u64_le_MAXSIZE_T. unfold latencyData_resize.
  change (to_u64 (-1)) with (two64 - 1).
  destruct (Z.gtb_spec (two64 - 1) latencyData_max_size); [| lia].
  cbn [bind]. eexists. split; [reflexivity |].
  split; [reflexivity |]. split; [exact Hrun |]. repeat split; reflexivity.
Qed.



(** X13: a restart keeps what was measured: when [Start] is called with
    arguments of its type on a client whose aggregator has one record per
    planned sequence number, the sequence counter is what it was, the
    final sequence number has not decreased, and every record that the
    aggregator held is still there, unchanged, at its index. *)
Theorem Start_keeps_the_measurements (w : World)
  (sendBitRate sendFrameRate duration : Z) (st : StreamClient) :
  is_ulong sendBitRate -> 8 <= sendBitRate -> is_ulong duration ->
  0 < c_bufferSize < two64 ->
  0 <= m_finalSequenceNumber st ->
  aggregator_sized st ->
  m_finalSequenceNumber st + planned sendBitRate duration <= LLONG_MAX ->
  m_finalSequenceNumber st + planned sendBitRate duration <= latencyData_max_size ->
  m_wlanHandle st = false \/ secondary_benign (network w) ->
  exists st',
    state_of (Start w sendBitRate sendFrameRate duration st) = Some st'
    /\ m_sequenceNumber st' = m_sequenceNumber st
    /\ m_finalSequenceNumber st <= m_finalSequenceNumber st'
    /\ forall (j : nat) (stat : LatencyData),
         m_latencyData st !! j = Some stat -> m_latencyData st' !! j = Some stat.
Proof.
  intros Hb Hb8 Hd Hsize Hfin0 Hsz Hsum Hfit Hsec.
  assert (HD : CalculateNumberOfDatagramToSend duration sendBitRate (to_u64 c_bufferSize)
               = Some (planned sendBitRate duration)).
  { unfold planned. rewrite to_u64_small by lia.
    rewrite CalculateNumberOfDatagramToSend_exact by (assumption || lia). reflexivity. }
  destruct (planned_count_nonneg _ _ _ _ Hd Hb ltac:(apply to_u64_range) HD) as (HD0 & _).
  destruct (CalculateTickInterval_defined sendBitRate sendFrameRate (to_u64 c_bufferSize))
    as (t & Ht).
  { unfold is_ulong, ULONG_MAX, LLONG_MAX in *. lia. }
  destruct (Start_survives w sendBitRate sendFrameRate duration st t _ Ht HD
              ltac:(lia) Hfit Hsec) as (st' & Hs & _).
  exists st'. split; [exact Hs |].
  destruct (Start_state _ _ _ _ _ _ Hs)
    as (t' & D & _ & HD' & Hfinal & Hrange & _ & _ & Hseq & Hdata).
  rewrite HD in HD'. injection HD' as <-.
  split; [exact Hseq |]. split; [lia |].
  intros j stat Hj.
  assert (Hu : to_u64 (m_finalSequenceNumber st') = m_finalSequenceNumber st')
    by (apply to_u64_small; unfold two64, LLONG_MAX in *; lia).
  destruct Hdata as [(_ & ->) | (Hbig & _)]; [| rewrite Hu in Hbig; lia].
  pose proof (lookup_lt_Some _ _ _ Hj) as Hlt.
  rewrite lookup_resize; [exact Hj | | exact Hlt].
  rewrite Hu. unfold aggregator_sized in Hsz. lia.
Qed.

End StartEdges.

(** ** What holds of a client throughout its life *)

Lemma ReceiveCompletion_out_of_range (i : Interface) (r : ReceiveResult.t)
  (st : StreamClient) :
  ReceiveResult.m_sequenceNumber r < 0
  \/ m_finalSequenceNumber st <= ReceiveResult.m_sequenceNumber r ->
  LLONG_MIN <= corrupt_counter i st < LLONG_MAX ->
  ReceiveCompletion i r st
  = Returned (set_corrupt_counter i (corrupt_counter i st + 1) st).
Proof.
  intros Hout Hc. unfold ReceiveCompletion.
  assert (Hcond : (ReceiveResult.m_sequenceNumber r <? 0)
                  || (ReceiveResult.m_sequenceNumber r >=? m_finalSequenceNumber st)
                  = true).
  { apply orb_true_iff. destruct Hout as [Hneg | Hbig].
    - left. apply Z.ltb_lt. exact Hneg.
    - right. apply Z.geb_le. exact Hbig. }
  rewrite Hcond.
  destruct i; cbn [corrupt_counter] in Hc |- *;
    rewrite add_i64_Some by lia; reflexivity.
Qed.

Lemma plan_members (a b : StreamClient) :
  plan a = plan b ->
  m_finalSequenceNumber a = m_finalSequenceNumber b
  /\ m_sequenceNumber a = m_sequenceNumber b
  /\ m_latencyData a = m_latencyData b.
Proof. unfold plan. intros [= ]. repeat split; assumption. Qed.

Section Invariant.

Context `{Collaborators}.

Lemma timer_refreshInterfaces (n : Network) (st : StreamClient) :
  m_threadpoolTimer (refreshInterfaces n st) = m_threadpoolTimer st.
Proof.
  unfold refreshInterfaces.
  destruct (negb _); [| reflexivity].
  cbn [set_primaryInterfaceGuid m_secondaryState m_adapterStatus primaryInterfaceGuid].
  destruct (AdapterStatus_eqb _ Ready);
    destruct (GetSecondaryInterfaceGuid n _); reflexivity.
Qed.

Lemma timer_connectSecondary (n : Network) (st st' : StreamClient) :
  state_of (connectSecondary n st) = Some st' ->
  m_threadpoolTimer st' = m_threadpoolTimer st.
Proof.
  unfold connectSecondary, call.
  destruct (secondary_Setup n), (secondary_CheckConnectivity n),
    (secondary_PrepareToReceive n); cbn; intros [= <-]; reflexivity.
Qed.

Lemma timer_NetworkStatusChanged (n : Network) (st st' : StreamClient) :
  NetworkStatusChanged n st = Returned st' ->
  m_threadpoolTimer st' = m_threadpoolTimer st.
Proof.
  unfold NetworkStatusChanged.
  destruct (m_networkInformationEventRevoker st); [| intros [= <-]; reflexivity].
  unfold updateSecondaryInterfaceStatus.
  pose proof (timer_refreshInterfaces n st) as Hr.
  set (st1 := refreshInterfaces n st) in *.
  destruct (_ && _); [| intros [= <-]; exact Hr].
  pose proof (timer_connectSecondary n st1) as Hc.
  destruct (connectSecondary n st1) as [s | [hr |] s | |]; try discriminate.
  - intros [= <-]. rewrite <- Hr. apply Hc. reflexivity.
  - destruct (hr =? _); [| discriminate].
    intros [= <-]. rewrite <- Hr, <- (Hc s eq_refl). reflexivity.
Qed.

(** The members that [consistent] speaks of decide it. *)
Lemma consistent_same (a b : StreamClient) :
  m_finalSequenceNumber b = m_finalSequenceNumber a ->
  m_sequenceNumber b = m_sequenceNumber a ->
  m_latencyData b = m_latencyData a ->
  m_threadpoolTimer b = m_threadpoolTimer a \/ m_threadpoolTimer b = None ->
  consistent a -> consistent b.
Proof.
  unfold consistent, aggregator_sized. intros Hf Hs Hd Ht.
  rewrite Hf, Hs, Hd.
  intros [(H1 & H2 & H3 & H4) | H2]; [left | right; exact H2].
  repeat split; try assumption. destruct Ht as [-> | ->]; [exact H4 | reflexivity].
Qed.

Lemma SendCompletion_members (i : Interface) (s : SendResult.t) (st st' : StreamClient) :
  SendCompletion i s st = Returned st' ->
  m_finalSequenceNumber st' = m_finalSequenceNumber st
  /\ m_sequenceNumber st' = m_sequenceNumber st
  /\ length (m_latencyData st') = length (m_latencyData st)
  /\ m_threadpoolTimer st' = m_threadpoolTimer st.
Proof.
  unfold SendCompletion, latencyData_store. destruct (_ >? _); [discriminate |].
  destruct (latencyData_at _ st); cbn [defined]; [| discriminate].
  intros [= <-]. cbn [m_latencyData set_latencyData]. rewrite length_insert.
  repeat split; reflexivity.
Qed.

Lemma ReceiveCompletion_members (i : Interface) (r : ReceiveResult.t)
  (st st' : StreamClient) :
  ReceiveCompletion i r st = Returned st' ->
  m_finalSequenceNumber st' = m_finalSequenceNumber st
  /\ m_sequenceNumber st' = m_sequenceNumber st
  /\ length (m_latencyData st') = length (m_latencyData st)
  /\ (m_latencyData st = [] -> m_latencyData st' = [])
  /\ m_threadpoolTimer st' = m_threadpoolTimer st.
Proof.
  unfold ReceiveCompletion, latencyData_store. destruct (_ || _).
  - destruct i;
      match goal with |- context [add_i64 ?x ?y] => destruct (add_i64 x y) end;
      cbn [defined]; try discriminate; intros [= <-]; repeat split; try reflexivity;
      intros E; exact E.
  - destruct (latencyData_at _ st); cbn [defined]; [| discriminate].
    intros [= <-]. cbn [m_latencyData set_latencyData]. rewrite length_insert.
    repeat split; try reflexivity. intros ->. reflexivity.
Qed.

Lemma step_consistent (e : Event) (st st' : StreamClient) :
  latencyData_max_size < two64 - 1 ->
  well_typed e ->
  consistent st ->
  step e st = Returned st' ->
  consistent st'.
Proof.
  intros Hmax Htyped Hc.
  destruct e as [| w b f d | | | n | i s | i r]; cbn [step].
  - intros [= <-]. unfold RequestSecondaryWlanConnection.
    destruct (negb _); [| exact Hc].
    apply (consistent_same st); try reflexivity; [left; reflexivity | exact Hc].
  - intros Hr. destruct Htyped as (Hb & _ & Hd).
    assert (Hs : state_of (Start w b f d st) = Some st') by (rewrite Hr; reflexivity).
    destruct (Start_state _ _ _ _ _ _ Hs)
      as (t & D & _ & HD & Hfinal & Hrange & _ & _ & Hseq & Hdata).
    destruct (planned_count_nonneg _ _ _ _ Hd Hb ltac:(apply to_u64_range) HD) as (HD0 & _).
    destruct Hdata as [(Hfit & Hdata) | (_ & _ & Hthrown)];
      [| rewrite Hr in Hthrown; discriminate].
    assert (Hnonneg : 0 <= m_finalSequenceNumber st').
    { destruct (Z.lt_ge_cases (m_finalSequenceNumber st') 0) as [Hneg | Hok]; [| exact Hok].
      exfalso.
      assert (E : to_u64 (m_finalSequenceNumber st') = m_finalSequenceNumber st' + two64).
      { unfold to_u64. symmetry. apply Z.mod_unique with (q := -1);
          unfold two64, LLONG_MIN in *; lia. }
      destruct Hc as [(Hm1 & _) | (Hge & _)]; [| lia].
      rewrite E in Hfit. lia. }
    right. rewrite Hseq.
    split; [destruct Hc as [(Hm1 & Hs0 & _) | (Hge & _)]; lia |].
    split; [lia |].
    unfold aggregator_sized. rewrite Hdata, length_resize.
    rewrite to_u64_small by (unfold two64, LLONG_MAX in *; lia). lia.
  - intros [= <-]. destruct (Stop_leaves st) as (_ & Htimer & Hplan).
    destruct (plan_members _ _ Hplan) as (Hfin & Hseq & Hdata).
    apply (consistent_same st); try assumption. right. exact Htimer.
  - intros Hr.
    destruct (timer_fires_sends _ _ Hr) as (Hle & Hfin & Hdata & Hbound & Hcase & _).
    destruct Hc as [(Hm1 & Hs0 & Hd0 & Ht0) | (Hseq & Hmaxf & Hsz)].
    + unfold timer_fires in Hr. rewrite Ht0 in Hr. injection Hr as <-.
      left. repeat split; assumption.
    + right. rewrite Hfin. unfold aggregator_sized. rewrite Hdata, Hfin.
      split; [lia |]. split; [exact Hmaxf | exact Hsz].
  - intros Hr.
    assert (Hp : plan st' = plan st)
      by (apply (keeps_plan_NetworkStatusChanged n); rewrite Hr; reflexivity).
    destruct (plan_members _ _ Hp) as (Hfin & Hseq & Hdata).
    apply (consistent_same st); try assumption.
    left. apply timer_NetworkStatusChanged with n. exact Hr.
  - intros Hr. destruct (SendCompletion_members _ _ _ _ Hr) as (Hfin & Hseq & Hlen & Ht).
    destruct Hc as [(Hm1 & Hs0 & Hd0 & Ht0) | (Hsq & Hmaxf & Hsz)].
    + exfalso. revert Hr. unfold SendCompletion, latencyData_at.
      rewrite to_u64_le_MAXSIZE_T, Hd0. cbv zeta. cbn [length].
      pose proof (to_u64_range (SendResult.m_sequenceNumber s)) as Hu.
      destruct (Z.ltb_spec (to_u64 (SendResult.m_sequenceNumber s)) (Z.of_nat 0));
        [lia | discriminate].
    + right. rewrite Hfin, Hseq. unfold aggregator_sized in *. rewrite Hlen, Hfin.
      repeat split; assumption || lia.
  - intros Hr.
    destruct (ReceiveCompletion_members _ _ _ _ Hr) as (Hfin & Hseq & Hlen & Hnil & Ht).
    destruct Hc as [(Hm1 & Hs0 & Hd0 & Ht0) | (Hsq & Hmaxf & Hsz)].
    + left. rewrite Hfin, Hseq, Ht. repeat split; try assumption. apply Hnil. exact Hd0.
    + right. rewrite Hfin, Hseq. unfold aggregator_sized in *. rewrite Hlen, Hfin.
      repeat split; assumption || lia.
Qed.

(** X14: whatever calls, callbacks, notifications and completions a
    client has gone through since its construction, as long as each of
    them returned (and [Start] got arguments of its type), it is
    [consistent]: either no [Start] has returned yet and it is as
    constructed in its plan, or the counter lies between 0 and the final
    sequence number and the aggregator has exactly one record for each
    sequence number below the final one. *)
Theorem every_history_leaves_the_client_consistent (es : list Event) :
  forall st : StreamClient,
    latencyData_max_size < two64 - 1 ->
    Forall well_typed es ->
    run es StreamClient_new = Returned st ->
    consistent st.
Proof.
  intros st Hmax Htyped.
  assert (Hgen : forall (es : list Event) (a b : StreamClient),
             Forall well_typed es -> consistent a -> run es a = Returned b ->
             consistent b).
  { clear es st Htyped. induction es as [| e es IH]; intros a b Ht Hc; cbn [run].
    - intros [= <-]. exact Hc.
    - destruct (step e a) as [s | x s | |] eqn:Es; cbn [bind]; try discriminate.
      intros Hr. apply (IH s b); [exact (Forall_inv_tail Ht) | | exact Hr].
      apply (step_consistent e a s Hmax (Forall_inv Ht) Hc Es). }
  apply (Hgen es StreamClient_new st Htyped).
  left. repeat split; reflexivity.
Qed.

(** X15: on a consistent client a receive completion never indexes the
    aggregator out of bounds: whatever sequence number the frame carries,
    [ReceiveCompletion] returns (the corrupt-frame counters being below
    the largest [long long]) and leaves the client consistent. *)
Theorem ReceiveCompletion_is_safe_on_a_consistent_client (i : Interface)
  (r : ReceiveResult.t) (st : StreamClient) :
  consistent st ->
  LLONG_MIN <= corrupt_counter i st < LLONG_MAX ->
  exists st', ReceiveCompletion i r st = Returned st' /\ consistent st'.
Proof.
  intros Hc Hcount.
  assert (Hret : exists st', ReceiveCompletion i r st = Returned st').
  { destruct (Z.lt_ge_cases (ReceiveResult.m_sequenceNumber r) 0) as [Hneg | Hpos];
      [eexists; apply ReceiveCompletion_out_of_range; [left; exact Hneg | exact Hcount] |].
    destruct (Z.lt_ge_cases (ReceiveResult.m_sequenceNumber r) (m_finalSequenceNumber st))
      as [Hin | Hout];
      [| eexists; apply ReceiveCompletion_out_of_range; [right; exact Hout | exact Hcount]].
    destruct Hc as [(Hm1 & _) | (_ & Hmaxf & Hsz)]; [lia |].
    destruct (ReceiveCompletion_in_range i r st) as (stat & _ & Hr);
      [lia | exact Hmaxf | exact Hsz |].
    eexists. exact Hr. }
  destruct Hret as (st' & Hr). exists st'. split; [exact Hr |].
  destruct (ReceiveCompletion_members _ _ _ _ Hr) as (Hfin & Hseq & Hlen & Hnil & Ht).
  destruct Hc as [(Hm1 & Hs0 & Hd0 & Ht0) | (Hsq & Hmaxf & Hsz)].
  - left. rewrite Hfin, Hseq, Ht. repeat split; try assumption. apply Hnil. exact Hd0.
  - right. rewrite Hfin, Hseq. unfold aggregator_sized in *. rewrite Hlen, Hfin.
    repeat split; assumption || lia.
Qed.

Lemma TimerCallback_for_never_fails_fast (remaining : nat) :
  forall (i : Z) (st : StreamClient), TimerCallback_for remaining i st <> FailFast.
Proof.
  induction remaining as [| remaining IH]; intros i st; cbn [TimerCallback_for];
    [discriminate |].
  destruct (_ && _); [| discriminate].
  unfold SendDatagrams.
  match goal with |- context [add_i64 ?x ?y] => destruct (add_i64 x y) end;
    cbn [defined bind]; [| discriminate].
  destruct (incr_int i); cbn [defined]; [apply IH | discriminate].
Qed.

(** X16: on a consistent client the check of [TimerCallback] that the
    counter has not passed the final sequence number never terminates the
    process: a callback of the timer does not fail fast, and when it
    returns the client is consistent again. *)
Theorem timer_callback_never_fails_fast_on_a_consistent_client (st : StreamClient) :
  consistent st ->
  timer_fires st <> FailFast
  /\ forall st', timer_fires st = Returned st' -> consistent st'.
Proof.
  intros Hc. split.
  - unfold timer_fires.
    destruct (m_threadpoolTimer st) as [t |] eqn:Et; [| discriminate].
    destruct Hc as [(_ & _ & _ & Ht0) | (Hseq & Hmaxf & Hsz)]; [congruence |].
    unfold TimerCallback. set (s0 := set_threadpoolTimer None st).
    destruct (negb (m_running s0)); [discriminate |].
    pose proof (TimerCallback_for_never_fails_fast (Z.to_nat (m_frameRate s0)) 0 s0) as Hnf.
    destruct (TimerCallback_for (Z.to_nat (m_frameRate s0)) 0 s0) as [s1 | e s1 | |] eqn:El;
      cbv beta iota delta [bind]; try discriminate; [| congruence].
    destruct (TimerCallback_for_sends _ _ _ _ El) as (Hrest & Hle & Hbound & _).
    pose proof (rest_final _ _ Hrest) as Hfin.
    change (m_sequenceNumber s0) with (m_sequenceNumber st) in *.
    change (m_finalSequenceNumber s0) with (m_finalSequenceNumber st) in *.
    destruct (Z.ltb_spec (m_sequenceNumber s1) (m_finalSequenceNumber s1)); [discriminate |].
    destruct (Z.gtb_spec (m_sequenceNumber s1) (m_finalSequenceNumber s1)); [lia |].
    discriminate.
  - intros st' Hr.
    destruct (timer_fires_sends _ _ Hr) as (Hle & Hfin & Hdata & Hbound & Hcase & _).
    destruct Hc as [(Hm1 & Hs0 & Hd0 & Ht0) | (Hseq & Hmaxf & Hsz)].
    + unfold timer_fires in Hr. rewrite Ht0 in Hr. injection Hr as <-.
      left. repeat split; assumption.
    + right. rewrite Hfin. unfold aggregator_sized. rewrite Hdata, Hfin.
      split; [lia |]. split; [exact Hmaxf | exact Hsz].
Qed.

End Invariant.

(** ** Notifications of the network *)

Section Notifications.

Context `{Collaborators}.

(** X17: a notification that brings no change changes nothing: when the
    primary interface is the one already known and the secondary one is
    not both [Connecting] and connected, the handler returns the client as
    it found it, without a call on any collaborator. *)
Theorem notification_without_change_is_a_no_op (n : Network) (st : StreamClient) :
  GetPrimaryInterfaceGuid n = primaryInterfaceGuid st ->
  m_adapterStatus (m_secondaryState st) <> Connecting
  \/ IsAdapterConnected n (secondaryInterfaceGuid st) = false ->
  updateSecondaryInterfaceStatus n st = Returned st
  /\ NetworkStatusChanged n st = Returned st.
Proof.
  intros Hsame Hidle.
  assert (Hu : updateSecondaryInterfaceStatus n st = Returned st).
  { unfold updateSecondaryInterfaceStatus.
    rewrite (refreshInterfaces_same_primary n st Hsame).
    destruct Hidle as [Hst | Hconn].
    - destruct (m_adapterStatus (m_secondaryState st)); try reflexivity. congruence.
    - rewrite Hconn, andb_false_r. reflexivity. }
  split; [exact Hu |].
  unfold NetworkStatusChanged. rewrite Hu.
  destruct (m_networkInformationEventRevoker st); reflexivity.
Qed.



Lemma refreshInterfaces_not_Ready (n : Network) (st : StreamClient) :
  m_adapterStatus (m_secondaryState st) <> Ready ->
  m_adapterStatus (m_secondaryState (refreshInterfaces n st)) <> Ready.
Proof.
  intros Hnr. unfold refreshInterfaces.
  destruct (negb _); [| exact Hnr].
  cbn [set_primaryInterfaceGuid m_secondaryState m_adapterStatus primaryInterfaceGuid].
  assert (E : AdapterStatus_eqb (m_adapterStatus (m_secondaryState st)) Ready = false)
    by (destruct (m_adapterStatus (m_secondaryState st)); try reflexivity; congruence).
  rewrite E.
  destruct (GetSecondaryInterfaceGuid n _); [discriminate | exact Hnr].
Qed.

(** X19: the secondary path becomes [Ready] in one way only: a path that
    was not [Ready] is [Ready] after a notification exactly when [Setup],
    [CheckConnectivity] and [PrepareToReceive] were called on it, in this
    order, as the last three calls of the handler, and all three
    returned; so receives are posted on a path before anything is sent on
    it. *)
Theorem secondary_is_Ready_only_after_its_setup (n : Network) (st st' : StreamClient) :
  m_adapterStatus (m_secondaryState st) <> Ready ->
  updateSecondaryInterfaceStatus n st = Returned st' ->
  m_adapterStatus (m_secondaryState st') = Ready ->
  first_failure n = None
  /\ exists before interfaceIndex,
       effects st'
       = before ++ [SocketSetup Secondary interfaceIndex;
                    SocketCheckConnectivity Secondary;
                    SocketPrepareToReceive Secondary].
Proof.
  intros Hnr Hr Hready.
  pose proof (refreshInterfaces_not_Ready n st Hnr) as Hnr1.
  revert Hr. unfold updateSecondaryInterfaceStatus.
  set (st1 := refreshInterfaces n st) in *.
  destruct (_ && _); [| intros [= <-]; congruence].
  pose proof (connectSecondary_result n st1) as Hc.
  destruct (first_failure n) as [e |] eqn:Ef.
  - destruct Hc as (s & -> & Hsock & _).
    destruct e as [hr |]; [| discriminate].
    destruct (hr =? _); [| discriminate].
    intros [= <-]. exfalso. revert Hready. cbn. discriminate.
  - intros Hu. split; [reflexivity |].
    revert Ef Hu. unfold first_failure, connectSecondary, call.
    destruct (secondary_Setup n); [| discriminate].
    destruct (secondary_CheckConnectivity n); [| discriminate].
    destruct (secondary_PrepareToReceive n); [| discriminate].
    intros _. cbn [bind]. intros [= <-].
    exists (effects st1), (ConvertInterfaceGuidToIndex n (secondaryInterfaceGuid st1)).
    change (((effects st1
              ++ [SocketSetup Secondary
                    (ConvertInterfaceGuidToIndex n (secondaryInterfaceGuid st1))])
             ++ [SocketCheckConnectivity Secondary])
            ++ [SocketPrepareToReceive Secondary]
            = effects st1
              ++ [SocketSetup Secondary
                    (ConvertInterfaceGuidToIndex n (secondaryInterfaceGuid st1));
                  SocketCheckConnectivity Secondary; SocketPrepareToReceive Secondary]).
    rewrite <- !app_assoc. reflexivity.
Qed.

End Notifications.

(** * The further statements at concrete inputs *)

Lemma datagram_has_the_size_of_the_send_buffer_witness :
  24 <= Z.of_nat (length example_send_buffer) < ULONG_modulus + 24
  /\ exists wire,
       datagram 5 1000 example_send_buffer = Some wire
       /\ length wire = length example_send_buffer.
Proof.
  assert (H1 : 24 <= Z.of_nat (length example_send_buffer) < ULONG_modulus + 24)
    by (vm_compute; split; congruence).
  split; [exact H1 |].
  destruct (datagram_has_the_size_of_the_send_buffer 5 1000 example_send_buffer H1)
    as (wire & Hw & Hlen & _).
  exists wire. split; [exact Hw | exact Hlen].
Defined.

Lemma ParseDatagramHeader_reads_the_request_back_witness :
  24 <= Z.of_nat (length example_send_buffer) < ULONG_modulus + 24
  /\ LLONG_MIN <= 5 <= LLONG_MAX
  /\ LLONG_MIN <= -1000 <= LLONG_MAX
  /\ exists wire,
       datagram 5 (-1000) example_send_buffer = Some wire
       /\ ParseDatagramHeader wire
          = Some (DatagramHeader.mk 5
                    (GetQpc (fst (GetBuffers (-1000)
                                    (DatagramSendRequest_new 5 example_send_buffer))))
                    0).
Proof.
  assert (H1 : 24 <= Z.of_nat (length example_send_buffer) < ULONG_modulus + 24)
    by (vm_compute; split; congruence).
  assert (H2 : LLONG_MIN <= 5 <= LLONG_MAX) by (vm_compute; split; congruence).
  assert (H3 : LLONG_MIN <= -1000 <= LLONG_MAX) by (vm_compute; split; congruence).
  repeat (split; [assumption |]).
  exact (ParseDatagramHeader_reads_the_request_back 5 (-1000) example_send_buffer H1 H2 H3).
Defined.

Lemma short_send_buffer_wraps_the_payload_length_witness :
  Z.of_nat (length short_send_buffer) < 24
  /\ datagram 5 1000 short_send_buffer = None.
Proof.
  assert (H1 : Z.of_nat (length short_send_buffer) < 24) by (vm_compute; reflexivity).
  split; [exact H1 |].
  exact (proj2 (short_send_buffer_wraps_the_payload_length 5 1000 short_send_buffer H1)).
Defined.

Lemma send_completion_writes_one_timestamp_witness :
  0 <= SendResult.m_sequenceNumber (SendResult.mk 1 7) < m_finalSequenceNumber small_client
  /\ m_finalSequenceNumber small_client <= LLONG_MAX
  /\ aggregator_sized small_client
  /\ exists stat st',
       m_latencyData small_client !! Z.to_nat (SendResult.m_sequenceNumber (SendResult.mk 1 7))
       = Some stat
       /\ SendCompletion Secondary (SendResult.mk 1 7) small_client = Returned st'
       /\ length (m_latencyData st') = length (m_latencyData small_client).
Proof.
  assert (H1 : 0 <= SendResult.m_sequenceNumber (SendResult.mk 1 7)
               < m_finalSequenceNumber small_client) by (vm_compute; split; congruence).
  assert (H2 : m_finalSequenceNumber small_client <= LLONG_MAX)
    by (vm_compute; discriminate).
  assert (H3 : aggregator_sized small_client) by (vm_compute; reflexivity).
  repeat (split; [assumption |]).
  destruct (send_completion_writes_one_timestamp Secondary
              (SendResult.mk 1 7) small_client H1 H2 H3)
    as (stat & st' & Hlk & Hr & _ & _ & _ & _ & Hlen).
  exists stat, st'. repeat split; assumption.
Defined.

Lemma completions_commute_witness :
  completion_of (SendCompletes Primary (SendResult.mk 0 7)) = Some (Primary, 0)
  /\ completion_of (ReceiveCompletes Primary (ReceiveResult.mk 1 7 5 9)) = Some (Primary, 1)
  /\ (Primary <> Primary \/ 0 <> 1)
  /\ 0 <= 0 < m_finalSequenceNumber small_client
  /\ 0 <= 1 < m_finalSequenceNumber small_client
  /\ m_finalSequenceNumber small_client <= LLONG_MAX
  /\ aggregator_sized small_client
  /\ @run reference_collaborators
       [SendCompletes Primary (SendResult.mk 0 7);
        ReceiveCompletes Primary (ReceiveResult.mk 1 7 5 9)] small_client
     = @run reference_collaborators
         [ReceiveCompletes Primary (ReceiveResult.mk 1 7 5 9);
          SendCompletes Primary (SendResult.mk 0 7)] small_client.
Proof.
  assert (H1 : completion_of (SendCompletes Primary (SendResult.mk 0 7))
               = Some (Primary, 0)) by reflexivity.
  assert (H2 : completion_of (ReceiveCompletes Primary (ReceiveResult.mk 1 7 5 9))
               = Some (Primary, 1)) by reflexivity.
  assert (H3 : Primary <> Primary \/ 0 <> 1) by (right; discriminate).
  assert (H4 : 0 <= 0 < m_finalSequenceNumber small_client)
    by (vm_compute; split; congruence).
  assert (H5 : 0 <= 1 < m_finalSequenceNumber small_client)
    by (vm_compute; split; congruence).
  assert (H6 : m_finalSequenceNumber small_client <= LLONG_MAX)
    by (vm_compute; discriminate).
  assert (H7 : aggregator_sized small_client) by (vm_compute; reflexivity).
  do 7 (split; [assumption |]).
  exact (proj1 (@completions_commute reference_collaborators _ _ Primary Primary 0 1
                  small_client H1 H2 H3 H4 H5 H6 H7)).
Defined.

Lemma completion_twice_is_once_witness :
  completion_of (ReceiveCompletes Secondary (ReceiveResult.mk 1 7 5 9)) = Some (Secondary, 1)
  /\ 0 <= 1 < m_finalSequenceNumber small_client
  /\ m_finalSequenceNumber small_client <= LLONG_MAX
  /\ aggregator_sized small_client
  /\ @run reference_collaborators
       [ReceiveCompletes Secondary (ReceiveResult.mk 1 7 5 9);
        ReceiveCompletes Secondary (ReceiveResult.mk 1 7 5 9)] small_client
     = @run reference_collaborators
         [ReceiveCompletes Secondary (ReceiveResult.mk 1 7 5 9)] small_client.
Proof.
  assert (H1 : completion_of (ReceiveCompletes Secondary (ReceiveResult.mk 1 7 5 9))
               = Some (Secondary, 1)) by reflexivity.
  assert (H2 : 0 <= 1 < m_finalSequenceNumber small_client)
    by (vm_compute; split; congruence).
  assert (H3 : m_finalSequenceNumber small_client <= LLONG_MAX)
    by (vm_compute; discriminate).
  assert (H4 : aggregator_sized small_client) by (vm_compute; reflexivity).
  do 4 (split; [assumption |]).
  exact (proj1 (@completion_twice_is_once reference_collaborators _ Secondary 1
                  small_client H1 H2 H3 H4)).
Defined.

Lemma run_sends_each_sequence_number_once_witness :
  m_finalSequenceNumber scenario_client = 2440
  /\ m_frameRate scenario_client = 50
  /\ m_sequenceNumber scenario_client = 0
  /\ scheduled scenario_client
  /\ 0 <= 2440 <= LLONG_MAX
  /\ 1 <= 50
  /\ Z.min 50 2440 <= INT_MAX
  /\ exists st',
       @timer_fires_n reference_collaborators (Z.to_nat (Z.max 1 (ceil_div 2440 50)))
         scenario_client = Returned st'
       /\ sent_on Primary (effects st')
          = sent_on Primary (effects scenario_client) ++ seqZ 0 2440.
Proof.
  assert (H1 : m_finalSequenceNumber scenario_client = 2440) by (vm_compute; reflexivity).
  assert (H2 : m_frameRate scenario_client = 50) by (vm_compute; reflexivity).
  assert (H3 : m_sequenceNumber scenario_client = 0) by (vm_compute; reflexivity).
  assert (H4 : scheduled scenario_client) by (vm_compute; split; reflexivity).
  assert (H5 : 0 <= 2440 <= LLONG_MAX) by (vm_compute; split; congruence).
  assert (H6 : 1 <= 50) by (vm_compute; congruence).
  assert (H7 : Z.min 50 2440 <= INT_MAX) by (vm_compute; congruence).
  repeat (split; [assumption |]).
  destruct (@run_sends_each_sequence_number_once reference_collaborators
              scenario_client 2440 50 H1 H2 H3 H4 H5 H6 H7)
    as (st' & Hr & _ & Hp & _).
  exists st'. split; [exact Hr | exact Hp].
Defined.

Lemma zero_frame_rate_never_stops_witness :
  scheduled stalled_client
  /\ m_frameRate stalled_client <= 0
  /\ m_sequenceNumber stalled_client < m_finalSequenceNumber stalled_client
  /\ @timer_fires_n reference_collaborators 3 stalled_client
     = Returned
         (set_effects
            (effects stalled_client
             ++ replicate 3 (TimerSchedule (m_tickInterval stalled_client)))
            stalled_client).
Proof.
  assert (H1 : scheduled stalled_client) by (vm_compute; split; reflexivity).
  assert (H2 : m_frameRate stalled_client <= 0) by (vm_compute; congruence).
  assert (H3 : m_sequenceNumber stalled_client < m_finalSequenceNumber stalled_client)
    by (vm_compute; reflexivity).
  do 3 (split; [assumption |]).
  exact (proj1 (@zero_frame_rate_never_stops reference_collaborators 3%nat
                  stalled_client H1 H2 H3)).
Defined.

Lemma planned_datagrams_fit_the_budget_witness :
  is_ulong 10 /\ is_ulong 2000000 /\ 0 < 1024
  /\ exists D,
       CalculateNumberOfDatagramToSend 10 2000000 1024 = Some D
       /\ D * 1024 <= 10 * (2000000 / 8) < (D + 1) * 1024.
Proof.
  assert (H1 : is_ulong 10) by (vm_compute; split; congruence).
  assert (H2 : is_ulong 2000000) by (vm_compute; split; congruence).
  assert (H3 : 0 < 1024) by reflexivity.
  repeat (split; [assumption |]).
  destruct (planned_datagrams_fit_the_budget 10 2000000 1024 H1 H2 H3)
    as (D & HD & _ & Hb).
  exists D. split; [exact HD | exact Hb].
Defined.

Lemma Start_without_datagrams_throws_witness :
  m_finalSequenceNumber StreamClient_new = -1
  /\ m_running StreamClient_new = false
  /\ is_ulong 2000000 /\ 8 <= 2000000 /\ is_ulong 0
  /\ 0 < @c_bufferSize reference_collaborators < two64
  /\ 0 * (2000000 / 8) < @c_bufferSize reference_collaborators
  /\ @latencyData_max_size reference_collaborators < two64 - 1
  /\ exists st',
       @Start reference_collaborators quiet_world 2000000 50 0 StreamClient_new
       = Thrown OtherException st'
       /\ m_running st' = false.
Proof.
  assert (H1 : m_finalSequenceNumber StreamClient_new = -1) by reflexivity.
  assert (H2 : m_running StreamClient_new = false) by reflexivity.
  assert (H3 : is_ulong 2000000) by (vm_compute; split; congruence).
  assert (H4 : 8 <= 2000000) by (vm_compute; congruence).
  assert (H5 : is_ulong 0) by (vm_compute; split; congruence).
  assert (H6 : 0 < @c_bufferSize reference_collaborators < two64)
    by (vm_compute; split; reflexivity).
  assert (H7 : 0 * (2000000 / 8) < @c_bufferSize reference_collaborators)
    by (vm_compute; reflexivity).
  assert (H8 : @latencyData_max_size reference_collaborators < two64 - 1)
    by (vm_compute; reflexivity).
  repeat (split; [assumption |]).
  destruct (@Start_without_datagrams_throws reference_collaborators quiet_world
              2000000 50 0 StreamClient_new H1 H2 H3 H4 H5 H6 H7 H8)
    as (st' & Hr & _ & Hrun & _).
  exists st'. split; [exact Hr | exact Hrun].
Defined.

Lemma Start_keeps_the_measurements_witness :
  is_ulong 24576 /\ 8 <= 24576 /\ is_ulong 1
  /\ 0 < @c_bufferSize reference_collaborators < two64
  /\ 0 <= m_finalSequenceNumber small_client
  /\ aggregator_sized small_client
  /\ m_finalSequenceNumber small_client + @planned reference_collaborators 24576 1
     <= LLONG_MAX
  /\ m_finalSequenceNumber small_client + @planned reference_collaborators 24576 1
     <= @latencyData_max_size reference_collaborators
  /\ (m_wlanHandle small_client = false \/ secondary_benign (network quiet_world))
  /\ exists st',
       state_of (@Start reference_collaborators quiet_world 24576 1 1 small_client)
       = Some st'
       /\ m_sequenceNumber st' = m_sequenceNumber small_client
       /\ m_finalSequenceNumber small_client <= m_finalSequenceNumber st'.
Proof.
  assert (H1 : is_ulong 24576) by (vm_compute; split; congruence).
  assert (H2 : 8 <= 24576) by (vm_compute; congruence).
  assert (H3 : is_ulong 1) by (vm_compute; split; congruence).
  assert (H4 : 0 < @c_bufferSize reference_collaborators < two64)
    by (vm_compute; split; reflexivity).
  assert (H5 : 0 <= m_finalSequenceNumber small_client) by (vm_compute; congruence).
  assert (H6 : aggregator_sized small_client) by (vm_compute; reflexivity).
  assert (H7 : m_finalSequenceNumber small_client
               + @planned reference_collaborators 24576 1 <= LLONG_MAX)
    by (vm_compute; congruence).
  assert (H8 : m_finalSequenceNumber small_client
               + @planned reference_collaborators 24576 1
               <= @latencyData_max_size reference_collaborators)
    by (vm_compute; congruence).
  assert (H9 : m_wlanHandle small_client = false \/ secondary_benign (network quiet_world))
    by (left; vm_compute; reflexivity).
  repeat (split; [assumption |]).
  destruct (@Start_keeps_the_measurements reference_collaborators quiet_world
              24576 1 1 small_client H1 H2 H3 H4 H5 H6 H7 H8 H9)
    as (st' & Hs & Hseq & Hfin & _).
  exists st'. repeat split; assumption.
Defined.

Lemma every_history_leaves_the_client_consistent_witness :
  @latencyData_max_size reference_collaborators < two64 - 1
  /\ Forall well_typed
       [CallStart quiet_world 24576 1 1; TimerFires;
        ReceiveCompletes Primary (ReceiveResult.mk 0 7 5 9); CallStop]
  /\ (exists st,
        @run reference_collaborators
          [CallStart quiet_world 24576 1 1; TimerFires;
           ReceiveCompletes Primary (ReceiveResult.mk 0 7 5 9); CallStop]
          StreamClient_new = Returned st
        /\ consistent st).
Proof.
  assert (H1 : @latencyData_max_size reference_collaborators < two64 - 1)
    by (vm_compute; reflexivity).
  assert (H2 : Forall well_typed
                 [CallStart quiet_world 24576 1 1; TimerFires;
                  ReceiveCompletes Primary (ReceiveResult.mk 0 7 5 9); CallStop]).
  { repeat constructor; vm_compute; congruence. }
  split; [exact H1 |]. split; [exact H2 |].
  eexists. split; [vm_compute; reflexivity |].
  apply (@every_history_leaves_the_client_consistent reference_collaborators
           [CallStart quiet_world 24576 1 1; TimerFires;
            ReceiveCompletes Primary (ReceiveResult.mk 0 7 5 9); CallStop]);
    [exact H1 | exact H2 | vm_compute; reflexivity].
Defined.

Lemma ReceiveCompletion_is_safe_on_a_consistent_client_witness :
  consistent small_client
  /\ LLONG_MIN <= corrupt_counter Primary small_client < LLONG_MAX
  /\ exists st',
       ReceiveCompletion Primary (ReceiveResult.mk 5 1 2 3) small_client = Returned st'
       /\ consistent st'.
Proof.
  assert (H1 : consistent small_client).
  { right. vm_compute. repeat split; congruence. }
  assert (H2 : LLONG_MIN <= corrupt_counter Primary small_client < LLONG_MAX)
    by (vm_compute; split; congruence).
  split; [exact H1 |]. split; [exact H2 |].
  exact (ReceiveCompletion_is_safe_on_a_consistent_client
           Primary (ReceiveResult.mk 5 1 2 3) small_client H1 H2).
Defined.

Lemma timer_callback_never_fails_fast_on_a_consistent_client_witness :
  consistent small_client
  /\ @timer_fires reference_collaborators small_client <> FailFast.
Proof.
  assert (H1 : consistent small_client).
  { right. vm_compute. repeat split; congruence. }
  split; [exact H1 |].
  exact (proj1 (@timer_callback_never_fails_fast_on_a_consistent_client
                  reference_collaborators small_client H1)).
Defined.

Lemma notification_without_change_is_a_no_op_witness :
  GetPrimaryInterfaceGuid ready_network = primaryInterfaceGuid ready_client
  /\ (m_adapterStatus (m_secondaryState ready_client) <> Connecting
      \/ IsAdapterConnected ready_network (secondaryInterfaceGuid ready_client) = false)
  /\ @NetworkStatusChanged reference_collaborators ready_network ready_client
     = Returned ready_client.
Proof.
  assert (H1 : GetPrimaryInterfaceGuid ready_network = primaryInterfaceGuid ready_client)
    by (vm_compute; reflexivity).
  assert (H2 : m_adapterStatus (m_secondaryState ready_client) <> Connecting
               \/ IsAdapterConnected ready_network (secondaryInterfaceGuid ready_client)
                  = false) by (left; vm_compute; discriminate).
  split; [exact H1 |]. split; [exact H2 |].
  exact (proj2 (@notification_without_change_is_a_no_op reference_collaborators
                  ready_network ready_client H1 H2)).
Defined.

Lemma secondary_is_Ready_only_after_its_setup_witness :
  m_adapterStatus (m_secondaryState StreamClient_new) <> Ready
  /\ @updateSecondaryInterfaceStatus reference_collaborators ready_network StreamClient_new
     = Returned ready_client
  /\ m_adapterStatus (m_secondaryState ready_client) = Ready
  /\ first_failure ready_network = None.
Proof.
  assert (H1 : m_adapterStatus (m_secondaryState StreamClient_new) <> Ready)
    by (vm_compute; discriminate).
  assert (H2 : @updateSecondaryInterfaceStatus reference_collaborators ready_network
                 StreamClient_new = Returned ready_client) by (vm_compute; reflexivity).
  assert (H3 : m_adapterStatus (m_secondaryState ready_client) = Ready)
    by (vm_compute; reflexivity).
  do 3 (split; [assumption |]).
  exact (proj1 (@secondary_is_Ready_only_after_its_setup reference_collaborators
                  ready_network StreamClient_new ready_client H1 H2 H3)).
Defined.
